(** * charmhelpers.contrib.openstack.ha.utils — helpers for high availability

    A shallow embedding of [charmhelpers/contrib/openstack/ha/utils.py] and
    the properties of its four entry points: [expect_ha],
    [update_hacluster_vip], [update_hacluster_dns_ha] and
    [generate_ha_relation_data].

    Conventions of the embedding.
    - A Python [str] is a [string]; each character stands for the code point
      of the same number (U+0000 .. U+00FF).
    - A Python [dict] is an association list in insertion order
      ([dict_set] replaces in place or appends, as CPython does).
    - Exceptions are values of [exn]; a function that may raise, write the
      unit status, log, or read the charm configuration lives in the monad
      [M], whose state is the list of effects performed so far.
    - The collaborators imported from other modules (the charm
      configuration behind [config], [expected_related_units],
      [lsb_release], [resolve_address], [is_ipv6], [get_iface_for_address],
      [get_netmask_for_address], [get_hacluster_config]) are the fields of
      the record [env]. *)

From Stdlib Require Import ZArith List String Ascii Bool Lia Permutation Sorted.
From Stdlib Require Import Numbers.DecimalString Structures.OrderedTypeEx.
Import ListNotations.

Local Open Scope list_scope.
Local Open Scope string_scope.

(** ** hashlib.sha1 (FIPS 180-4), on 32-bit words kept in [Z] *)

Module Sha1.
Local Open Scope Z_scope.

Definition w32 (x : Z) : Z := x mod 2 ^ 32.

Definition rotl (n x : Z) : Z :=
  w32 (Z.lor (Z.shiftl x n) (Z.shiftr x (32 - n))).

Definition add32 (x y : Z) : Z := w32 (x + y).

(** Big-endian bytes of a [n]-byte quantity. *)
Fixpoint be_bytes (n : nat) (x : Z) : list Z :=
  match n with
  | O => []
  | S n' => Z.shiftr x (8 * Z.of_nat n') mod 256 :: be_bytes n' x
  end.

Definition pad (msg : list Z) : list Z :=
  let len := Z.of_nat (List.length msg) in
  msg ++ [128] ++ repeat 0 (Z.to_nat ((55 - len) mod 64))
      ++ be_bytes 8 (8 * len).

Fixpoint words (n : nat) (bs : list Z) : list Z :=
  match n with
  | O => []
  | S n' =>
      match bs with
      | b0 :: b1 :: b2 :: b3 :: rest =>
          (((b0 * 256 + b1) * 256 + b2) * 256 + b3) :: words n' rest
      | _ => []
      end
  end.

Definition wd (w : list Z) (i : nat) : Z := nth i w 0.

(** Message schedule: extends the 16 words of a block by [n] more. *)
Fixpoint schedule (n : nat) (w : list Z) : list Z :=
  match n with
  | O => w
  | S n' =>
      let t := List.length w in
      let x := Z.lxor (Z.lxor (wd w (t - 3)) (wd w (t - 8)))
                      (Z.lxor (wd w (t - 14)) (wd w (t - 16))) in
      schedule n' (w ++ [rotl 1 x])
  end.

Definition f_t (t : nat) (b c d : Z) : Z :=
  if (t <? 20)%nat then Z.lor (Z.land b c) (Z.land (w32 (Z.lnot b)) d)
  else if (t <? 40)%nat then Z.lxor (Z.lxor b c) d
  else if (t <? 60)%nat then
    Z.lor (Z.lor (Z.land b c) (Z.land b d)) (Z.land c d)
  else Z.lxor (Z.lxor b c) d.

Definition k_t (t : nat) : Z :=
  if (t <? 20)%nat then 0x5A827999
  else if (t <? 40)%nat then 0x6ED9EBA1
  else if (t <? 60)%nat then 0x8F1BBCDC
  else 0xCA62C1D6.

Record regs := Regs { ra : Z; rb : Z; rc : Z; rd : Z; re : Z }.

Definition round (r : regs) (tw : nat * Z) : regs :=
  let '(t, wt) := tw in
  let tmp := add32 (add32 (add32 (add32 (rotl 5 (ra r))
               (f_t t (rb r) (rc r) (rd r))) (re r)) (k_t t)) wt in
  Regs tmp (ra r) (rotl 30 (rb r)) (rc r) (rd r).

Definition compress (h : regs) (block : list Z) : regs :=
  let w := schedule 64 (words 16 block) in
  let r := fold_left round (combine (seq 0 80) w) h in
  Regs (add32 (ra h) (ra r)) (add32 (rb h) (rb r)) (add32 (rc h) (rc r))
       (add32 (rd h) (rd r)) (add32 (re h) (re r)).

Fixpoint blocks (n : nat) (bs : list Z) (h : regs) : regs :=
  match n with
  | O => h
  | S n' => blocks n' (skipn 64 bs) (compress h (firstn 64 bs))
  end.

Definition init : regs :=
  Regs 0x67452301 0xEFCDAB89 0x98BADCFE 0x10325476 0xC3D2E1F0.

(** The 20 digest bytes. *)
Definition digest (msg : list Z) : list Z :=
  let p := pad msg in
  let h := blocks (List.length p / 64) p init in
  be_bytes 4 (ra h) ++ be_bytes 4 (rb h) ++ be_bytes 4 (rc h)
    ++ be_bytes 4 (rd h) ++ be_bytes 4 (re h).

Definition hex_digit (x : Z) : ascii :=
  ascii_of_nat (Z.to_nat (if x <? 10 then 48 + x else 87 + x)).

Fixpoint hex (bs : list Z) : string :=
  match bs with
  | [] => EmptyString
  | b :: bs' => String (hex_digit (b / 16)) (String (hex_digit (b mod 16)) (hex bs'))
  end.

(** [hashlib.sha1(b).hexdigest()] *)
Definition hexdigest (msg : list Z) : string := hex (digest msg).
End Sha1.

(** [s.encode('UTF-8')] for code points below U+0100. *)
Fixpoint encode_utf8 (s : string) : list Z :=
  match s with
  | EmptyString => []
  | String c s' =>
      let n := Z.of_nat (nat_of_ascii c) in
      if (n <? 128)%Z then n :: encode_utf8 s'
      else (192 + n / 64)%Z :: (128 + n mod 64)%Z :: encode_utf8 s'
  end.

(** [s[:n]] *)
Fixpoint take (n : nat) (s : string) : string :=
  match n, s with
  | S n', String c s' => String c (take n' s')
  | _, _ => EmptyString
  end.

Definition sha1_hex (s : string) : string := Sha1.hexdigest (encode_utf8 s).

(** ** Python values and strings *)

(** The values a charm configuration option can hold ([None] when unset). *)
Inductive pyval :=
| PNone
| PBool (b : bool)
| PInt (z : Z)
| PStr (s : string).

(** Truth value of a configuration value, as [if v:] tests it. *)
Definition truthy (v : pyval) : bool :=
  match v with
  | PNone => false
  | PBool b => b
  | PInt z => negb (z =? 0)%Z
  | PStr s => negb (s =? "")
  end.

(** ['{}'.format(v)] *)
Definition py_str (v : pyval) : string :=
  match v with
  | PNone => "None"
  | PBool true => "True"
  | PBool false => "False"
  | PInt z => NilEmpty.string_of_int (Z.to_int z)
  | PStr s => s
  end.

Definition is_none (v : pyval) : bool :=
  match v with PNone => true | _ => false end.

Definition of_option (o : option string) : pyval :=
  match o with Some s => PStr s | None => PNone end.

Definition code (c : ascii) : nat := nat_of_ascii c.

(** [c.isspace()] for the code points below U+0100. *)
Definition is_space (c : ascii) : bool :=
  let n := code c in
  ((9 <=? n) && (n <=? 13) || (28 <=? n) && (n <=? 32)
   || (n =? 133) || (n =? 160))%nat.

Definition cons_head (c : ascii) (l : list string) : list string :=
  match l with
  | [] => [String c ""]
  | t :: l' => String c t :: l'
  end.

(** [s.split()]: the maximal runs of non-space characters. *)
Fixpoint split (s : string) : list string :=
  match s with
  | EmptyString => []
  | String c s' =>
      if is_space c then split s'
      else match s' with
           | EmptyString => [String c ""]
           | String c' _ =>
               if is_space c' then String c "" :: split s'
               else cons_head c (split s')
           end
  end.

(** [sep.join(l)] *)
Fixpoint join (sep : string) (l : list string) : string :=
  match l with
  | [] => ""
  | [x] => x
  | x :: l' => x ++ sep ++ join sep l'
  end.

(** [x in l] for a list of strings. *)
Definition mem (x : string) (l : list string) : bool :=
  existsb (String.eqb x) l.

Fixpoint drop (n : nat) (s : string) : string :=
  match n, s with
  | S n', String _ s' => drop n' s'
  | _, _ => s
  end.

(** ** re.search('os-(.+?)-hostname', setting) *)

Definition newline : ascii := ascii_of_nat 10.

(** Matches [(.+?)-hostname] at the head of [rest]; the group is the
    shortest non-empty run without a newline followed by [-hostname]. *)
Fixpoint lazy_group (rest : string) : option string :=
  match rest with
  | EmptyString => None
  | String c rest' =>
      if Ascii.eqb c newline then None
      else if prefix "-hostname" rest' then Some (String c "")
      else match lazy_group rest' with
           | Some g => Some (String c g)
           | None => None
           end
  end.

(** The group of the leftmost match, or [None]. *)
Fixpoint re_search (s : string) : option string :=
  match s with
  | EmptyString => None
  | String _ s' =>
      match (if prefix "os-" s then lazy_group (drop 3 s) else None) with
      | Some g => Some g
      | None => re_search s'
      end
  end.

(** ** Dictionaries *)

Section Dict.
Context {V : Type}.

Definition dict := list (string * V).

(** [d.get(k)] *)
Fixpoint dict_get (k : string) (d : dict) : option V :=
  match d with
  | [] => None
  | (k', v) :: d' => if k =? k' then Some v else dict_get k d'
  end.

(** [d[k] = v]: an existing key keeps its place, a new one goes last. *)
Fixpoint dict_set (k : string) (v : V) (d : dict) : dict :=
  match d with
  | [] => [(k, v)]
  | (k', v') :: d' =>
      if k =? k' then (k, v) :: d' else (k', v') :: dict_set k v d'
  end.

Definition keys (d : dict) : list string := map fst d.

(** [d.update(d2)] for a mapping [d2]. *)
Definition dict_update (d d2 : dict) : dict :=
  fold_left (fun acc kv => dict_set (fst kv) (snd kv) acc) d2 d.
End Dict.

Arguments dict : clear implicits.

(** ** Relation data and its JSON encoding *)

(** The values held in the relation data: resource names and descriptors
    (strings), the list of resources to delete, and the mappings. *)
#[local] Unset Elimination Schemes.
Inductive jval :=
| JStr (s : string)
| JList (l : list jval)
| JDict (d : list (string * jval)).
#[local] Set Elimination Schemes.

Definition rdata := dict jval.

(** [if v:] — a string, list or dict is true when it is not empty. *)
Definition nonempty (v : jval) : bool :=
  match v with
  | JStr "" | JList [] | JDict [] => false
  | _ => true
  end.

Definition hex2 (n : nat) : string :=
  String (Sha1.hex_digit (Z.of_nat (n / 16)))
    (String (Sha1.hex_digit (Z.of_nat (n mod 16))) "").

Definition dquote : string := String (ascii_of_nat 34) "".

(** One character of a string under [ensure_ascii=True]. *)
Definition escape_char (c : ascii) : string :=
  let n := code c in
  if (n =? 34)%nat then "\" ++ dquote
  else if (n =? 92)%nat then "\\"
  else if (n =? 10)%nat then "\n"
  else if (n =? 13)%nat then "\r"
  else if (n =? 9)%nat then "\t"
  else if (n =? 8)%nat then "\b"
  else if (n =? 12)%nat then "\f"
  else if ((n <? 32) || (126 <? n))%nat then "\u00" ++ hex2 n
  else String c "".

Fixpoint escape (s : string) : string :=
  match s with
  | EmptyString => ""
  | String c s' => escape_char c ++ escape s'
  end.

Definition quote (s : string) : string := dquote ++ escape s ++ dquote.

(** [sorted(items)] on the keys (they are unique in a dict). *)
Fixpoint insert_item {A} (x : string * A) (l : list (string * A)) :=
  match l with
  | [] => [x]
  | y :: l' =>
      if (fst x <=? fst y)%string then x :: l else y :: insert_item x l'
  end.

Definition sort_items {A} (l : list (string * A)) : list (string * A) :=
  fold_right insert_item [] l.

Definition item (kv : string * string) : string :=
  quote (fst kv) ++ ":" ++ snd kv.

(** [json.dumps(v, sort_keys=True, allow_nan=False, indent=None,
    separators=(',', ':'))].  The items of a dict are ordered by key; the
    encoding of each value is computed before the ordering, which gives the
    same string. *)
Fixpoint json_dumps (v : jval) : string :=
  match v with
  | JStr s => quote s
  | JList l => "[" ++ join "," (map json_dumps l) ++ "]"
  | JDict d =>
      "{" ++ join ","
               (map item
                  (sort_items
                     (map (fun kv => let '(k, x) := kv in (k, json_dumps x)) d)))
          ++ "}"
  end.

(** ** Exceptions and effects *)

Inductive exn :=
| DNSHAException (msg : string)
| KeyError (key : string)
| TypeError
| ValueError
| AttributeError
| NotImplementedError.

Inductive result (A : Type) :=
| Ok (a : A)
| Raise (x : exn).

Arguments Ok {A} a.
Arguments Raise {A} x.

(** What the module does to the outside world, in the order it does it. *)
Inductive event :=
| StatusSet (state msg : string)   (* status_set(state, msg) *)
| Log (msg level : string)         (* log(msg, level) *)
| ConfigRead (key : string).       (* config(key) *)

(** A computation appends to the effects performed so far and either returns
    or raises. *)
Definition M (A : Type) : Type := list event -> result A * list event.

Definition ret {A} (a : A) : M A := fun t => (Ok a, t).

Definition raise {A} (x : exn) : M A := fun t => (Raise x, t).

Definition bind {A B} (m : M A) (k : A -> M B) : M B :=
  fun t =>
    match m t with
    | (Ok a, t') => k a t'
    | (Raise x, t') => (Raise x, t')
    end.

Definition lift {A} (r : result A) : M A := fun t => (r, t).

Definition emit (ev : event) : M unit := fun t => (Ok tt, (t ++ [ev])%list).

Notation "x <- m ;; k" := (bind m (fun x => k))
  (at level 61, m at next level, right associativity).
Notation "m ;;; k" := (bind m (fun _ => k))
  (at level 61, right associativity).

(** [for x in l: s = body(s, x)] *)
Fixpoint for_each {A S} (l : list A) (body : S -> A -> M S) (s : S) : M S :=
  match l with
  | [] => ret s
  | x :: l' => s' <- body s x ;; for_each l' body s'
  end.

(** ** Collaborators *)

Record env := Env {
  (** [hookenv.config(key)]; [PNone] when the option is unset *)
  charm_config : string -> pyval;
  (** [hookenv.expected_related_units(reltype)] *)
  expected_related_units : string -> result (list string);
  (** [host.lsb_release()] *)
  lsb_release : dict string;
  (** [openstack.ip.resolve_address(endpoint_type, override)] *)
  resolve_address : string -> bool -> string;
  (** [openstack.ip.is_ipv6(address)] *)
  is_ipv6 : string -> bool;
  (** [network.ip.get_iface_for_address(address)] *)
  get_iface_for_address : string -> option string;
  (** [network.ip.get_netmask_for_address(address)] *)
  get_netmask_for_address : string -> option string;
  (** [hahelpers.cluster.get_hacluster_config()] *)
  get_hacluster_config : dict string
}.

Definition VIP_GROUP_NAME (service : string) : string :=
  "grp_" ++ service ++ "_vips".

Definition DNSHA_GROUP_NAME (service : string) : string :=
  "grp_" ++ service ++ "_hostnames".

Definition DEBUG : string := "DEBUG".

(** [s] between double quotes, as the format strings write it. *)
Definition quoted (s : string) : string := dquote ++ s ++ dquote.

(** [relation_data[outer][key] = v] *)
Definition set_item (rd : rdata) (outer key : string) (v : jval)
  : result rdata :=
  match dict_get outer rd with
  | None => Raise (KeyError outer)
  | Some (JDict d) => Ok (dict_set outer (JDict (dict_set key v d)) rd)
  | Some _ => Raise TypeError
  end.

(** One element of a non-mapping argument of [dict.update]: a sequence of
    length two whose first component is hashable. *)
Definition pair_of (x : jval) : result (string * jval) :=
  match x with
  | JStr (String a (String b EmptyString)) =>
      Ok (String a "", JStr (String b ""))
  | JList [JStr k; v] => Ok (k, v)
  | JList [_; _] => Raise TypeError
  | JDict [(k1, _); (k2, _)] => Ok (k1, JStr k2)
  | _ => Raise ValueError
  end.

Fixpoint update_from_seq (d : dict jval) (l : list jval)
  : result (dict jval) :=
  match l with
  | [] => Ok d
  | x :: l' =>
      match pair_of x with
      | Ok (k, v) => update_from_seq (dict_set k v d) l'
      | Raise err => Raise err
      end
  end.

Fixpoint chars (s : string) : list jval :=
  match s with
  | EmptyString => []
  | String c s' => JStr (String c "") :: chars s'
  end.

(** [cur.update(v)] *)
Definition py_update (cur v : jval) : result jval :=
  match cur with
  | JDict d =>
      match v with
      | JDict d2 => Ok (JDict (dict_update d d2))
      | JList l =>
          match update_from_seq d l with
          | Ok d' => Ok (JDict d')
          | Raise err => Raise err
          end
      | JStr s =>
          match update_from_seq d (chars s) with
          | Ok d' => Ok (JDict d')
          | Raise err => Raise err
          end
      end
  | _ => Raise AttributeError
  end.

(** [{f(k): g(v) for k, v in items}] *)
Definition dict_of_items {V} (items : list (string * V)) : dict V :=
  fold_left (fun acc kv => dict_set (fst kv) (snd kv) acc) items [].

(** ** The module *)

Section HA.
Variable e : env.

Definition config (key : string) : M pyval :=
  emit (ConfigRead key) ;;; ret (charm_config e key).

Definition status_set (state msg : string) : M unit :=
  emit (StatusSet state msg).

Definition log (msg level : string) : M unit := emit (Log msg level).

Definition assert_charm_supports_dns_ha : M bool :=
  match dict_get "DISTRIB_RELEASE" (lsb_release e) with
  | None => raise TypeError
  | Some release =>
      if (release <? "16.04")%string then
        let msg := "DNS HA is only supported on 16.04 and greater "
                   ++ "versions of Ubuntu." in
        status_set "blocked" msg ;;;
        raise (DNSHAException msg)
      else ret true
  end.

Definition expect_ha : M pyval :=
  ha_related_units <-
    lift match expected_related_units e "ha" with
         | Ok units => Ok units
         | Raise NotImplementedError | Raise (KeyError _) => Ok []
         | Raise x => Raise x
         end ;;
  if (0 <? List.length ha_related_units)%nat then ret (PBool true)
  else
    vip <- config "vip" ;;
    if truthy vip then ret vip else config "dns-ha".

(** *** update_hacluster_dns_ha *)

Definition dns_settings : list string :=
  ["os-admin-hostname"; "os-internal-hostname";
   "os-public-hostname"; "os-access-hostname"].

(** The body of the loop over the settings; the state is the relation
    data and [hostname_group]. *)
Definition dns_step (service crm_ocf : string)
           (st : rdata * list string) (setting : string)
  : M (rdata * list string) :=
  let '(relation_data, hostname_group) := st in
  hostname <- config setting ;;
  if is_none hostname then
    log ("DNS HA: Hostname setting " ++ setting ++ " is None. Ignoring.")
        DEBUG ;;;
    ret st
  else
    match re_search setting with
    | None =>
        let msg := "Unexpected DNS hostname setting: " ++ setting ++ ". "
                   ++ "Cannot determine endpoint_type name" in
        status_set "blocked" msg ;;;
        raise (DNSHAException msg)
    | Some g =>
        let endpoint_type := if g =? "internal" then "int" else g in
        let hostname_key :=
          "res_" ++ service ++ "_" ++ endpoint_type ++ "_hostname" in
        if mem hostname_key hostname_group then
          log ("DNS HA: Resource " ++ hostname_key ++ ": "
               ++ py_str hostname ++ " already exists in "
               ++ "hostname group - skipping") DEBUG ;;;
          ret st
        else
          let hostname_group := (hostname_group ++ [hostname_key])%list in
          rd1 <- lift (set_item relation_data "resources" hostname_key
                                (JStr crm_ocf)) ;;
          rd2 <- lift (set_item rd1 "resource_params" hostname_key
                         (JStr ("params fqdn=" ++ quoted (py_str hostname)
                                ++ " ip_address="
                                ++ quoted (resolve_address e endpoint_type
                                                           false)))) ;;
          ret (rd2, hostname_group)
    end.

(** What follows the loop. *)
Definition dns_finish (service : string) (st : rdata * list string)
  : M rdata :=
  let '(relation_data, hostname_group) := st in
  if (1 <=? List.length hostname_group)%nat then
    log ("DNS HA: Hostname group is set with "
         ++ join " " hostname_group ++ " as members. "
         ++ "Informing the ha relation") DEBUG ;;;
    ret (dict_set "groups"
           (JDict [(DNSHA_GROUP_NAME service,
                    JStr (join " " hostname_group))])
           relation_data)
  else
    let msg := "DNS HA: Hostname group has no members." in
    status_set "blocked" msg ;;;
    raise (DNSHAException msg).

Definition update_hacluster_dns_ha (service : string)
           (relation_data : rdata) (crm_ocf : string) : M rdata :=
  assert_charm_supports_dns_ha ;;;
  st <- for_each dns_settings (dns_step service crm_ocf)
                 (relation_data, []) ;;
  dns_finish service st.

(** *** update_hacluster_vip *)

Definition get_vip_settings (vip : string) : M (pyval * pyval * bool) :=
  let iface := of_option (get_iface_for_address e vip) in
  let netmask := of_option (get_netmask_for_address e vip) in
  let fallback := false in
  st1 <- (if is_none iface
          then v <- config "vip_iface" ;; ret (v, true)
          else ret (iface, fallback)) ;;
  let '(iface, fallback) := st1 in
  st2 <- (if is_none netmask
          then v <- config "vip_cidr" ;; ret (v, true)
          else ret (netmask, fallback)) ;;
  let '(netmask, fallback) := st2 in
  ret (iface, netmask, fallback).

Definition vip_monitoring : string :=
  "op monitor depth=" ++ quoted "0" ++ " timeout=" ++ quoted "20s"
  ++ " interval=" ++ quoted "10s".

(** The state of the loop over the VIPs. *)
Record vip_state := VipState {
  vs_data : rdata;                 (* relation_data *)
  vs_group : list string;          (* vip_group *)
  vs_delete : list string          (* vips_to_delete *)
}.

Definition vip_step (service : string) (st : vip_state) (vip : string)
  : M vip_state :=
  let '(res_vip, vip_params) :=
    if is_ipv6 e vip then ("ocf:heartbeat:IPv6addr", "ipv6addr")
    else ("ocf:heartbeat:IPaddr2", "ip") in
  s <- get_vip_settings vip ;;
  let '(iface, netmask, fallback) := s in
  if negb (is_none iface) then
    let vip_key := "res_" ++ service ++ "_" ++ py_str iface ++ "_vip" in
    let vip_key :=
      if mem vip_key (vs_delete st) then vip_key ++ "_" ++ vip_params
      else vip_key in
    let vips_to_delete := (vs_delete st ++ [vip_key])%list in
    let vip_key :=
      "res_" ++ service ++ "_" ++ take 7 (sha1_hex vip) ++ "_vip" in
    rd1 <- lift (set_item (vs_data st) "resources" vip_key (JStr res_vip)) ;;
    rd2 <- lift (set_item rd1 "resource_params" vip_key
                   (JStr (if fallback then
                            "params " ++ vip_params ++ "=" ++ quoted vip
                            ++ " cidr_netmask=" ++ quoted (py_str netmask)
                            ++ " nic=" ++ quoted (py_str iface)
                            ++ " " ++ vip_monitoring
                          else
                            "params " ++ vip_params ++ "=" ++ quoted vip
                            ++ " " ++ vip_monitoring))) ;;
    ret (VipState rd2 (vs_group st ++ [vip_key])%list vips_to_delete)
  else ret st.

(** [relation_data['delete_resources'].extend(vips_to_delete)], or the
    assignment when the key is missing. *)
Definition extend_delete (rd : rdata) (vips_to_delete : list string)
  : result rdata :=
  match dict_get "delete_resources" rd with
  | None =>
      Ok (dict_set "delete_resources" (JList (map JStr vips_to_delete)) rd)
  | Some (JList l) =>
      Ok (dict_set "delete_resources"
            (JList (l ++ map JStr vips_to_delete)%list) rd)
  | Some _ => Raise AttributeError
  end.

(** [relation_data['groups'][key] = members], or a fresh [groups] when the
    key is missing. *)
Definition set_group (rd : rdata) (key members : string) : result rdata :=
  match dict_get "groups" rd with
  | None => Ok (dict_set "groups" (JDict [(key, JStr members)]) rd)
  | Some _ => set_item rd "groups" key (JStr members)
  end.

Definition vip_finish (service : string) (st : vip_state) : M rdata :=
  rd1 <- (match vs_delete st with
          | [] => ret (vs_data st)
          | _ => lift (extend_delete (vs_data st) (vs_delete st))
          end) ;;
  if (1 <=? List.length (vs_group st))%nat then
    lift (set_group rd1 (VIP_GROUP_NAME service) (join " " (vs_group st)))
  else ret rd1.

Definition update_hacluster_vip (service : string) (relation_data : rdata)
  : M rdata :=
  match dict_get "vip" (get_hacluster_config e) with
  | None => raise (KeyError "vip")
  | Some vips =>
      st <- for_each (split vips) (vip_step service)
                     (VipState relation_data [] []) ;;
      vip_finish service st
  end.

(** *** generate_ha_relation_data *)

(** One iteration of the loop over [extra_settings.items()]. *)
Definition merge_extra (rd : rdata) (kv : string * jval) : result rdata :=
  let '(k, v) := kv in
  match dict_get k rd with
  | Some cur =>
      if nonempty cur then
        match py_update cur v with
        | Ok cur' => Ok (dict_set k cur' rd)
        | Raise err => Raise err
        end
      else Ok (dict_set k v rd)
  | None => Ok (dict_set k v rd)
  end.

Fixpoint merge_extras (rd : rdata) (items : list (string * jval))
  : result rdata :=
  match items with
  | [] => Ok rd
  | kv :: items' =>
      match merge_extra rd kv with
      | Ok rd' => merge_extras rd' items'
      | Raise err => Raise err
      end
  end.

(** [_relation_data] after the haproxy defaults. *)
Definition initial_data (service : string) (haproxy_enabled : bool)
  : rdata :=
  let rd := [("resources", JDict []); ("resource_params", JDict [])] in
  if haproxy_enabled then
    let _haproxy_res := "res_" ++ service ++ "_haproxy" in
    let rd := dict_set "resources"
                (JDict [(_haproxy_res, JStr "lsb:haproxy")]) rd in
    let rd := dict_set "resource_params"
                (JDict [(_haproxy_res,
                         JStr ("op monitor interval=" ++ quoted "5s"))])
                rd in
    let rd := dict_set "init_services"
                (JDict [(_haproxy_res, JStr "haproxy")]) rd in
    dict_set "clones"
      (JDict [("cl_" ++ service ++ "_haproxy", JStr _haproxy_res)]) rd
  else rd.

(** [_relation_data] as it stands before the [return]. *)
Definition assemble (service : string) (haproxy_enabled : bool)
           (extra_settings : option (dict jval)) : M rdata :=
  let rd := initial_data service haproxy_enabled in
  rd <- lift (match extra_settings with
              | Some items => merge_extras rd items
              | None => Ok rd
              end) ;;
  dns_ha <- config "dns-ha" ;;
  if truthy dns_ha then update_hacluster_dns_ha service rd "ocf:maas:dns"
  else update_hacluster_vip service rd.

(** The dict comprehension of the [return]. *)
Definition encode (rd : rdata) : dict string :=
  dict_of_items
    (map (fun kv => ("json_" ++ fst kv, json_dumps (snd kv)))
         (filter (fun kv => nonempty (snd kv)) rd)).

Definition generate_ha_relation_data (service : string)
           (haproxy_enabled : bool) (extra_settings : option (dict jval))
  : M (dict string) :=
  rd <- assemble service haproxy_enabled extra_settings ;;
  ret (encode rd).
End HA.

(** ** Concrete deployments, used to run the model *)

Module Examples.
(** Service [nova] with the VIP 10.0.0.5 found on [eth0]. *)
Definition nova_env : env := {|
  charm_config := fun k => if k =? "vip" then PStr "10.0.0.5" else PNone;
  expected_related_units := fun _ => Raise NotImplementedError;
  lsb_release := [("DISTRIB_RELEASE", "16.04")];
  resolve_address := fun _ _ => "10.0.0.2";
  is_ipv6 := fun a => existsb (Ascii.eqb ":") (list_ascii_of_string a);
  get_iface_for_address :=
    fun a => if a =? "10.0.0.5" then Some "eth0" else None;
  get_netmask_for_address :=
    fun a => if a =? "10.0.0.5" then Some "255.255.255.0" else None;
  get_hacluster_config := [("vip", "10.0.0.5")]
|}.

(** The same deployment with a VIP string [vips] whose addresses are all
    on [eth0]. *)
Definition eth0_env (vips : string) : env := {|
  charm_config := fun k => if k =? "vip" then PStr vips else PNone;
  expected_related_units := fun _ => Ok [];
  lsb_release := [("DISTRIB_RELEASE", "16.04")];
  resolve_address := fun _ _ => "10.0.0.2";
  is_ipv6 := fun a => existsb (Ascii.eqb ":") (list_ascii_of_string a);
  get_iface_for_address := fun _ => Some "eth0";
  get_netmask_for_address := fun _ => Some "255.255.255.0";
  get_hacluster_config := [("vip", vips)]
|}.

(** No interface is found for any address; the fallback options
    [vip_iface] and [vip_cidr] hold [iface] and [cidr]. *)
Definition fallback_env (vips : string) (iface cidr : pyval) : env := {|
  charm_config := fun k =>
    if k =? "vip" then PStr vips
    else if k =? "vip_iface" then iface
    else if k =? "vip_cidr" then cidr
    else PNone;
  expected_related_units := fun _ => Raise (KeyError "ha");
  lsb_release := [("DISTRIB_RELEASE", "16.04")];
  resolve_address := fun _ _ => "10.0.0.2";
  is_ipv6 := fun a => existsb (Ascii.eqb ":") (list_ascii_of_string a);
  get_iface_for_address := fun _ => None;
  get_netmask_for_address := fun _ => None;
  get_hacluster_config := [("vip", vips)]
|}.

(** DNS HA on [release], with the hostname options given by [hostnames]. *)
Definition dns_env (release : string) (hostnames : dict string) : env := {|
  charm_config := fun k =>
    if k =? "dns-ha" then PBool true
    else of_option (dict_get k hostnames);
  expected_related_units := fun _ => Ok ["hacluster/0"];
  lsb_release := [("DISTRIB_RELEASE", release)];
  resolve_address := fun endpoint_type _ =>
    if endpoint_type =? "int" then "10.0.1.2" else "10.0.0.2";
  is_ipv6 := fun _ => false;
  get_iface_for_address := fun _ => None;
  get_netmask_for_address := fun _ => None;
  get_hacluster_config := []
|}.
End Examples.

(** ** Derived notions

    Names for what the VIP resource builder computes along the way; each is
    an expression of [get_vip_settings] or [update_hacluster_vip]. *)

Section VipNotions.
Variable e : env.
Variable service : string.

(** The interface and netmask [get_vip_settings] settles on, whether it
    fell back on the configuration, and the options it read. *)
Definition vip_iface (vip : string) : pyval :=
  match get_iface_for_address e vip with
  | Some i => PStr i
  | None => charm_config e "vip_iface"
  end.

Definition vip_netmask (vip : string) : pyval :=
  match get_netmask_for_address e vip with
  | Some m => PStr m
  | None => charm_config e "vip_cidr"
  end.

Definition vip_fallback (vip : string) : bool :=
  match get_iface_for_address e vip, get_netmask_for_address e vip with
  | Some _, Some _ => false
  | _, _ => true
  end.

Definition vip_reads (vip : string) : list event :=
  ((match get_iface_for_address e vip with
    | Some _ => []
    | None => [ConfigRead "vip_iface"]
    end)
   ++
   (match get_netmask_for_address e vip with
    | Some _ => []
    | None => [ConfigRead "vip_cidr"]
    end))%list.

(** A VIP is recorded when an interface is known for it. *)
Definition recorded (vip : string) : bool := negb (is_none (vip_iface vip)).

Definition paramkey (vip : string) : string :=
  if is_ipv6 e vip then "ipv6addr" else "ip".

Definition agent (vip : string) : string :=
  if is_ipv6 e vip then "ocf:heartbeat:IPv6addr" else "ocf:heartbeat:IPaddr2".

(** The resource name in use, hash-based. *)
Definition current_name (vip : string) : string :=
  "res_" ++ service ++ "_" ++ take 7 (sha1_hex vip) ++ "_vip".

(** The old-style name, interface-based, given the names already pending
    deletion. *)
Definition legacy_name (seen : list string) (vip : string) : string :=
  let base := "res_" ++ service ++ "_" ++ py_str (vip_iface vip) ++ "_vip" in
  if mem base seen then base ++ "_" ++ paramkey vip else base.

Definition params_string (vip : string) : string :=
  if vip_fallback vip then
    "params " ++ paramkey vip ++ "=" ++ quoted vip
    ++ " cidr_netmask=" ++ quoted (py_str (vip_netmask vip))
    ++ " nic=" ++ quoted (py_str (vip_iface vip)) ++ " " ++ vip_monitoring
  else "params " ++ paramkey vip ++ "=" ++ quoted vip ++ " " ++ vip_monitoring.

(** [relation_data] after one recorded VIP. *)
Definition record_vip (rd : rdata) (rs ps : dict jval) (vip : string) : rdata :=
  dict_set "resource_params"
    (JDict (dict_set (current_name vip) (JStr (params_string vip)) ps))
    (dict_set "resources"
       (JDict (dict_set (current_name vip) (JStr (agent vip)) rs)) rd).

(** The names the loop adds to [vips_to_delete], given those already there. *)
Fixpoint legacy_names (seen vips : list string) : list string :=
  match vips with
  | [] => []
  | vip :: vips' =>
      if recorded vip then
        legacy_name seen vip
          :: legacy_names (seen ++ [legacy_name seen vip]) vips'
      else legacy_names seen vips'
  end.

(** [resources] and [resource_params] after the loop. *)
Definition resources_after (rs : dict jval) (vips : list string) : dict jval :=
  fold_left (fun d vip => dict_set (current_name vip) (JStr (agent vip)) d)
            (filter recorded vips) rs.

Definition params_after (ps : dict jval) (vips : list string) : dict jval :=
  fold_left
    (fun d vip => dict_set (current_name vip) (JStr (params_string vip)) d)
    (filter recorded vips) ps.
End VipNotions.

(** The relation data hold a dict under [resources] and [resource_params]. *)
Definition has_dicts (rd : rdata) (rs ps : dict jval) : Prop :=
  dict_get "resources" rd = Some (JDict rs)
  /\ dict_get "resource_params" rd = Some (JDict ps).

(** The list already under [delete_resources] and the dict already under
    [groups], both empty when the key is missing; [None] when the key holds
    something else. *)
Definition old_delete (rd : rdata) : option (list jval) :=
  match dict_get "delete_resources" rd with
  | None => Some []
  | Some (JList l) => Some l
  | Some _ => None
  end.

Definition old_groups (rd : rdata) : option (dict jval) :=
  match dict_get "groups" rd with
  | None => Some []
  | Some (JDict g) => Some g
  | Some _ => None
  end.

(** Names for what the DNS-HA resource builder computes for a setting. *)

Section DnsNotions.
Variable e : env.
Variable service : string.

(** The setting holds a hostname. *)
Definition usable (setting : string) : bool :=
  negb (is_none (charm_config e setting)).

(** The endpoint type of a setting whose name matches. *)
Definition endpoint_of (setting : string) : string :=
  match re_search setting with
  | Some g => if g =? "internal" then "int" else g
  | None => ""
  end.

Definition hostname_key (setting : string) : string :=
  "res_" ++ service ++ "_" ++ endpoint_of setting ++ "_hostname".

Definition hostname_params (setting : string) : string :=
  "params fqdn=" ++ quoted (py_str (charm_config e setting))
  ++ " ip_address=" ++ quoted (resolve_address e (endpoint_of setting) false).

(** [relation_data] after one recorded hostname. *)
Definition record_host (crm_ocf : string) (rd : rdata) (rs ps : dict jval)
           (setting : string) : rdata :=
  dict_set "resource_params"
    (JDict (dict_set (hostname_key setting)
              (JStr (hostname_params setting)) ps))
    (dict_set "resources"
       (JDict (dict_set (hostname_key setting) (JStr crm_ocf) rs)) rd).

(** [resources] and [resource_params] after the loop over [settings]. *)
Definition dns_resources_after (crm_ocf : string) (rs : dict jval)
           (settings : list string) : dict jval :=
  fold_left (fun d s => dict_set (hostname_key s) (JStr crm_ocf) d)
            (filter usable settings) rs.

Definition dns_params_after (ps : dict jval) (settings : list string)
  : dict jval :=
  fold_left (fun d s => dict_set (hostname_key s) (JStr (hostname_params s)) d)
            (filter usable settings) ps.
End DnsNotions.

(** The release is known and not below 16.04. *)
Definition release_ok (e : env) : Prop :=
  exists release,
    dict_get "DISTRIB_RELEASE" (lsb_release e) = Some release
    /\ (release <? "16.04")%string = false.

Definition no_members : string := "DNS HA: Hostname group has no members.".

(** Whatever [m] goes on to do, the first thing it does is [ev]. *)
Definition starts_with {A} (ev : event) (m : M A) : Prop :=
  forall t, exists res t', m t = (res, (t ++ ev :: t')%list).

(** One item of the encoded payload. *)
Definition encode_item (kv : string * jval) : string * string :=
  ("json_" ++ fst kv, json_dumps (snd kv)).

(** ** Notions for the JSON encoding *)






(** Reading the configuration is the only effect. *)
Definition is_config_read (ev : event) : Prop :=
  match ev with
  | ConfigRead _ => True
  | _ => False
  end.

(** No character of [s] is white space. *)
Definition no_space (s : string) : bool :=
  forallb (fun c => negb (is_space c)) (list_ascii_of_string s).

(** [appends m]: the outcome of [m] does not depend on the effects already
    performed, and [m] only adds to them. *)
Definition appends {A} (m : M A) : Prop :=
  forall t, m t = (fst (m []), (t ++ snd (m []))%list).

(** ** update_dns_ha_resource_params *)

(** The call [relation_set(relation_id=..., groups=...)]. *)
Record relation_set_call := RelationSet {
  rs_relation_id : option string;
  rs_groups : jval
}.

(** [target.update(relation_data[key])]: the method is looked up on
    [target] before the subscript is evaluated. *)
Definition update_with (target : jval) (rd : rdata) (key : string)
  : result jval :=
  match target with
  | JDict _ =>
      match dict_get key rd with
      | Some v => py_update target v
      | None => Raise (KeyError key)
      end
  | _ => Raise AttributeError
  end.

(** [update_dns_ha_resource_params]; [charm_name] is what
    [hookenv.charm_name()] returns.  The function hands back the two
    dictionaries as it leaves them and the call it makes to
    [relation_set]. *)
Definition update_dns_ha_resource_params (e : env) (charm_name : string)
           (resources resource_params : jval) (relation_id : option string)
           (crm_ocf : string) : M (jval * jval * relation_set_call) :=
  let _relation_data :=
    [("resources", JDict []); ("resource_params", JDict [])] in
  rd <- update_hacluster_dns_ha e charm_name _relation_data crm_ocf ;;
  resources' <- lift (update_with resources rd "resources") ;;
  resource_params' <- lift (update_with resource_params rd "resource_params") ;;
  match dict_get "groups" rd with
  | Some groups => ret (resources', resource_params',
                        RelationSet relation_id groups)
  | None => raise (KeyError "groups")
  end.

(** ** Notions for the extra settings *)

Definition is_dict (v : jval) : bool :=
  match v with JDict _ => true | _ => false end.

(** The strings of a list are pairwise different. *)
Fixpoint distinct (l : list string) : bool :=
  match l with
  | [] => true
  | x :: l' => negb (mem x l') && distinct l'
  end.

(** What the loop over the extra settings leaves under a key that held
    [cur] when the settings bring [v] for it. *)
Definition merged_value (cur : option jval) (v : jval) : jval :=
  match cur with
  | Some c =>
      if nonempty c then
        match c, v with
        | JDict d, JDict d2 => JDict (dict_update d d2)
        | _, _ => v
        end
      else v
  | None => v
  end.

(** An extra setting the loop can take in: where the relation data hold
    something non-empty under its key, both are dicts. *)
Definition mergeable (rd : rdata) (kv : string * jval) : bool :=
  match dict_get (fst kv) rd with
  | Some cur => if nonempty cur then is_dict cur && is_dict (snd kv) else true
  | None => true
  end.

(** The items of [extra_settings], none when it is [None]. *)
Definition extra_items (extra_settings : option (dict jval)) : dict jval :=
  match extra_settings with
  | Some items => items
  | None => []
  end.

(** The extra settings of the docstring of [generate_ha_relation_data]. *)
Definition ha_console_settings : dict jval :=
  [("colocations",
    JDict [("vip_consoleauth", JStr "inf: res_nova_consoleauth grp_nova_vips")]);
   ("init_services", JDict [("res_nova_consoleauth", JStr "nova-consoleauth")]);
   ("resources",
    JDict [("res_nova_consoleauth", JStr "ocf:openstack:nova-consoleauth")]);
   ("resource_params",
    JDict [("res_nova_consoleauth",
            JStr ("op monitor interval=" ++ quoted "5s"))])].

Definition is_list (v : jval) : bool :=
  match v with JList _ => true | _ => false end.

(** The exceptions the DNS-HA builder can end with. *)
Definition dns_may_raise (x : exn) : Prop :=
  match x with
  | DNSHAException msg =>
      msg = "DNS HA is only supported on 16.04 and greater versions of Ubuntu."
      \/ msg = "DNS HA: Hostname group has no members."
  | KeyError key => key = "resources" \/ key = "resource_params"
  | TypeError => True
  | _ => False
  end.


(** An effect other than a status report. *)
Definition quiet (ev : event) : Prop :=
  match ev with
  | StatusSet _ _ => False
  | _ => True
  end.


(** The effects the DNS-HA builder can have: it reads the four hostname
    settings, logs a setting that is unset and the hostname group it ends
    with, and reports [blocked] for an unsupported release or an empty
    group. *)
Definition dns_effect (ev : event) : Prop :=
  match ev with
  | ConfigRead key => In key dns_settings
  | Log msg level =>
      level = DEBUG
      /\ ((exists setting,
              In setting dns_settings
              /\ msg = "DNS HA: Hostname setting " ++ setting
                       ++ " is None. Ignoring.")
          \/ exists members,
              msg = "DNS HA: Hostname group is set with " ++ members
                    ++ " as members. Informing the ha relation")
  | StatusSet state msg =>
      state = "blocked"
      /\ (msg = "DNS HA is only supported on 16.04 and greater versions of Ubuntu."
          \/ msg = "DNS HA: Hostname group has no members.")
  end.

(** Three VIPs: 10.0.0.5 is found on [eth0] and 10.0.1.5 on [eth1], no
    interface is found for 10.9.9.9 and none is configured. *)
Definition two_interface_env : env := {|
  charm_config := fun k =>
    if k =? "vip" then PStr "10.0.0.5 10.9.9.9 10.0.1.5" else PNone;
  expected_related_units := fun _ => Ok [];
  lsb_release := [("DISTRIB_RELEASE", "16.04")];
  resolve_address := fun _ _ => "10.0.0.2";
  is_ipv6 := fun a => existsb (Ascii.eqb ":") (list_ascii_of_string a);
  get_iface_for_address := fun a =>
    if a =? "10.0.0.5" then Some "eth0"
    else if a =? "10.0.1.5" then Some "eth1" else None;
  get_netmask_for_address := fun a =>
    if a =? "10.0.0.5" then Some "255.255.255.0"
    else if a =? "10.0.1.5" then Some "255.255.255.0" else None;
  get_hacluster_config := [("vip", "10.0.0.5 10.9.9.9 10.0.1.5")]
|}.

(** * Properties *)

(** ** The model on test vectors *)

Example sha1_empty :
  sha1_hex "" = "da39a3ee5e6b4b0d3255bfef95601890afd80709".
Proof. vm_compute. reflexivity. Qed.

Example sha1_abc :
  sha1_hex "abc" = "a9993e364706816aba3e25717850c26c9cd0d89d".
Proof. vm_compute. reflexivity. Qed.

Example sha1_two_blocks :
  sha1_hex "abcdbcdecdefdefgefghfghighijhijkijkljklmklmnlmnomnopnopq"
  = "84983e441c3bd26ebaae4aa1f95129e5e54670f1".
Proof. vm_compute. reflexivity. Qed.

Example split_ex :
  split (String (ascii_of_nat 9) " 10.0.0.5  fe80::1 " ++ String newline "x")
  = ["10.0.0.5"; "fe80::1"; "x"].
Proof. reflexivity. Qed.

Example re_search_ex :
  map re_search ["os-admin-hostname"; "os-internal-hostname";
                 "os-public-hostname"; "os-access-hostname";
                 "os--hostname"; "vip"; "xos-a-b-hostname-hostname"]
  = [Some "admin"; Some "internal"; Some "public"; Some "access";
     None; None; Some "a-b"].
Proof. reflexivity. Qed.

Example py_str_int : py_str (PInt 24) = "24" /\ py_str (PInt (-3)) = "-3"
                     /\ py_str (PInt 0) = "0".
Proof. repeat split. Qed.

Example json_dumps_ex :
  json_dumps (JDict [("b", JList [JStr "x y"; JStr "z"]);
                     ("a", JDict [("k", JStr (String newline "q"))]);
                     ("c", JDict [])])
  = "{" ++ quote "a" ++ ":{" ++ quote "k" ++ ":" ++ dquote ++ "\nq" ++ dquote
        ++ "}," ++ quote "b" ++ ":[" ++ quote "x y" ++ "," ++ quote "z"
        ++ "]," ++ quote "c" ++ ":{}}".
Proof. reflexivity. Qed.

(** The example of the specification: service [nova], VIP 10.0.0.5 on
    [eth0], haproxy enabled, no extra settings. *)
Example nova_payload :
  exists payload,
    fst (generate_ha_relation_data Examples.nova_env "nova" true None [])
    = Ok payload
    /\ keys payload
       = ["json_resources"; "json_resource_params"; "json_init_services";
          "json_clones"; "json_delete_resources"; "json_groups"]
    /\ dict_get "json_groups" payload
       = Some ("{" ++ quoted "grp_nova_vips" ++ ":"
                   ++ quoted "res_nova_00d7353_vip" ++ "}")
    /\ dict_get "json_clones" payload
       = Some ("{" ++ quoted "cl_nova_haproxy" ++ ":"
                   ++ quoted "res_nova_haproxy" ++ "}").
Proof. eexists. repeat split; vm_compute; reflexivity. Qed.

(** ** Strings and dictionaries *)

Lemma append_inj_l (p a b : string) : p ++ a = p ++ b -> a = b.
Proof.
  induction p as [|x p IH]; simpl; intros H; [exact H|].
  injection H as H. now apply IH.
Qed.

Lemma append_length (a b : string) :
  String.length (a ++ b) = String.length a + String.length b.
Proof. induction a as [|x a IH]; simpl; [reflexivity | now rewrite IH]. Qed.

Lemma append_inj_r (a b s : string) : a ++ s = b ++ s -> a = b.
Proof.
  revert b; induction a as [|x a IH]; intros [|y b] H; simpl in H.
  - reflexivity.
  - apply (f_equal String.length) in H. simpl in H.
    rewrite append_length in H. lia.
  - apply (f_equal String.length) in H. simpl in H.
    rewrite append_length in H. lia.
  - injection H as -> H. f_equal. now apply IH.
Qed.

Lemma mem_In (x : string) (l : list string) : mem x l = true <-> In x l.
Proof.
  unfold mem. rewrite existsb_exists. split.
  - intros (y & Hy & E). apply String.eqb_eq in E. now subst.
  - intros H. exists x. split; [exact H | apply String.eqb_refl].
Qed.

Section DictFacts.
Context {V : Type}.
Implicit Types (d : dict V) (k : string) (v : V).

Lemma dict_get_set_same k v d : dict_get k (dict_set k v d) = Some v.
Proof.
  induction d as [|[k' v'] d IH]; simpl.
  - now rewrite String.eqb_refl.
  - destruct (k =? k') eqn:E; simpl; rewrite ?String.eqb_refl, ?E; auto.
Qed.

Lemma dict_get_set_other k k' v d :
  k <> k' -> dict_get k (dict_set k' v d) = dict_get k d.
Proof.
  intros N. apply String.eqb_neq in N.
  induction d as [|[k2 v2] d IH]; simpl.
  - now rewrite N.
  - destruct (k' =? k2) eqn:E; simpl.
    + apply String.eqb_eq in E. subst k2. now rewrite N.
    + now rewrite IH.
Qed.

Lemma dict_get_None k d : dict_get k d = None <-> ~ In k (keys d).
Proof.
  induction d as [|[k' v'] d IH]; simpl; [tauto|].
  destruct (k =? k') eqn:E.
  - apply String.eqb_eq in E. subst. split; [discriminate | tauto].
  - apply String.eqb_neq in E. rewrite IH. intuition congruence.
Qed.


(** A present key keeps its place; a new one goes last. *)
Lemma keys_dict_set k v d :
  keys (dict_set k v d)
  = if mem k (keys d) then keys d else (keys d ++ [k])%list.
Proof.
  induction d as [|[k' v'] d IH]; simpl; [reflexivity|].
  unfold mem in *. simpl. destruct (k =? k') eqn:E; simpl.
  - apply String.eqb_eq in E. now subst.
  - rewrite IH. now destruct (existsb (String.eqb k) (keys d)).
Qed.

Lemma In_keys_dict_set k k' v d :
  In k (keys (dict_set k' v d)) <-> k = k' \/ In k (keys d).
Proof.
  rewrite keys_dict_set. destruct (mem k' (keys d)) eqn:E.
  - apply mem_In in E. intuition (subst; auto).
  - rewrite in_app_iff. simpl. intuition (subst; auto).
Qed.

Lemma NoDup_dict_set k v d : NoDup (keys d) -> NoDup (keys (dict_set k v d)).
Proof.
  intros ND. rewrite keys_dict_set. destruct (mem k (keys d)) eqn:E; auto.
  apply NoDup_app; auto.
  - constructor; [intros []| constructor].
  - intros x Hx [<-|[]]. apply mem_In in Hx. congruence.
Qed.
End DictFacts.

(** ** The effect log only grows *)

Lemma appends_ret {A} (a : A) : appends (ret a).
Proof. intros t. unfold ret. simpl. now rewrite app_nil_r. Qed.

Lemma appends_raise {A} (x : exn) : appends (@raise A x).
Proof. intros t. unfold raise. simpl. now rewrite app_nil_r. Qed.

Lemma appends_lift {A} (r : result A) : appends (lift r).
Proof. intros t. unfold lift. simpl. now rewrite app_nil_r. Qed.

Lemma appends_emit (ev : event) : appends (emit ev).
Proof. intros t. reflexivity. Qed.

Lemma appends_bind {A B} (m : M A) (k : A -> M B) :
  appends m -> (forall a, appends (k a)) -> appends (bind m k).
Proof.
  intros Hm Hk t. unfold bind. rewrite (Hm t).
  destruct (m []) as [[a|x] t1]; simpl.
  - rewrite (Hk a (t ++ t1)%list), (Hk a t1). simpl. now rewrite app_assoc.
  - reflexivity.
Qed.

Lemma appends_for_each {A S} (l : list A) (body : S -> A -> M S) :
  (forall s x, appends (body s x)) -> forall s, appends (for_each l body s).
Proof.
  intros Hb. induction l as [|x l IH]; intros s; simpl.
  - apply appends_ret.
  - apply appends_bind; auto.
Qed.

(** ** The VIP resource builder *)

Section VipFacts.
Variable e : env.
Variable service : string.

Lemma get_vip_settings_eq (vip : string) (t : list event) :
  get_vip_settings e vip t
  = (Ok (vip_iface e vip, vip_netmask e vip, vip_fallback e vip),
     (t ++ vip_reads e vip)%list).
Proof.
  unfold get_vip_settings, vip_iface, vip_netmask, vip_fallback, vip_reads,
    config, bind, ret, emit.
  destruct (get_iface_for_address e vip), (get_netmask_for_address e vip);
    simpl; rewrite <- ?app_assoc, ?app_nil_r; reflexivity.
Qed.

Lemma vip_step_dropped (st : vip_state) (vip : string) (t : list event) :
  vip_iface e vip = PNone ->
  vip_step e service st vip t = (Ok st, (t ++ vip_reads e vip)%list).
Proof.
  intros H. unfold vip_step.
  destruct (is_ipv6 e vip); unfold bind at 1;
    rewrite get_vip_settings_eq, H; reflexivity.
Qed.

Lemma vip_step_recorded (st : vip_state) (vip : string) (t : list event)
      (rs ps : dict jval) :
  has_dicts (vs_data st) rs ps ->
  recorded e vip = true ->
  vip_step e service st vip t
  = (Ok (VipState (record_vip e service (vs_data st) rs ps vip)
                  (vs_group st ++ [current_name service vip])
                  (vs_delete st ++ [legacy_name e service (vs_delete st) vip])),
     (t ++ vip_reads e vip)%list).
Proof.
  intros [Hr Hp] Hrec. unfold recorded in Hrec.
  assert (Hp' : forall v,
             dict_get "resource_params"
               (dict_set "resources" v (vs_data st)) = Some (JDict ps)).
  { intros v. rewrite dict_get_set_other; [exact Hp | discriminate]. }
  unfold vip_step, record_vip, legacy_name, params_string, agent, paramkey,
    current_name.
  destruct (is_ipv6 e vip); unfold bind at 1;
    rewrite get_vip_settings_eq, Hrec; unfold bind, lift, ret, set_item;
    rewrite Hr, Hp'; reflexivity.
Qed.

Lemma has_dicts_record (rd : rdata) (rs ps : dict jval) (vip : string) :
  has_dicts rd rs ps ->
  has_dicts (record_vip e service rd rs ps vip)
    (dict_set (current_name service vip) (JStr (agent e vip)) rs)
    (dict_set (current_name service vip) (JStr (params_string e vip)) ps).
Proof.
  intros _. unfold has_dicts, record_vip. split.
  - rewrite dict_get_set_other by discriminate. apply dict_get_set_same.
  - apply dict_get_set_same.
Qed.

Lemma record_vip_other (rd : rdata) (rs ps : dict jval) (vip k : string) :
  k <> "resources" -> k <> "resource_params" ->
  dict_get k (record_vip e service rd rs ps vip) = dict_get k rd.
Proof.
  intros H1 H2. unfold record_vip. now rewrite !dict_get_set_other.
Qed.

Lemma NoDup_record_vip (rd : rdata) (rs ps : dict jval) (vip : string) :
  NoDup (keys rd) -> NoDup (keys (record_vip e service rd rs ps vip)).
Proof. intros H. unfold record_vip. now do 2 apply NoDup_dict_set. Qed.

Lemma recorded_false (vip : string) :
  recorded e vip = false -> vip_iface e vip = PNone.
Proof. unfold recorded. now destruct (vip_iface e vip). Qed.

Lemma length_legacy_names (vips seen : list string) :
  List.length (legacy_names e service seen vips)
  = List.length (filter (recorded e) vips).
Proof.
  revert seen. induction vips as [|vip vips IH]; intros seen; simpl; auto.
  destruct (recorded e vip); simpl; auto.
Qed.

(** The loop of [update_hacluster_vip], run from any state whose relation
    data hold the two dicts: it returns, and the state it returns is the
    one described by the derived notions. *)
Lemma vip_loop_spec (vips : list string) :
  forall (st : vip_state) (t : list event) (rs ps : dict jval),
    has_dicts (vs_data st) rs ps ->
    exists rd',
      for_each vips (vip_step e service) st t
      = (Ok (VipState rd'
               (vs_group st
                  ++ map (current_name service) (filter (recorded e) vips))
               (vs_delete st ++ legacy_names e service (vs_delete st) vips)),
         (t ++ flat_map (vip_reads e) vips)%list)
      /\ has_dicts rd' (resources_after e service rs vips)
                       (params_after e service ps vips)
      /\ (forall k, k <> "resources" -> k <> "resource_params" ->
                    dict_get k rd' = dict_get k (vs_data st))
      /\ (NoDup (keys (vs_data st)) -> NoDup (keys rd')).
Proof.
  induction vips as [|vip vips IH]; intros st t rs ps Hd.
  - exists (vs_data st). simpl. unfold ret. rewrite !app_nil_r.
    destruct st; simpl in *. auto.
  - simpl for_each. unfold bind at 1.
    unfold resources_after, params_after. simpl filter. simpl flat_map.
    simpl legacy_names.
    destruct (recorded e vip) eqn:Hrec.
    + rewrite (vip_step_recorded st vip t rs ps Hd Hrec).
      destruct (IH (VipState (record_vip e service (vs_data st) rs ps vip)
                      (vs_group st ++ [current_name service vip])
                      (vs_delete st
                         ++ [legacy_name e service (vs_delete st) vip]))
                   (t ++ vip_reads e vip)%list _ _
                   (has_dicts_record (vs_data st) rs ps vip Hd))
        as (rd' & Heq & Hd' & Hk & Hn).
      simpl in Heq, Hd', Hk, Hn.
      exists rd'. rewrite Heq. simpl map. rewrite <- !app_assoc. simpl.
      repeat split; try apply Hd'.
      * intros k H1 H2. rewrite Hk by assumption.
        now apply record_vip_other.
      * intros ND. now apply Hn, NoDup_record_vip.
    + rewrite (vip_step_dropped st vip t (recorded_false vip Hrec)).
      destruct (IH st (t ++ vip_reads e vip)%list rs ps Hd)
        as (rd' & Heq & Hd' & Hk & Hn).
      exists rd'. rewrite Heq, <- app_assoc. auto.
Qed.

Lemma extend_delete_eq (rd : rdata) (dl : list jval) (names : list string) :
  old_delete rd = Some dl ->
  extend_delete rd names
  = Ok (dict_set "delete_resources" (JList (dl ++ map JStr names)) rd).
Proof.
  unfold old_delete, extend_delete.
  destruct (dict_get "delete_resources" rd) as [[| |]|]; intros H;
    try discriminate; now injection H as <-.
Qed.

Lemma set_group_eq (rd : rdata) (g : dict jval) (key members : string) :
  old_groups rd = Some g ->
  set_group rd key members
  = Ok (dict_set "groups" (JDict (dict_set key (JStr members) g)) rd).
Proof.
  unfold old_groups, set_group, set_item.
  destruct (dict_get "groups" rd) as [[| |]|]; intros H;
    try discriminate; now injection H as <-.
Qed.

(** [update_hacluster_vip] as a whole. *)
Lemma update_hacluster_vip_spec (rd : rdata) (t : list event) (vips : string)
      (rs ps : dict jval) (dl : list jval) (g : dict jval) :
  dict_get "vip" (get_hacluster_config e) = Some vips ->
  has_dicts rd rs ps ->
  old_delete rd = Some dl ->
  old_groups rd = Some g ->
  exists rd',
    update_hacluster_vip e service rd t
    = (Ok rd', (t ++ flat_map (vip_reads e) (split vips))%list)
    /\ has_dicts rd' (resources_after e service rs (split vips))
                     (params_after e service ps (split vips))
    /\ match filter (recorded e) (split vips) with
       | [] => dict_get "delete_resources" rd' = dict_get "delete_resources" rd
               /\ dict_get "groups" rd' = dict_get "groups" rd
       | kept =>
           dict_get "delete_resources" rd'
           = Some (JList (dl ++ map JStr
                                  (legacy_names e service [] (split vips))))
           /\ dict_get "groups" rd'
              = Some (JDict (dict_set (VIP_GROUP_NAME service)
                               (JStr (join " "
                                        (map (current_name service) kept))) g))
       end
    /\ (forall k, k <> "resources" -> k <> "resource_params" ->
                  k <> "delete_resources" -> k <> "groups" ->
                  dict_get k rd' = dict_get k rd)
    /\ (NoDup (keys rd) -> NoDup (keys rd')).
Proof.
  intros Hv Hd Hdl Hg. unfold update_hacluster_vip. rewrite Hv.
  destruct (vip_loop_spec (split vips) (VipState rd [] []) t rs ps Hd)
    as (rd1 & Heq & Hd1 & Hk & Hn).
  simpl in Heq, Hk, Hn. unfold bind at 1. rewrite Heq. clear Heq.
  pose proof (length_legacy_names (split vips) []) as Hlen.
  unfold vip_finish. simpl vs_data. simpl vs_group. simpl vs_delete.
  destruct (filter (recorded e) (split vips)) as [|v kept] eqn:Hkept;
    destruct (legacy_names e service [] (split vips)) as [|n names] eqn:Hnames;
    try discriminate Hlen.
  - exists rd1. unfold bind, ret. simpl.
    repeat split; auto; try apply Hd1; apply Hk; discriminate.
  - assert (E1 : old_delete rd1 = Some dl).
    { unfold old_delete. rewrite Hk by discriminate. exact Hdl. }
    set (rd2 := dict_set "delete_resources"
                  (JList (dl ++ map JStr (n :: names))) rd1).
    assert (E2 : old_groups rd2 = Some g).
    { unfold old_groups, rd2. rewrite dict_get_set_other by discriminate.
      rewrite Hk by discriminate. exact Hg. }
    exists (dict_set "groups"
              (JDict (dict_set (VIP_GROUP_NAME service)
                        (JStr (join " "
                                 (map (current_name service) (v :: kept)))) g))
              rd2).
    unfold bind, lift. rewrite (extend_delete_eq rd1 dl _ E1). fold rd2.
    simpl Nat.leb. cbv iota. rewrite (set_group_eq rd2 g _ _ E2).
    destruct Hd1 as [Hr Hp].
    split; [reflexivity|]. split; [split|]; [| |split; [split|split]].
    + unfold rd2. rewrite !dict_get_set_other by discriminate. exact Hr.
    + unfold rd2. rewrite !dict_get_set_other by discriminate. exact Hp.
    + unfold rd2. rewrite dict_get_set_other by discriminate.
      apply dict_get_set_same.
    + apply dict_get_set_same.
    + intros k H1 H2 H3 H4. unfold rd2.
      rewrite !dict_get_set_other by assumption. now apply Hk.
    + intros ND. unfold rd2. now do 2 apply NoDup_dict_set; apply Hn.
Qed.
End VipFacts.

(** ** A VIP without an interface *)

Ltac appends_tac :=
  repeat first
    [ apply appends_ret | apply appends_raise | apply appends_lift
    | apply appends_emit | apply appends_bind | apply appends_for_each
    | match goal with
      | |- appends (if ?b then _ else _) => destruct b
      | |- appends (match ?x with _ => _ end) => destruct x
      | |- forall _, _ => intro
      end
    | progress cbv beta iota zeta ].

Lemma appends_get_vip_settings (e : env) (vip : string) :
  appends (get_vip_settings e vip).
Proof. unfold get_vip_settings, config. appends_tac. Qed.

Lemma appends_vip_step (e : env) (service : string) (st : vip_state)
      (vip : string) :
  appends (vip_step e service st vip).
Proof.
  unfold vip_step. destruct (is_ipv6 e vip).
  - apply appends_bind; [apply appends_get_vip_settings|]. appends_tac.
  - apply appends_bind; [apply appends_get_vip_settings|]. appends_tac.
Qed.

Lemma for_each_app {A S} (l1 l2 : list A) (body : S -> A -> M S) (s : S) :
  forall t,
    for_each (l1 ++ l2) body s t
    = bind (for_each l1 body s) (for_each l2 body) t.
Proof.
  revert s. induction l1 as [|x l1 IH]; intros s t; simpl.
  - reflexivity.
  - unfold bind in IH |- *. destruct (body s x t) as [[s'|err] t']; auto.
Qed.

Lemma Forall_vip_reads (e : env) (vip : string) :
  Forall is_config_read (vip_reads e vip).
Proof.
  unfold vip_reads.
  destruct (get_iface_for_address e vip), (get_netmask_for_address e vip);
    simpl; repeat constructor.
Qed.

(** C10. A VIP for which interface discovery finds nothing and the
    [vip_iface] option is unset is skipped: the iteration returns with the
    relation data, the VIP group and the pending deletions as they were, it
    raises nothing, and its only effects are configuration reads; the loop
    ends as it would had the VIP not been in the list. *)
Theorem C10_vip_without_interface_is_dropped
        (e : env) (service vip : string) :
  get_iface_for_address e vip = None ->
  charm_config e "vip_iface" = PNone ->
  (forall st t,
      exists reads,
        vip_step e service st vip t = (Ok st, (t ++ reads)%list)
        /\ Forall is_config_read reads)
  /\ (forall l1 l2 st t,
         fst (for_each (l1 ++ vip :: l2) (vip_step e service) st t)
         = fst (for_each (l1 ++ l2) (vip_step e service) st t)).
Proof.
  intros Hi Hc.
  assert (Hnone : vip_iface e vip = PNone).
  { unfold vip_iface. now rewrite Hi. }
  split.
  - intros st t. exists (vip_reads e vip). split.
    + now apply vip_step_dropped.
    + apply Forall_vip_reads.
  - intros l1 l2 st t. rewrite !for_each_app. unfold bind at 1 2.
    destruct (for_each l1 (vip_step e service) st t) as [[s1|err] t1];
      [|reflexivity].
    simpl for_each. unfold bind. rewrite (vip_step_dropped e service s1 vip t1 Hnone).
    rewrite (appends_for_each l2 (vip_step e service)
               (appends_vip_step e service) s1 (t1 ++ vip_reads e vip)%list).
    rewrite (appends_for_each l2 (vip_step e service)
               (appends_vip_step e service) s1 t1).
    reflexivity.
Qed.

Lemma C10_witness :
  (forall st t,
      exists reads,
        vip_step (Examples.fallback_env "10.0.0.5" PNone PNone) "nova" st
                 "10.0.0.5" t = (Ok st, (t ++ reads)%list)
        /\ Forall is_config_read reads)
  /\ (forall l1 l2 st t,
         fst (for_each (l1 ++ "10.0.0.5" :: l2)
                (vip_step (Examples.fallback_env "10.0.0.5" PNone PNone) "nova")
                st t)
         = fst (for_each (l1 ++ l2)
                  (vip_step (Examples.fallback_env "10.0.0.5" PNone PNone)
                            "nova") st t)).
Proof.
  apply (C10_vip_without_interface_is_dropped
           (Examples.fallback_env "10.0.0.5" PNone PNone) "nova" "10.0.0.5");
    reflexivity.
Defined.

(** ** Names without white space, and [split] after [join] *)

Lemma no_space_append (a b : string) :
  no_space (a ++ b) = no_space a && no_space b.
Proof.
  unfold no_space. induction a as [|c a IH]; simpl; [reflexivity|].
  rewrite IH. now rewrite andb_assoc.
Qed.

Lemma no_space_take (n : nat) (s : string) :
  no_space s = true -> no_space (take n s) = true.
Proof.
  unfold no_space. revert s. induction n as [|n IH]; intros [|c s]; simpl; auto.
  rewrite !andb_true_iff. intros [H1 H2]. auto.
Qed.

Lemma hex_digit_no_space (x : Z) :
  (0 <= x < 16)%Z -> is_space (Sha1.hex_digit x) = false.
Proof.
  intros H.
  assert (E : x = Z.of_nat (Z.to_nat x)) by lia.
  rewrite E. clear E.
  assert (Hn : Z.to_nat x < 16) by lia.
  revert Hn. generalize (Z.to_nat x) as n. intros n Hn.
  do 16 (destruct n as [|n]; [reflexivity|]). lia.
Qed.

Lemma no_space_hex (bs : list Z) :
  Forall (fun b => 0 <= b < 256)%Z bs -> no_space (Sha1.hex bs) = true.
Proof.
  unfold no_space. induction 1 as [|b bs Hb _ IH]; simpl; [reflexivity|].
  rewrite !hex_digit_no_space; [exact IH | |]; Z.div_mod_to_equations; lia.
Qed.

Lemma be_bytes_range (n : nat) (x : Z) :
  Forall (fun b => 0 <= b < 256)%Z (Sha1.be_bytes n x).
Proof.
  induction n as [|n IH]; simpl; constructor; auto.
  apply Z.mod_pos_bound. lia.
Qed.

Lemma no_space_sha1_hex (s : string) : no_space (sha1_hex s) = true.
Proof.
  unfold sha1_hex, Sha1.hexdigest, Sha1.digest. apply no_space_hex.
  repeat (apply Forall_app; split); apply be_bytes_range.
Qed.

Lemma no_space_current_name (service vip : string) :
  no_space service = true -> no_space (current_name service vip) = true.
Proof.
  intros H. unfold current_name.
  rewrite !no_space_append, H, (no_space_take 7 _ (no_space_sha1_hex vip)).
  reflexivity.
Qed.

Lemma split_token (x : string) :
  x <> "" -> no_space x = true -> split x = [x].
Proof.
  unfold no_space. induction x as [|c x IH]; [congruence|]. intros _.
  simpl. rewrite andb_true_iff, negb_true_iff. intros [Hc Hx]. rewrite Hc.
  destruct x as [|c' x]; [reflexivity|].
  assert (Hc' : is_space c' = false).
  { simpl in Hx. apply andb_true_iff in Hx. now apply negb_true_iff. }
  rewrite Hc'. rewrite IH; [reflexivity | discriminate | exact Hx].
Qed.

Lemma split_token_sep (x r : string) :
  x <> "" -> no_space x = true -> split (x ++ String " " r) = x :: split r.
Proof.
  unfold no_space. induction x as [|c x IH]; [congruence|]. intros _.
  simpl list_ascii_of_string. simpl forallb.
  rewrite andb_true_iff, negb_true_iff. intros [Hc Hx].
  destruct x as [|c' x].
  - simpl. now rewrite Hc.
  - assert (Hc' : is_space c' = false).
    { simpl in Hx. apply andb_true_iff in Hx. now apply negb_true_iff. }
    change (String c (String c' x) ++ String " " r)
      with (String c (String c' x ++ String " " r)).
    change (split (String c (String c' x ++ String " " r)))
      with (if is_space c then split (String c' x ++ String " " r)
            else if is_space c'
                 then String c "" :: split (String c' x ++ String " " r)
                 else cons_head c (split (String c' x ++ String " " r))).
    rewrite Hc, Hc', IH; [reflexivity | discriminate | exact Hx].
Qed.

(** Splitting a space-joined list of names gives the names back. *)
Lemma split_join (l : list string) :
  Forall (fun x => x <> "" /\ no_space x = true) l ->
  split (join " " l) = l.
Proof.
  induction 1 as [|x l [Hx Hs] Hl IH]; [reflexivity|].
  destruct l as [|y l].
  - simpl. now apply split_token.
  - change (join " " (x :: y :: l)) with (x ++ String " " (join " " (y :: l))).
    rewrite split_token_sep by assumption. now rewrite IH.
Qed.

Lemma In_keys_resources_after (e : env) (service : string)
      (vips : list string) :
  forall (rs : dict jval) (name : string),
    In name (keys (resources_after e service rs vips))
    <-> In name (keys rs)
        \/ exists vip, In vip vips /\ recorded e vip = true
                       /\ name = current_name service vip.
Proof.
  unfold resources_after.
  induction vips as [|vip vips IH]; intros rs name; simpl.
  - split; [auto | intros [H|(v & [] & _)]; exact H].
  - destruct (recorded e vip) eqn:Hrec; simpl; rewrite IH.
    + rewrite In_keys_dict_set. split.
      * intros [[H|H]|(v & Hv & Hr & Hn)]; eauto 6.
      * intros [H|(v & [<-|Hv] & Hr & Hn)]; eauto 6.
    + split.
      * intros [H|(v & Hv & Hr & Hn)]; eauto 6.
      * intros [H|(v & [<-|Hv] & Hr & Hn)]; eauto 6. congruence.
Qed.

Lemma legacy_names_app (e : env) (service : string) (l1 l2 : list string) :
  forall seen,
    legacy_names e service seen (l1 ++ l2)
    = (legacy_names e service seen l1
         ++ legacy_names e service (seen ++ legacy_names e service seen l1) l2
      )%list.
Proof.
  induction l1 as [|vip l1 IH]; intros seen; simpl.
  - now rewrite app_nil_r.
  - destruct (recorded e vip); simpl; [|apply IH].
    rewrite IH, <- app_assoc. reflexivity.
Qed.

(** ** The names of the VIP resources *)

(** C1, as the code has it.  Run on relation data that hold the two dicts
    (and a list under [delete_resources] and a dict under [groups], if
    anything), [update_hacluster_vip] returns, and the resource names under
    [resources] are those that were there plus, for every VIP of the
    configured string for which an interface is known,
    ['res_' + service + '_' + sha1(vip)[:7] + '_vip'].  The name is built
    from the service and the VIP alone, so two calls on the same pair give
    the same name. *)
Theorem C1_current_resource_name
        (e : env) (service vips : string) (rd : rdata) (rs ps : dict jval)
        (dl : list jval) (g : dict jval) (t : list event) :
  dict_get "vip" (get_hacluster_config e) = Some vips ->
  has_dicts rd rs ps ->
  old_delete rd = Some dl ->
  old_groups rd = Some g ->
  exists rd' t' rs',
    update_hacluster_vip e service rd t = (Ok rd', t')
    /\ dict_get "resources" rd' = Some (JDict rs')
    /\ forall name,
        In name (keys rs')
        <-> In name (keys rs)
            \/ exists vip,
                In vip (split vips)
                /\ is_none (vip_iface e vip) = false
                /\ name = "res_" ++ service ++ "_"
                          ++ take 7 (Sha1.hexdigest (encode_utf8 vip))
                          ++ "_vip".
Proof.
  intros Hv Hd Hdl Hg.
  destruct (update_hacluster_vip_spec e service rd t vips rs ps dl g
              Hv Hd Hdl Hg) as (rd' & Heq & [Hr _] & _).
  exists rd', (t ++ flat_map (vip_reads e) (split vips))%list,
    (resources_after e service rs (split vips)).
  split; [exact Heq|]. split; [exact Hr|].
  intros name. rewrite In_keys_resources_after.
  unfold recorded, current_name, sha1_hex.
  split; (intros [H|(vip & H1 & H2 & H3)]; [now left|right; exists vip]);
    repeat split; auto.
  - now apply negb_true_iff.
  - now apply negb_true_iff.
Qed.

Lemma C1_witness :
  exists rd' t' rs',
    update_hacluster_vip Examples.nova_env "nova" (initial_data "nova" true) []
    = (Ok rd', t')
    /\ dict_get "resources" rd' = Some (JDict rs')
    /\ In "res_nova_00d7353_vip" (keys rs').
Proof.
  destruct (C1_current_resource_name Examples.nova_env "nova" "10.0.0.5"
              (initial_data "nova" true)
              [("res_nova_haproxy", JStr "lsb:haproxy")]
              [("res_nova_haproxy",
                JStr ("op monitor interval=" ++ quoted "5s"))]
              [] [] [] eq_refl (conj eq_refl eq_refl) eq_refl eq_refl)
    as (rd' & t' & rs' & H1 & H2 & H3).
  exists rd', t', rs'. split; [exact H1|]. split; [exact H2|].
  apply H3. right. exists "10.0.0.5".
  split; [left; reflexivity|]. split; vm_compute; reflexivity.
Defined.

(** C1 as the claim words it fails: for service [nova] and the VIP 10.0.0.5
    on [eth0], the name ['res_' + service + '_' + sha1(vip)[:7]] is not
    among the resources; the one recorded ends in [_vip]. *)
Lemma C1_counterexample :
  exists rd' rs',
    fst (update_hacluster_vip Examples.nova_env "nova"
           (initial_data "nova" false) []) = Ok rd'
    /\ dict_get "resources" rd' = Some (JDict rs')
    /\ keys rs' = ["res_nova_00d7353_vip"]
    /\ ~ In ("res_" ++ "nova" ++ "_" ++ take 7 (sha1_hex "10.0.0.5"))
            (keys rs').
Proof.
  eexists. eexists. split; [vm_compute; reflexivity|].
  split; [reflexivity|]. split; [reflexivity|].
  vm_compute. intros [H|[]]. discriminate H.
Qed.

(** ** The parameter string of a VIP resource *)

(** C4, as the code has it.  When the builder processes a VIP for which an
    interface is known, the string it stores under the resource's name in
    [resource_params] starts with the keyword [params]:
    [params {paramkey}="{vip}" {monitor}] when discovery found both the
    interface and the netmask, and
    [params {paramkey}="{vip}" cidr_netmask="{netmask}" nic="{iface}" {monitor}]
    when a configuration value was substituted for either, with
    [monitor = op monitor depth="0" timeout="20s" interval="10s"] and
    [paramkey] being [ipv6addr] for an IPv6 VIP and [ip] otherwise. *)
Theorem C4_parameter_string
        (e : env) (service vip : string) (st : vip_state) (t : list event)
        (rs ps : dict jval) :
  has_dicts (vs_data st) rs ps ->
  is_none (vip_iface e vip) = false ->
  let paramkey := if is_ipv6 e vip then "ipv6addr" else "ip" in
  let monitor := "op monitor depth=" ++ quoted "0" ++ " timeout="
                 ++ quoted "20s" ++ " interval=" ++ quoted "10s" in
  let expected :=
    match get_iface_for_address e vip, get_netmask_for_address e vip with
    | Some _, Some _ =>
        "params " ++ paramkey ++ "=" ++ quoted vip ++ " " ++ monitor
    | _, _ =>
        "params " ++ paramkey ++ "=" ++ quoted vip
        ++ " cidr_netmask=" ++ quoted (py_str (vip_netmask e vip))
        ++ " nic=" ++ quoted (py_str (vip_iface e vip)) ++ " " ++ monitor
    end in
  exists st' t' ps',
    vip_step e service st vip t = (Ok st', t')
    /\ dict_get "resource_params" (vs_data st') = Some (JDict ps')
    /\ dict_get ("res_" ++ service ++ "_" ++ take 7 (sha1_hex vip) ++ "_vip")
                ps'
       = Some (JStr expected).
Proof.
  intros Hd Hi paramkey monitor expected.
  assert (Hrec : recorded e vip = true).
  { unfold recorded. now rewrite Hi. }
  rewrite (vip_step_recorded e service st vip t rs ps Hd Hrec).
  do 3 eexists. split; [reflexivity|]. simpl vs_data.
  split; [apply (has_dicts_record e service _ rs ps vip Hd)|].
  fold (current_name service vip). rewrite dict_get_set_same.
  unfold params_string, vip_fallback, expected, paramkey, monitor.
  destruct (get_iface_for_address e vip), (get_netmask_for_address e vip);
    reflexivity.
Qed.

Lemma C4_witness :
  exists st' t' ps',
    vip_step (Examples.fallback_env "fe80::1" (PStr "eth1") (PInt 64)) "nova"
             (VipState (initial_data "nova" false) [] []) "fe80::1" []
    = (Ok st', t')
    /\ dict_get "resource_params" (vs_data st') = Some (JDict ps')
    /\ dict_get "res_nova_870461f_vip" ps'
       = Some (JStr ("params ipv6addr=" ++ quoted "fe80::1"
                     ++ " cidr_netmask=" ++ quoted "64"
                     ++ " nic=" ++ quoted "eth1"
                     ++ " op monitor depth=" ++ quoted "0" ++ " timeout="
                     ++ quoted "20s" ++ " interval=" ++ quoted "10s")).
Proof.
  exact (C4_parameter_string
           (Examples.fallback_env "fe80::1" (PStr "eth1") (PInt 64)) "nova"
           "fe80::1" (VipState (initial_data "nova" false) [] []) [] [] []
           (conj eq_refl eq_refl) eq_refl).
Defined.

(** C4 as the claim words it fails: for service [nova] and the VIP 10.0.0.5
    found on [eth0], the string stored is not [ip="10.0.0.5" {monitor}]; it
    is that string after [params ]. *)
Lemma C4_counterexample :
  exists st' ps',
    fst (vip_step Examples.nova_env "nova"
           (VipState (initial_data "nova" false) [] []) "10.0.0.5" [])
    = Ok st'
    /\ dict_get "resource_params" (vs_data st') = Some (JDict ps')
    /\ dict_get "res_nova_00d7353_vip" ps'
       = Some (JStr ("params ip=" ++ quoted "10.0.0.5" ++ " "
                     ++ vip_monitoring))
    /\ dict_get "res_nova_00d7353_vip" ps'
       <> Some (JStr ("ip=" ++ quoted "10.0.0.5" ++ " " ++ vip_monitoring)).
Proof.
  eexists. eexists. split; [vm_compute; reflexivity|].
  split; [reflexivity|]. split; [reflexivity|].
  vm_compute. discriminate.
Qed.

(** ** Legacy names and the pending deletions *)

(** C3, as the code has it.  [update_hacluster_vip] returns, and the names
    it collects for deletion ([legacy_names]) are: one for each VIP for
    which an interface is known, in the order of the VIPs; the name of a VIP
    is ['res_' + service + '_' + iface + '_vip'], followed by ['_'] and the
    parameter key exactly when that name is already among the names
    collected for the VIPs before it; and the collected names are appended
    to the list already under [delete_resources] (they become the list when
    the key is missing, and nothing is touched when none was collected).
    For service [nova] with the VIP 10.0.0.5 on [eth0] the encoded payload
    holds [["res_nova_eth0_vip"]] under [json_delete_resources]. *)
Theorem C3_legacy_names_pending_deletion :
  (forall (e : env) (service vips : string) (rd : rdata) (rs ps : dict jval)
          (dl : list jval) (g : dict jval) (t : list event),
      dict_get "vip" (get_hacluster_config e) = Some vips ->
      has_dicts rd rs ps ->
      old_delete rd = Some dl ->
      old_groups rd = Some g ->
      let names := legacy_names e service [] (split vips) in
      exists rd' t',
        update_hacluster_vip e service rd t = (Ok rd', t')
        /\ List.length names
           = List.length
               (filter (fun vip => negb (is_none (vip_iface e vip)))
                       (split vips))
        /\ (forall l1 vip l2,
               split vips = (l1 ++ vip :: l2)%list ->
               is_none (vip_iface e vip) = false ->
               let earlier := legacy_names e service [] l1 in
               let base := "res_" ++ service ++ "_"
                           ++ py_str (vip_iface e vip) ++ "_vip" in
               let name :=
                 if mem base earlier
                 then base ++ "_" ++ (if is_ipv6 e vip then "ipv6addr" else "ip")
                 else base in
               exists later, names = (earlier ++ name :: later)%list)
        /\ dict_get "delete_resources" rd'
           = match names with
             | [] => dict_get "delete_resources" rd
             | _ => Some (JList (dl ++ map JStr names))
             end)
  /\ exists payload,
      fst (generate_ha_relation_data Examples.nova_env "nova" true None [])
      = Ok payload
      /\ dict_get "json_delete_resources" payload
         = Some ("[" ++ quoted "res_nova_eth0_vip" ++ "]").
Proof.
  split.
  - intros e service vips rd rs ps dl g t Hv Hd Hdl Hg names.
    destruct (update_hacluster_vip_spec e service rd t vips rs ps dl g
                Hv Hd Hdl Hg) as (rd' & Heq & _ & Hm & _).
    exists rd', (t ++ flat_map (vip_reads e) (split vips))%list.
    split; [exact Heq|]. split; [apply length_legacy_names|]. split.
    + intros l1 vip l2 Hs Hi earlier base name. unfold names. rewrite Hs.
      rewrite legacy_names_app. simpl app. simpl legacy_names.
      unfold recorded. rewrite Hi. simpl negb. cbv iota.
      eexists. reflexivity.
    + pose proof (length_legacy_names e service (split vips) []) as Hlen.
      fold names in Hlen, Hm.
      destruct (filter (recorded e) (split vips)), names;
        try discriminate Hlen; apply Hm.
  - eexists. split; vm_compute; reflexivity.
Qed.

Lemma C3_witness :
  exists rd' t',
    update_hacluster_vip
      (Examples.eth0_env "10.0.0.5 fe80::1") "nova"
      (dict_set "delete_resources" (JList [JStr "res_nova_old"])
                (initial_data "nova" false)) []
    = (Ok rd', t')
    /\ dict_get "delete_resources" rd'
       = Some (JList [JStr "res_nova_old"; JStr "res_nova_eth0_vip";
                      JStr "res_nova_eth0_vip_ipv6addr"]).
Proof.
  destruct C3_legacy_names_pending_deletion as [H _].
  destruct (H (Examples.eth0_env "10.0.0.5 fe80::1") "nova"
              "10.0.0.5 fe80::1"
              (dict_set "delete_resources" (JList [JStr "res_nova_old"])
                        (initial_data "nova" false))
              [] [] [JStr "res_nova_old"] [] []
              eq_refl (conj eq_refl eq_refl) eq_refl eq_refl)
    as (rd' & t' & H1 & _ & _ & H4).
  exists rd', t'. split; [exact H1 | exact H4].
Defined.

(** C3 as the claim words it fails twice.  For service [nova] with the VIP
    10.0.0.5 on [eth0] the pending deletions are [res_nova_eth0_vip], not
    [res_nova_eth0]; and with three IPv4 VIPs on [eth0] the pending
    deletions hold [res_nova_eth0_vip_ip] twice. *)
Lemma C3_counterexample :
  (exists rd',
      fst (update_hacluster_vip Examples.nova_env "nova"
             (initial_data "nova" true) []) = Ok rd'
      /\ dict_get "delete_resources" rd'
         = Some (JList [JStr "res_nova_eth0_vip"])
      /\ ~ In (JStr "res_nova_eth0") [JStr "res_nova_eth0_vip"])
  /\ (exists rd',
         fst (update_hacluster_vip
                (Examples.eth0_env "10.0.0.5 10.0.0.6 10.0.0.7") "nova"
                (initial_data "nova" true) []) = Ok rd'
         /\ dict_get "delete_resources" rd'
            = Some (JList [JStr "res_nova_eth0_vip";
                           JStr "res_nova_eth0_vip_ip";
                           JStr "res_nova_eth0_vip_ip"])
         /\ ~ NoDup ["res_nova_eth0_vip"; "res_nova_eth0_vip_ip";
                     "res_nova_eth0_vip_ip"]).
Proof.
  split.
  - eexists. split; [vm_compute; reflexivity|]. split; [reflexivity|].
    intros [H|[]]. discriminate H.
  - eexists. split; [vm_compute; reflexivity|]. split; [reflexivity|].
    intros H. inversion H as [|? ? _ H']. inversion H' as [|? ? Hn _].
    apply Hn. now left.
Qed.

(** ** The VIP group *)

(** C5, as the code has it.  [update_hacluster_vip] returns; when an
    interface is known for at least one VIP of the configured string it sets
    one entry of [groups], named ['grp_' + service + '_vips'], to the
    space-joined names of the VIPs for which an interface is known, one
    member for each of them in their order (a VIP listed twice is a member
    twice), leaving the other entries of [groups] as they were; when no
    interface is known for any VIP, [groups] is not touched.  For a service
    name without white space, splitting the entry gives the members back. *)
Theorem C5_vip_group
        (e : env) (service vips : string) (rd : rdata) (rs ps : dict jval)
        (dl : list jval) (g : dict jval) (t : list event) :
  dict_get "vip" (get_hacluster_config e) = Some vips ->
  has_dicts rd rs ps ->
  old_delete rd = Some dl ->
  old_groups rd = Some g ->
  let kept :=
    filter (fun vip => negb (is_none (vip_iface e vip))) (split vips) in
  let members :=
    map (fun vip => "res_" ++ service ++ "_" ++ take 7 (sha1_hex vip) ++ "_vip")
        kept in
  exists rd' t',
    update_hacluster_vip e service rd t = (Ok rd', t')
    /\ List.length members = List.length kept
    /\ (no_space service = true -> split (join " " members) = members)
    /\ dict_get "groups" rd'
       = match kept with
         | [] => dict_get "groups" rd
         | _ => Some (JDict (dict_set ("grp_" ++ service ++ "_vips")
                               (JStr (join " " members)) g))
         end.
Proof.
  intros Hv Hd Hdl Hg kept members.
  destruct (update_hacluster_vip_spec e service rd t vips rs ps dl g
              Hv Hd Hdl Hg) as (rd' & Heq & _ & Hm & _).
  exists rd', (t ++ flat_map (vip_reads e) (split vips))%list.
  split; [exact Heq|]. split; [apply length_map|]. split.
  - intros Hs. apply split_join. unfold members. apply Forall_map.
    apply Forall_forall. intros vip _. split.
    + discriminate.
    + now apply (no_space_current_name service vip).
  - change (filter (recorded e) (split vips)) with kept in Hm.
    change (map (current_name service)) with
      (map (fun vip => "res_" ++ service ++ "_" ++ take 7 (sha1_hex vip)
                       ++ "_vip")) in Hm.
    unfold VIP_GROUP_NAME in Hm. fold members in Hm.
    destruct kept; apply Hm.
Qed.

Lemma C5_witness :
  exists rd' t',
    update_hacluster_vip (Examples.eth0_env "10.0.0.5 fe80::1") "nova"
                         (initial_data "nova" false) []
    = (Ok rd', t')
    /\ dict_get "groups" rd'
       = Some (JDict [("grp_nova_vips",
                       JStr "res_nova_00d7353_vip res_nova_870461f_vip")]).
Proof.
  destruct (C5_vip_group (Examples.eth0_env "10.0.0.5 fe80::1") "nova"
              "10.0.0.5 fe80::1" (initial_data "nova" false) [] [] [] [] []
              eq_refl (conj eq_refl eq_refl) eq_refl eq_refl)
    as (rd' & t' & H1 & _ & _ & H4).
  exists rd', t'. split; [exact H1 | exact H4].
Defined.

(** C5 as the claim words it fails twice.  With one VIP for which no
    interface is found and no [vip_iface] is configured, the VIP list has
    length one and no group entry is produced; with the VIP 10.0.0.5 listed
    twice there is one distinct VIP and the group has two members. *)
Lemma C5_counterexample :
  (split "10.0.0.5" = ["10.0.0.5"]
   /\ exists rd',
       fst (update_hacluster_vip
              (Examples.fallback_env "10.0.0.5" PNone PNone) "nova"
              (initial_data "nova" false) []) = Ok rd'
       /\ dict_get "groups" rd' = None)
  /\ (NoDup ["10.0.0.5"]
      /\ exists rd',
          fst (update_hacluster_vip
                 (Examples.eth0_env "10.0.0.5 10.0.0.5") "nova"
                 (initial_data "nova" false) []) = Ok rd'
          /\ dict_get "groups" rd'
             = Some (JDict [("grp_nova_vips",
                             JStr (join " " ["res_nova_00d7353_vip";
                                             "res_nova_00d7353_vip"]))])).
Proof.
  split; split.
  - reflexivity.
  - eexists. split; vm_compute; reflexivity.
  - constructor; [intros []|constructor].
  - eexists. split; vm_compute; reflexivity.
Qed.

(** ** The DNS-HA resource builder *)

Lemma for_each_cons {A S} (x : A) (l : list A) (body : S -> A -> M S) (s : S)
      (t : list event) :
  for_each (x :: l) body s t
  = match body s x t with
    | (Ok s', t') => for_each l body s' t'
    | (Raise err, t') => (Raise err, t')
    end.
Proof. reflexivity. Qed.

Section DnsFacts.
Variable e : env.
Variable service : string.
Variable crm_ocf : string.

Lemma dns_step_skipped (st : rdata * list string) (setting : string)
      (t : list event) :
  usable e setting = false ->
  exists tr,
    dns_step e service crm_ocf st setting t = (Ok st, (t ++ tr)%list)
    /\ hd_error tr = Some (ConfigRead setting).
Proof.
  unfold usable. rewrite negb_false_iff. intros H.
  destruct st as [rd grp]. unfold dns_step, config, log, bind, emit, ret.
  rewrite H. eexists. rewrite <- app_assoc. split; reflexivity.
Qed.

Lemma dns_step_recorded (rd : rdata) (grp : list string) (setting g : string)
      (t : list event) (rs ps : dict jval) :
  usable e setting = true ->
  re_search setting = Some g ->
  ~ In (hostname_key service setting) grp ->
  has_dicts rd rs ps ->
  dns_step e service crm_ocf (rd, grp) setting t
  = (Ok (record_host e service crm_ocf rd rs ps setting,
         (grp ++ [hostname_key service setting])%list),
     (t ++ [ConfigRead setting])%list).
Proof.
  unfold usable. rewrite negb_true_iff. intros Hu Hg Hin [Hr Hp].
  assert (Hm : mem (hostname_key service setting) grp = false).
  { destruct (mem _ grp) eqn:E; [|reflexivity]. apply mem_In in E. tauto. }
  assert (Hp' : forall v,
             dict_get "resource_params" (dict_set "resources" v rd)
             = Some (JDict ps)).
  { intros v. rewrite dict_get_set_other; [exact Hp | discriminate]. }
  unfold hostname_key, endpoint_of in Hm.
  unfold dns_step, record_host, hostname_key, hostname_params, endpoint_of,
    config, bind, emit, ret, lift, set_item.
  rewrite Hu. rewrite Hg in Hm |- *. rewrite Hm, Hr, Hp'. reflexivity.
Qed.

Lemma has_dicts_record_host (rd : rdata) (rs ps : dict jval) (s : string) :
  has_dicts rd rs ps ->
  has_dicts (record_host e service crm_ocf rd rs ps s)
    (dict_set (hostname_key service s) (JStr crm_ocf) rs)
    (dict_set (hostname_key service s) (JStr (hostname_params e s)) ps).
Proof.
  intros _. unfold has_dicts, record_host. split.
  - rewrite dict_get_set_other by discriminate. apply dict_get_set_same.
  - apply dict_get_set_same.
Qed.

(** The loop over settings whose names match and whose keys differ. *)
Lemma dns_loop_spec (settings : list string) :
  forall (rd : rdata) (grp : list string) (t : list event)
         (rs ps : dict jval),
    has_dicts rd rs ps ->
    Forall (fun s => re_search s <> None) settings ->
    NoDup (map (hostname_key service) settings) ->
    (forall s, In s settings -> ~ In (hostname_key service s) grp) ->
    exists rd' tr,
      for_each settings (dns_step e service crm_ocf) (rd, grp) t
      = (Ok (rd',
             (grp ++ map (hostname_key service)
                         (filter (usable e) settings))%list),
         (t ++ tr)%list)
      /\ has_dicts rd' (dns_resources_after e service crm_ocf rs settings)
                       (dns_params_after e service ps settings)
      /\ (forall k, k <> "resources" -> k <> "resource_params" ->
                    dict_get k rd' = dict_get k rd)
      /\ (NoDup (keys rd) -> NoDup (keys rd')).
Proof.
  induction settings as [|s settings IH]; intros rd grp t rs ps Hd Hm Hn Hg.
  - exists rd, []. simpl. unfold ret. rewrite !app_nil_r. auto.
  - inversion Hm as [|? ? Hs Hm']; subst.
    inversion Hn as [|? ? Hni Hn']; subst.
    rewrite for_each_cons.
    unfold dns_resources_after, dns_params_after. simpl filter.
    destruct (usable e s) eqn:Hu.
    + destruct (re_search s) as [g0|] eqn:Hre; [|congruence].
      rewrite (dns_step_recorded rd grp s g0 t rs ps Hu Hre
                 (Hg s (or_introl eq_refl)) Hd).
      destruct (IH (record_host e service crm_ocf rd rs ps s)
                   (grp ++ [hostname_key service s])%list
                   (t ++ [ConfigRead s])%list _ _
                   (has_dicts_record_host rd rs ps s Hd) Hm' Hn')
        as (rd' & tr & Heq & Hd' & Hk & Hnd).
      { intros s' Hs' Hin. apply in_app_or in Hin.
        destruct Hin as [Hin|[E|[]]].
        - apply (Hg s' (or_intror Hs') Hin).
        - apply Hni. rewrite E. now apply in_map. }
      exists rd', (ConfigRead s :: tr). rewrite Heq. simpl map.
      rewrite <- !app_assoc. simpl. repeat split; try apply Hd'.
      * intros k H1 H2. rewrite Hk by assumption. unfold record_host.
        now rewrite !dict_get_set_other.
      * intros ND. apply Hnd. unfold record_host.
        now do 2 apply NoDup_dict_set.
    + destruct (dns_step_skipped (rd, grp) s t Hu) as (tr0 & Heq0 & _).
      rewrite Heq0.
      destruct (IH rd grp (t ++ tr0)%list rs ps Hd Hm' Hn')
        as (rd' & tr & Heq & Hd' & Hk & Hnd).
      { intros s' Hs'. apply Hg. now right. }
      exists rd', (tr0 ++ tr)%list. rewrite Heq, <- app_assoc. auto.
Qed.

Lemma hostname_key_inj (a b : string) :
  "res_" ++ service ++ "_" ++ a ++ "_hostname"
  = "res_" ++ service ++ "_" ++ b ++ "_hostname" -> a = b.
Proof.
  intros H. apply (append_inj_l "res_") in H. apply append_inj_l in H.
  apply (append_inj_l "_") in H. now apply append_inj_r in H.
Qed.

Lemma NoDup_dns_keys : NoDup (map (hostname_key service) dns_settings).
Proof.
  unfold dns_settings. simpl map.
  repeat (apply NoDup_cons;
          [ simpl; intros H;
            repeat (destruct H as [H|H];
                    [ unfold hostname_key in H; apply hostname_key_inj in H;
                      vm_compute in H; discriminate H |]);
            exact H |]).
  apply NoDup_nil.
Qed.

Lemma assert_passes (t : list event) :
  release_ok e -> assert_charm_supports_dns_ha e t = (Ok true, t).
Proof.
  intros (r & Hr & Hlt). unfold assert_charm_supports_dns_ha.
  now rewrite Hr, Hlt.
Qed.
Lemma dns_loop_none (settings : list string) :
  forall (st : rdata * list string) (t : list event),
    filter (usable e) settings = [] ->
    exists tr,
      for_each settings (dns_step e service crm_ocf) st t
      = (Ok st, (t ++ tr)%list).
Proof.
  induction settings as [|s settings IH]; intros st t Hf.
  - exists []. simpl. unfold ret. now rewrite app_nil_r.
  - simpl in Hf. destruct (usable e s) eqn:Hu; [discriminate|].
    rewrite for_each_cons.
    destruct (dns_step_skipped st s t Hu) as (tr0 & Heq0 & _). rewrite Heq0.
    destruct (IH st (t ++ tr0)%list Hf) as (tr & Heq).
    exists (tr0 ++ tr)%list. now rewrite Heq, <- app_assoc.
Qed.

(** [update_hacluster_dns_ha] with no usable hostname setting. *)
Lemma update_hacluster_dns_ha_blocked (rd : rdata) (t : list event) :
  release_ok e ->
  filter (usable e) dns_settings = [] ->
  exists tr,
    update_hacluster_dns_ha e service rd crm_ocf t
    = (Raise (DNSHAException no_members),
       (t ++ tr ++ [StatusSet "blocked" no_members])%list).
Proof.
  intros Hrel Hf. unfold update_hacluster_dns_ha. unfold bind at 1.
  rewrite (assert_passes t Hrel). unfold bind at 1.
  destruct (dns_loop_none dns_settings (rd, []) t Hf) as (tr & Heq).
  rewrite Heq. exists tr. unfold dns_finish. simpl.
  unfold bind, status_set, emit, raise. now rewrite <- app_assoc.
Qed.

(** [update_hacluster_dns_ha] with a usable hostname setting. *)
Lemma update_hacluster_dns_ha_spec (rd : rdata) (t : list event)
      (rs ps : dict jval) :
  release_ok e ->
  has_dicts rd rs ps ->
  filter (usable e) dns_settings <> [] ->
  exists rd' tr,
    update_hacluster_dns_ha e service rd crm_ocf t = (Ok rd', (t ++ tr)%list)
    /\ has_dicts rd' (dns_resources_after e service crm_ocf rs dns_settings)
                     (dns_params_after e service ps dns_settings)
    /\ dict_get "groups" rd'
       = Some (JDict [(DNSHA_GROUP_NAME service,
                       JStr (join " "
                               (map (hostname_key service)
                                    (filter (usable e) dns_settings))))])
    /\ (forall k, k <> "resources" -> k <> "resource_params" ->
                  k <> "groups" -> dict_get k rd' = dict_get k rd)
    /\ (NoDup (keys rd) -> NoDup (keys rd')).
Proof.
  intros Hrel Hd Hne. unfold update_hacluster_dns_ha. unfold bind at 1.
  rewrite (assert_passes t Hrel). unfold bind at 1.
  destruct (dns_loop_spec dns_settings rd [] t rs ps Hd)
    as (rd1 & tr & Heq & Hd1 & Hk & Hn).
  { repeat constructor; discriminate. }
  { apply NoDup_dns_keys. }
  { intros s _ []. }
  rewrite Heq. clear Heq. unfold dns_finish.
  destruct (filter (usable e) dns_settings) as [|u us] eqn:Hus;
    [congruence|].
  simpl. unfold bind, log, emit, ret.
  eexists. eexists. rewrite <- app_assoc. split; [reflexivity|].
  destruct Hd1 as [Hr Hp]. split; [split|split; [|split]].
  - rewrite dict_get_set_other by discriminate. exact Hr.
  - rewrite dict_get_set_other by discriminate. exact Hp.
  - apply dict_get_set_same.
  - intros k H1 H2 H3. rewrite dict_get_set_other by assumption. now apply Hk.
  - intros ND. now apply NoDup_dict_set, Hn.
Qed.
End DnsFacts.

(** ** The hostname group *)

(** C6.  On a supported release, when at least one of the four hostname
    settings is set, [update_hacluster_dns_ha] returns relation data whose
    [groups] hold ['grp_' + service + '_hostnames'] mapped to the
    space-joined keys of the settings that are set, in the order of the
    settings; when none is set it reports the status [blocked] and raises
    [DNSHAException], both with the message that the hostname group has no
    members. *)
Theorem C6_hostname_group
        (e : env) (service crm_ocf : string) (rd : rdata) (rs ps : dict jval)
        (t : list event) :
  release_ok e ->
  has_dicts rd rs ps ->
  let set_settings :=
    filter (fun s => negb (is_none (charm_config e s)))
           ["os-admin-hostname"; "os-internal-hostname";
            "os-public-hostname"; "os-access-hostname"] in
  match set_settings with
  | [] =>
      exists t',
        update_hacluster_dns_ha e service rd crm_ocf t
        = (Raise (DNSHAException "DNS HA: Hostname group has no members."),
           (t' ++ [StatusSet "blocked"
                     "DNS HA: Hostname group has no members."])%list)
  | _ =>
      exists rd' t' g,
        update_hacluster_dns_ha e service rd crm_ocf t = (Ok rd', t')
        /\ dict_get "groups" rd' = Some (JDict g)
        /\ dict_get ("grp_" ++ service ++ "_hostnames") g
           = Some (JStr (join " " (map (hostname_key service) set_settings)))
  end.
Proof.
  intros Hrel Hd set_settings.
  change set_settings with (filter (usable e) dns_settings).
  destruct (filter (usable e) dns_settings) as [|u us] eqn:Hus.
  - destruct (update_hacluster_dns_ha_blocked e service crm_ocf rd t Hrel Hus)
      as (tr & Heq).
    exists (t ++ tr)%list. now rewrite Heq, <- app_assoc.
  - destruct (update_hacluster_dns_ha_spec e service crm_ocf rd t rs ps
                Hrel Hd) as (rd' & tr & Heq & _ & Hg & _).
    { rewrite Hus. discriminate. }
    rewrite Hus in Hg. do 3 eexists. split; [exact Heq|].
    split; [exact Hg|]. unfold DNSHA_GROUP_NAME. simpl dict_get.
    now rewrite String.eqb_refl.
Qed.

Lemma C6_witness :
  exists rd' t' g,
    update_hacluster_dns_ha
      (Examples.dns_env "18.04" [("os-public-hostname", "nova.example.com");
                                 ("os-admin-hostname", "nova.admin")])
      "nova" (initial_data "nova" false) "ocf:maas:dns" [] = (Ok rd', t')
    /\ dict_get "groups" rd' = Some (JDict g)
    /\ dict_get "grp_nova_hostnames" g
       = Some (JStr "res_nova_admin_hostname res_nova_public_hostname").
Proof.
  exact (C6_hostname_group
           (Examples.dns_env "18.04"
              [("os-public-hostname", "nova.example.com");
               ("os-admin-hostname", "nova.admin")])
           "nova" "ocf:maas:dns" (initial_data "nova" false) [] [] []
           (ex_intro _ "18.04" (conj eq_refl eq_refl))
           (conj eq_refl eq_refl)).
Defined.

(** ** The release check *)

Lemma starts_emit {A} (ev : event) (k : unit -> M A) :
  (forall u, appends (k u)) -> starts_with ev (bind (emit ev) k).
Proof.
  intros Hk t. unfold bind, emit. rewrite (Hk tt (t ++ [ev])%list).
  do 2 eexists. rewrite <- app_assoc. reflexivity.
Qed.

Lemma starts_bind {A B} (ev : event) (m : M A) (k : A -> M B) :
  starts_with ev m -> (forall a, appends (k a)) -> starts_with ev (bind m k).
Proof.
  intros Hm Hk t. unfold bind. destruct (Hm t) as (res & t' & Heq).
  rewrite Heq. destruct res as [a|err].
  - rewrite (Hk a (t ++ ev :: t')%list). do 2 eexists.
    rewrite <- app_assoc. reflexivity.
  - do 2 eexists. reflexivity.
Qed.

Lemma appends_dns_step (e : env) (service crm_ocf : string)
      (st : rdata * list string) (setting : string) :
  appends (dns_step e service crm_ocf st setting).
Proof. unfold dns_step, config, log, status_set. appends_tac. Qed.

Lemma appends_dns_finish (service : string) (st : rdata * list string) :
  appends (dns_finish service st).
Proof. unfold dns_finish, log, status_set. appends_tac. Qed.

Lemma starts_dns_loop (e : env) (service crm_ocf : string) (rd : rdata) :
  starts_with (ConfigRead "os-admin-hostname")
    (st <- for_each dns_settings (dns_step e service crm_ocf) (rd, []) ;;
     dns_finish service st).
Proof.
  apply starts_bind; [|intros; apply appends_dns_finish].
  change (starts_with (ConfigRead "os-admin-hostname")
            (bind (dns_step e service crm_ocf (rd, []) "os-admin-hostname")
                  (for_each (tl dns_settings) (dns_step e service crm_ocf)))).
  apply starts_bind;
    [|intros; apply appends_for_each; intros; apply appends_dns_step].
  unfold dns_step.
  apply starts_bind; [|intros; appends_tac].
  unfold config. apply starts_emit. intros. appends_tac.
Qed.

(** C7.  [update_hacluster_dns_ha] begins by comparing the release string
    with ["16.04"] as strings.  Below it — as ["14.04"] is — the builder
    reports the status [blocked] and raises [DNSHAException], and that
    status report is its only effect: no configuration has been read.  At
    ["16.04"] or above the check passes without effect and the builder goes
    on to the loop over the hostname settings, whose first act is to read
    [os-admin-hostname]. *)
Theorem C7_release_check
        (e : env) (service crm_ocf : string) (rd : rdata) (t : list event)
        (release : string) :
  dict_get "DISTRIB_RELEASE" (lsb_release e) = Some release ->
  ((release <? "16.04")%string = true ->
   update_hacluster_dns_ha e service rd crm_ocf t
   = (Raise (DNSHAException
               "DNS HA is only supported on 16.04 and greater versions of Ubuntu."),
      (t ++ [StatusSet "blocked"
               "DNS HA is only supported on 16.04 and greater versions of Ubuntu."])%list))
  /\ ((release <? "16.04")%string = false ->
      assert_charm_supports_dns_ha e t = (Ok true, t)
      /\ update_hacluster_dns_ha e service rd crm_ocf t
         = (st <- for_each dns_settings (dns_step e service crm_ocf) (rd, []) ;;
            dns_finish service st) t
      /\ exists res t',
          update_hacluster_dns_ha e service rd crm_ocf t
          = (res, (t ++ ConfigRead "os-admin-hostname" :: t')%list))
  /\ ("14.04" <? "16.04")%string = true
  /\ ("16.04" <? "16.04")%string = false
  /\ ("18.04" <? "16.04")%string = false.
Proof.
  intros Hr. split; [|split; [|repeat split]].
  - intros Hlt. unfold update_hacluster_dns_ha, assert_charm_supports_dns_ha.
    unfold bind at 1. rewrite Hr, Hlt. reflexivity.
  - intros Hge.
    assert (Ha : assert_charm_supports_dns_ha e t = (Ok true, t)).
    { unfold assert_charm_supports_dns_ha. now rewrite Hr, Hge. }
    assert (Hu : update_hacluster_dns_ha e service rd crm_ocf t
                 = (st <- for_each dns_settings (dns_step e service crm_ocf)
                                   (rd, []) ;;
                    dns_finish service st) t).
    { unfold update_hacluster_dns_ha. unfold bind at 1. now rewrite Ha. }
    split; [exact Ha|]. split; [exact Hu|]. rewrite Hu.
    apply starts_dns_loop.
Qed.

Lemma C7_witness :
  update_hacluster_dns_ha
    (Examples.dns_env "14.04" [("os-public-hostname", "nova.example.com")])
    "nova" (initial_data "nova" false) "ocf:maas:dns" []
  = (Raise (DNSHAException
              "DNS HA is only supported on 16.04 and greater versions of Ubuntu."),
     [StatusSet "blocked"
        "DNS HA is only supported on 16.04 and greater versions of Ubuntu."]).
Proof.
  destruct (C7_release_check
              (Examples.dns_env "14.04"
                 [("os-public-hostname", "nova.example.com")])
              "nova" "ocf:maas:dns" (initial_data "nova" false) [] "14.04"
              eq_refl) as [H _].
  apply H. reflexivity.
Defined.

(** ** Expecting HA *)

(** C9.  What [expect_ha] returns is the value of the chain of [or]: [True]
    when the lookup of the units expected on the [ha] relation returns at
    least one; otherwise the [vip] option itself when it is true; otherwise
    the [dns-ha] option itself, whatever it holds.  A lookup that fails
    with [NotImplementedError] or [KeyError] counts as no unit, any other
    failure is raised.  The value returned is true, as [if] tests it,
    exactly when a unit is expected or one of the two options is true, and
    the only effects are the reads of the options.  The docstring announces
    a boolean: with no unit expected and [vip] set to [10.0.0.5] the
    function returns the string [10.0.0.5], and with nothing set it returns
    [None]. *)
Theorem C9_expect_ha :
  (forall (e : env) (t : list event),
      let vip := charm_config e "vip" in
      let dns_ha := charm_config e "dns-ha" in
      let returned (units : list string) : result pyval * list event :=
        if (0 <? List.length units)%nat then (Ok (PBool true), t)
        else if truthy vip then (Ok vip, (t ++ [ConfigRead "vip"])%list)
        else (Ok dns_ha,
              (t ++ [ConfigRead "vip"; ConfigRead "dns-ha"])%list) in
      match expected_related_units e "ha" with
      | Ok units => expect_ha e t = returned units
      | Raise NotImplementedError | Raise (KeyError _) =>
          expect_ha e t = returned []
      | Raise x => expect_ha e t = (Raise x, t)
      end)
  /\ (forall (e : env) (t t' : list event) (v : pyval),
         expect_ha e t = (Ok v, t') ->
         truthy v
         = match expected_related_units e "ha" with
           | Ok units => (0 <? List.length units)%nat
           | Raise _ => false
           end
           || truthy (charm_config e "vip")
           || truthy (charm_config e "dns-ha")
         /\ exists reads,
             t' = (t ++ reads)%list /\ Forall is_config_read reads)
  /\ (expect_ha Examples.nova_env [] = (Ok (PStr "10.0.0.5"), [ConfigRead "vip"])
      /\ forall b : bool, PStr "10.0.0.5" <> PBool b)
  /\ (expect_ha (Examples.eth0_env "") []
      = (Ok PNone, [ConfigRead "vip"; ConfigRead "dns-ha"])
      /\ forall b : bool, PNone <> PBool b).
Proof.
  assert (H0 : forall (e : env) (t : list event) (units : list string),
             (if (0 <? List.length units)%nat then ret (PBool true)
              else vip <- config e "vip" ;;
                   if truthy vip then ret vip else config e "dns-ha") t
             = if (0 <? List.length units)%nat then (Ok (PBool true), t)
               else if truthy (charm_config e "vip")
                    then (Ok (charm_config e "vip"),
                          (t ++ [ConfigRead "vip"])%list)
                    else (Ok (charm_config e "dns-ha"),
                          (t ++ [ConfigRead "vip"; ConfigRead "dns-ha"])%list)).
  { intros e t units. destruct (0 <? List.length units)%nat; [reflexivity|].
    unfold config, bind, emit, ret.
    destruct (truthy (charm_config e "vip")); [reflexivity|].
    now rewrite <- app_assoc. }
  assert (H1 : forall (e : env) (t : list event),
             match expected_related_units e "ha" with
             | Ok units =>
                 expect_ha e t
                 = if (0 <? List.length units)%nat then (Ok (PBool true), t)
                   else if truthy (charm_config e "vip")
                        then (Ok (charm_config e "vip"),
                              (t ++ [ConfigRead "vip"])%list)
                        else (Ok (charm_config e "dns-ha"),
                              (t ++ [ConfigRead "vip"; ConfigRead "dns-ha"])%list)
             | Raise NotImplementedError | Raise (KeyError _) =>
                 expect_ha e t
                 = if truthy (charm_config e "vip")
                   then (Ok (charm_config e "vip"),
                         (t ++ [ConfigRead "vip"])%list)
                   else (Ok (charm_config e "dns-ha"),
                         (t ++ [ConfigRead "vip"; ConfigRead "dns-ha"])%list)
             | Raise x => expect_ha e t = (Raise x, t)
             end).
  { intros e t. unfold expect_ha, bind at 1, lift.
    destruct (expected_related_units e "ha") as [units|[]]; try reflexivity.
    - apply H0.
    - apply (H0 e t []).
    - apply (H0 e t []). }
  split; [exact H1|]. split; [|split; split; (reflexivity || discriminate)].
  intros e t t' v Heq. specialize (H1 e t). rewrite Heq in H1.
  assert (H2 : forall b : bool,
             (Ok v, t')
             = (if b then (Ok (PBool true), t)
                else if truthy (charm_config e "vip")
                     then (Ok (charm_config e "vip"),
                           (t ++ [ConfigRead "vip"])%list)
                     else (Ok (charm_config e "dns-ha"),
                           (t ++ [ConfigRead "vip"; ConfigRead "dns-ha"])%list)) ->
             truthy v = b || truthy (charm_config e "vip")
                        || truthy (charm_config e "dns-ha")
             /\ exists reads,
                 t' = (t ++ reads)%list /\ Forall is_config_read reads).
  { intros [|] H.
    - injection H as -> ->. split; [reflexivity|].
      exists []. now rewrite app_nil_r.
    - destruct (truthy (charm_config e "vip")) eqn:Hv; injection H as -> ->.
      + split; [exact Hv|]. eexists. split; [reflexivity|].
        repeat constructor.
      + split; [reflexivity|]. eexists. split; [reflexivity|].
        repeat constructor. }
  destruct (expected_related_units e "ha") as [units|[]];
    try discriminate H1; try (apply (H2 false H1)).
  apply (H2 _ H1).
Qed.

(** ** The keys of the relation data stay distinct *)

Lemma NoDup_initial_data (service : string) (haproxy_enabled : bool) :
  NoDup (keys (initial_data service haproxy_enabled)).
Proof.
  unfold initial_data. destruct haproxy_enabled.
  - repeat apply NoDup_dict_set.
    repeat constructor; simpl; intuition discriminate.
  - repeat constructor; simpl; intuition discriminate.
Qed.


Lemma merge_extras_NoDup (items : list (string * jval)) :
  forall rd rd',
    merge_extras rd items = Ok rd' -> NoDup (keys rd) -> NoDup (keys rd').
Proof.
  induction items as [|[k v] items IH]; intros rd rd'; simpl.
  - intros H. now injection H as <-.
  - destruct (dict_get k rd) as [cur|].
    + destruct (nonempty cur).
      * destruct (py_update cur v); [|discriminate].
        intros H ND. apply (IH _ _ H). now apply NoDup_dict_set.
      * intros H ND. apply (IH _ _ H). now apply NoDup_dict_set.
    + intros H ND. apply (IH _ _ H). now apply NoDup_dict_set.
Qed.







(** ** The encoded payload *)

Lemma dict_set_fresh {V} (k : string) (v : V) (d : dict V) :
  ~ In k (keys d) -> dict_set k v d = (d ++ [(k, v)])%list.
Proof.
  induction d as [|[k' v'] d IH]; simpl; intros H; [reflexivity|].
  destruct (k =? k') eqn:E.
  - apply String.eqb_eq in E. subst. tauto.
  - rewrite IH; tauto.
Qed.

Lemma fold_dict_set_fresh {V} (l : list (string * V)) :
  forall acc,
    NoDup (keys (acc ++ l)%list) ->
    fold_left (fun acc kv => dict_set (fst kv) (snd kv) acc) l acc
    = (acc ++ l)%list.
Proof.
  induction l as [|[k v] l IH]; intros acc ND; simpl.
  - now rewrite app_nil_r.
  - assert (Hk : ~ In k (keys acc)).
    { unfold keys in *. rewrite map_app in ND. simpl in ND.
      apply NoDup_remove_2 in ND. intros Hin. apply ND.
      apply in_or_app. now left. }
    rewrite (dict_set_fresh k v acc Hk), IH, <- app_assoc; [reflexivity|].
    now rewrite <- app_assoc.
Qed.

Lemma dict_of_items_NoDup {V} (l : list (string * V)) :
  NoDup (keys l) -> dict_of_items l = l.
Proof. intros ND. unfold dict_of_items. now rewrite fold_dict_set_fresh. Qed.


Lemma NoDup_map_inj {A B} (f : A -> B) (l : list A) :
  (forall a b, f a = f b -> a = b) -> NoDup l -> NoDup (map f l).
Proof.
  intros Hf. induction 1 as [|a l Hn _ IH]; simpl; constructor; auto.
  intros Hin. apply in_map_iff in Hin. destruct Hin as (b & E & Hb).
  apply Hf in E. now subst.
Qed.

Lemma json_key_inj (a b : string) : "json_" ++ a = "json_" ++ b -> a = b.
Proof. apply append_inj_l. Qed.

Lemma encode_eq (rd : rdata) :
  NoDup (keys rd) ->
  encode rd = map encode_item (filter (fun kv => nonempty (snd kv)) rd).
Proof.
  intros ND. unfold encode. apply dict_of_items_NoDup.
  match goal with
  | |- NoDup (keys (map ?f ?l)) =>
      assert (Hk : keys (map f l) = map (fun k => "json_" ++ k) (keys l))
        by (unfold keys; rewrite !map_map; reflexivity);
      rewrite Hk; clear Hk
  end.
  apply NoDup_map_inj; [exact json_key_inj|].
  induction rd as [|[k v] rd IH]; simpl; [constructor|].
  inversion ND as [|? ? Hn ND']; subst.
  destruct (nonempty v); simpl; [|now apply IH].
  constructor; [|now apply IH].
  intros Hin. apply Hn. apply in_map_iff in Hin.
  destruct Hin as (kv & <- & Hkv). apply filter_In in Hkv.
  apply in_map. tauto.
Qed.

(** The encoded payload, key by key. *)
Lemma dict_get_encode (rd : rdata) (k : string) :
  NoDup (keys rd) ->
  dict_get ("json_" ++ k) (encode rd)
  = match dict_get k rd with
    | Some v => if nonempty v then Some (json_dumps v) else None
    | None => None
    end.
Proof.
  intros ND. rewrite (encode_eq rd ND).
  induction rd as [|[k' v'] rd IH]; [reflexivity|].
  inversion ND as [|? ? Hn ND']; subst.
  specialize (IH ND'). simpl filter. simpl dict_get at 2.
  destruct (k =? k') eqn:E.
  - apply String.eqb_eq in E. subst k'.
    destruct (nonempty v') eqn:Hv.
    + simpl. now rewrite String.eqb_refl.
    + rewrite IH. apply dict_get_None in Hn. now rewrite Hn.
  - destruct (nonempty v') eqn:Hv; [|exact IH].
    simpl. rewrite E. exact IH.
Qed.


(** ** Ordering the keys *)




Section Sorting.
Context {A : Type}.
Implicit Types (x : string * A) (l : list (string * A)).






End Sorting.



(** ** No white space outside strings *)






(** ** The relation-payload assembler *)














(** * Further properties of the module *)

(** ** Merging the extra settings *)

Lemma distinct_NoDup (l : list string) : distinct l = true <-> NoDup l.
Proof.
  induction l as [|x l IH]; simpl.
  - split; [constructor | reflexivity].
  - rewrite andb_true_iff, negb_true_iff, IH. split.
    + intros [Hm Hd]. constructor; [|exact Hd].
      intros Hin. apply mem_In in Hin. congruence.
    + intros H. inversion H as [|? ? Hn Hd]; subst. split; [|exact Hd].
      destruct (mem x l) eqn:E; [|reflexivity]. apply mem_In in E. tauto.
Qed.

(** [d.update(d2)] read back: the entries of [d2] win, the others stay. *)
Lemma dict_get_update {V} (d2 : dict V) :
  forall (d : dict V) (k : string),
    NoDup (keys d2) ->
    dict_get k (dict_update d d2)
    = match dict_get k d2 with
      | Some v => Some v
      | None => dict_get k d
      end.
Proof.
  unfold dict_update.
  induction d2 as [|[k' v'] d2 IH]; intros d k ND; simpl; [reflexivity|].
  inversion ND as [|? ? Hn ND']; subst. rewrite (IH _ _ ND').
  destruct (k =? k') eqn:E.
  - apply String.eqb_eq in E. subst k'.
    apply dict_get_None in Hn. rewrite Hn. apply dict_get_set_same.
  - apply String.eqb_neq in E. now rewrite dict_get_set_other.
Qed.

Lemma merge_extra_eq (rd : rdata) (k : string) (v : jval) :
  mergeable rd (k, v) = true ->
  merge_extra rd (k, v) = Ok (dict_set k (merged_value (dict_get k rd) v) rd).
Proof.
  unfold mergeable, merge_extra, merged_value. simpl fst. simpl snd.
  destruct (dict_get k rd) as [cur|]; [|reflexivity].
  destruct (nonempty cur); [|reflexivity].
  destruct cur as [s|l|d]; simpl; try discriminate.
  destruct v as [s|l|d2]; simpl; try discriminate. reflexivity.
Qed.

Lemma mergeable_other (rd : rdata) (k : string) (x : jval)
      (kv : string * jval) :
  fst kv <> k -> mergeable (dict_set k x rd) kv = mergeable rd kv.
Proof.
  intros H. unfold mergeable. now rewrite dict_get_set_other.
Qed.

(** The relation data after the loop over the extra settings, key by key. *)
Lemma merge_extras_lookup (items : list (string * jval)) :
  forall rd : rdata,
    distinct (keys items) = true ->
    forallb (mergeable rd) items = true ->
    exists rd',
      merge_extras rd items = Ok rd'
      /\ forall k,
          dict_get k rd'
          = match dict_get k items with
            | Some v => Some (merged_value (dict_get k rd) v)
            | None => dict_get k rd
            end.
Proof.
  induction items as [|[k1 v1] items IH]; intros rd Hd Hm.
  - exists rd. split; reflexivity.
  - simpl in Hd, Hm. apply andb_true_iff in Hd. destruct Hd as [Hn Hd].
    apply andb_true_iff in Hm. destruct Hm as [Hm1 Hm].
    apply negb_true_iff in Hn.
    assert (Hnot : ~ In k1 (keys items)).
    { intros Hin. apply mem_In in Hin. congruence. }
    change (merge_extras rd ((k1, v1) :: items))
      with (match merge_extra rd (k1, v1) with
            | Ok rd1 => merge_extras rd1 items
            | Raise err => Raise err
            end).
    rewrite (merge_extra_eq rd k1 v1 Hm1).
    destruct (IH (dict_set k1 (merged_value (dict_get k1 rd) v1) rd) Hd)
      as (rd' & Heq & Hget).
    { rewrite forallb_forall in Hm |- *. intros kv Hin.
      rewrite mergeable_other; [now apply Hm|].
      intros E. apply Hnot. rewrite <- E. now apply in_map. }
    exists rd'. split; [exact Heq|]. intros k. rewrite Hget.
    change (dict_get k ((k1, v1) :: items))
      with (if k =? k1 then Some v1 else dict_get k items).
    destruct (k =? k1) eqn:E.
    + apply String.eqb_eq in E. subst k1.
      apply dict_get_None in Hnot. rewrite Hnot. apply dict_get_set_same.
    + apply String.eqb_neq in E.
      rewrite !dict_get_set_other by assumption. reflexivity.
Qed.

(** X1.  The loop over [extra_settings.items()].  When the keys of the
    settings are distinct and each setting is a dict wherever the relation
    data already hold something non-empty under its key, the loop raises
    nothing, and afterwards a key the settings do not mention holds what it
    held, while a key they mention holds the setting itself if the key was
    missing or held an empty value, and otherwise the old dict updated with
    the setting. *)
Theorem X1_merge_extras (items : list (string * jval)) (rd : rdata) :
  distinct (keys items) = true ->
  forallb (mergeable rd) items = true ->
  exists rd',
    merge_extras rd items = Ok rd'
    /\ forall k,
        dict_get k rd'
        = match dict_get k items with
          | Some v => Some (merged_value (dict_get k rd) v)
          | None => dict_get k rd
          end.
Proof. apply merge_extras_lookup. Qed.

Lemma X1_witness :
  exists rd',
    merge_extras (initial_data "nova" true) ha_console_settings = Ok rd'
    /\ dict_get "colocations" rd'
       = Some (JDict [("vip_consoleauth",
                       JStr "inf: res_nova_consoleauth grp_nova_vips")])
    /\ dict_get "clones" rd'
       = Some (JDict [("cl_nova_haproxy", JStr "res_nova_haproxy")]).
Proof.
  destruct (X1_merge_extras ha_console_settings (initial_data "nova" true)
              eq_refl eq_refl) as (rd' & H1 & H2).
  exists rd'. split; [exact H1|]. split.
  - exact (H2 "colocations").
  - exact (H2 "clones").
Defined.

(** X2.  Extra settings are merged into the defaults, not put in their
    place: when the relation data hold a non-empty dict under a key and the
    settings (with distinct keys, mergeable) bring a dict for it, the dict
    left under the key has every entry of the setting, and every entry of
    the old dict that the setting does not name. *)
Theorem X2_extra_settings_win
        (items : list (string * jval)) (rd : rdata) (k : string)
        (d d2 : dict jval) :
  distinct (keys items) = true ->
  forallb (mergeable rd) items = true ->
  dict_get k rd = Some (JDict d) ->
  nonempty (JDict d) = true ->
  dict_get k items = Some (JDict d2) ->
  distinct (keys d2) = true ->
  exists rd' d',
    merge_extras rd items = Ok rd'
    /\ dict_get k rd' = Some (JDict d')
    /\ forall k2,
        dict_get k2 d'
        = match dict_get k2 d2 with
          | Some v => Some v
          | None => dict_get k2 d
          end.
Proof.
  intros Hd Hm Hk Hne Hi Hd2.
  destruct (merge_extras_lookup items rd Hd Hm) as (rd' & Heq & Hget).
  exists rd', (dict_update d d2). split; [exact Heq|]. split.
  - rewrite Hget, Hi, Hk. unfold merged_value. now rewrite Hne.
  - intros k2. apply dict_get_update. now apply distinct_NoDup.
Qed.

Lemma X2_witness :
  exists rd' d',
    merge_extras (initial_data "nova" true) ha_console_settings = Ok rd'
    /\ dict_get "resources" rd' = Some (JDict d')
    /\ dict_get "res_nova_haproxy" d' = Some (JStr "lsb:haproxy")
    /\ dict_get "res_nova_consoleauth" d'
       = Some (JStr "ocf:openstack:nova-consoleauth").
Proof.
  destruct (X2_extra_settings_win ha_console_settings
              (initial_data "nova" true) "resources"
              [("res_nova_haproxy", JStr "lsb:haproxy")]
              [("res_nova_consoleauth", JStr "ocf:openstack:nova-consoleauth")]
              eq_refl eq_refl eq_refl eq_refl eq_refl eq_refl)
    as (rd' & d' & H1 & H2 & H3).
  exists rd', d'. split; [exact H1|]. split; [exact H2|]. split.
  - exact (H3 "res_nova_haproxy").
  - exact (H3 "res_nova_consoleauth").
Defined.

(** ** Dictionaries filled by a loop *)

Section FoldSet.
Context {X V : Type}.
Variable f : X -> string.

Lemma keys_fold_set (g1 g2 : X -> V) (l : list X) :
  forall d1 d2 : dict V,
    keys d1 = keys d2 ->
    keys (fold_left (fun d x => dict_set (f x) (g1 x) d) l d1)
    = keys (fold_left (fun d x => dict_set (f x) (g2 x) d) l d2).
Proof.
  induction l as [|x l IH]; intros d1 d2 H; simpl; [exact H|].
  apply IH. now rewrite !keys_dict_set, H.
Qed.

Lemma dict_get_fold_keep (g : X -> V) (k : string) (v : V) (l : list X) :
  forall d : dict V,
    dict_get k d = Some v ->
    (forall y, In y l -> f y = k -> g y = v) ->
    dict_get k (fold_left (fun d x => dict_set (f x) (g x) d) l d) = Some v.
Proof.
  induction l as [|x l IH]; intros d Hd Hl; simpl; [exact Hd|].
  apply IH; [|intros y Hy; apply Hl; now right].
  destruct (String.eqb_spec k (f x)) as [E|E].
  - subst k. rewrite (Hl x (or_introl eq_refl) eq_refl).
    apply dict_get_set_same.
  - now rewrite dict_get_set_other.
Qed.

Lemma dict_get_fold_in (g : X -> V) (x : X) (l : list X) :
  forall d : dict V,
    In x l ->
    (forall y, In y l -> f y = f x -> g y = g x) ->
    dict_get (f x) (fold_left (fun d x => dict_set (f x) (g x) d) l d)
    = Some (g x).
Proof.
  intros d Hin Hl. destruct (in_split x l Hin) as (l1 & l2 & ->).
  rewrite fold_left_app. simpl. apply dict_get_fold_keep.
  - apply dict_get_set_same.
  - intros y Hy Hf. apply Hl; [|exact Hf]. apply in_or_app. right. now right.
Qed.

Lemma dict_get_fold_other (g : X -> V) (k : string) (l : list X) :
  forall d : dict V,
    (forall y, In y l -> f y <> k) ->
    dict_get k (fold_left (fun d x => dict_set (f x) (g x) d) l d)
    = dict_get k d.
Proof.
  induction l as [|x l IH]; intros d Hl; simpl; [reflexivity|].
  rewrite IH by (intros y Hy; apply Hl; now right).
  apply dict_get_set_other. intros E. now apply (Hl x (or_introl eq_refl)).
Qed.
End FoldSet.

(** ** The VIP builder as a whole: invariants, lookups, edges *)

Lemma vip_loop_all_dropped (e : env) (service : string) (vips : list string) :
  forall (st : vip_state) (t : list event),
    forallb (fun vip => is_none (vip_iface e vip)) vips = true ->
    for_each vips (vip_step e service) st t
    = (Ok st, (t ++ flat_map (vip_reads e) vips)%list).
Proof.
  induction vips as [|vip vips IH]; intros st t H; simpl.
  - unfold ret. now rewrite app_nil_r.
  - simpl in H. apply andb_true_iff in H. destruct H as [Hv Hl].
    assert (Hn : vip_iface e vip = PNone) by now destruct (vip_iface e vip).
    unfold bind. rewrite (vip_step_dropped e service st vip t Hn).
    rewrite (IH st _ Hl). now rewrite <- app_assoc.
Qed.

Lemma vip_step_missing (e : env) (service : string) (st : vip_state)
      (vip : string) (t : list event) :
  recorded e vip = true ->
  fst (vip_step e service st vip t)
  = match dict_get "resources" (vs_data st) with
    | None => Raise (KeyError "resources")
    | Some (JDict rs) =>
        match dict_get "resource_params" (vs_data st) with
        | None => Raise (KeyError "resource_params")
        | Some (JDict _) => fst (vip_step e service st vip t)
        | Some _ => Raise TypeError
        end
    | Some _ => Raise TypeError
    end.
Proof.
  intros Hrec. unfold recorded in Hrec.
  destruct (dict_get "resources" (vs_data st)) as [[| |rs]|] eqn:Hr;
    try (unfold vip_step; destruct (is_ipv6 e vip); unfold bind at 1;
         rewrite get_vip_settings_eq, Hrec; unfold bind, lift, set_item;
         rewrite Hr; reflexivity).
  assert (Hp : forall v,
             dict_get "resource_params"
               (dict_set "resources" v (vs_data st))
             = dict_get "resource_params" (vs_data st)).
  { intros v. now rewrite dict_get_set_other by discriminate. }
  destruct (dict_get "resource_params" (vs_data st)) as [[| |ps]|] eqn:Hps;
    try reflexivity;
    unfold vip_step; destruct (is_ipv6 e vip); unfold bind at 1;
      rewrite get_vip_settings_eq, Hrec; unfold bind, lift, set_item;
      rewrite Hr, Hp; reflexivity.
Qed.

Lemma existsb_filter_nonempty {A} (p : A -> bool) (l : list A) :
  existsb p l = true -> filter p l <> [].
Proof.
  induction l as [|x l IH]; simpl; [discriminate|].
  destruct (p x); [discriminate | exact IH].
Qed.

Lemma vip_loop_raises (e : env) (service : string) (Q : rdata -> Prop)
      (x : exn) :
  (forall st vip t,
      recorded e vip = true -> Q (vs_data st) ->
      fst (vip_step e service st vip t) = Raise x) ->
  forall (l : list string) (st : vip_state) (t : list event),
    existsb (recorded e) l = true -> Q (vs_data st) ->
    fst (for_each l (vip_step e service) st t) = Raise x.
Proof.
  intros Hstep. induction l as [|vip l IH]; intros st t Hex HQ;
    [discriminate|].
  rewrite for_each_cons. simpl in Hex.
  destruct (recorded e vip) eqn:Hrec.
  - specialize (Hstep st vip t Hrec HQ).
    destruct (vip_step e service st vip t) as [[s1|err] t1]; simpl in Hstep.
    + discriminate.
    + now rewrite Hstep.
  - rewrite (vip_step_dropped e service st vip t (recorded_false e vip Hrec)).
    now apply IH.
Qed.

(** X3.  The VIP builder keeps [resources] and [resource_params] aligned:
    run on relation data whose two dicts have the same keys in the same
    order, it returns relation data whose two dicts again have the same
    keys in the same order, and every member of the VIP group it sets is a
    key of both. *)
Theorem X3_vip_dicts_aligned
        (e : env) (service vips : string) (rd : rdata) (rs ps : dict jval)
        (dl : list jval) (g : dict jval) (t : list event) :
  dict_get "vip" (get_hacluster_config e) = Some vips ->
  has_dicts rd rs ps ->
  old_delete rd = Some dl ->
  old_groups rd = Some g ->
  keys rs = keys ps ->
  let members :=
    map (fun vip => "res_" ++ service ++ "_" ++ take 7 (sha1_hex vip) ++ "_vip")
        (filter (fun vip => negb (is_none (vip_iface e vip))) (split vips)) in
  exists rd' t' rs' ps',
    update_hacluster_vip e service rd t = (Ok rd', t')
    /\ has_dicts rd' rs' ps'
    /\ keys rs' = keys ps'
    /\ Forall (fun m => In m (keys rs') /\ In m (keys ps')) members
    /\ dict_get "groups" rd'
       = match members with
         | [] => dict_get "groups" rd
         | _ => Some (JDict (dict_set ("grp_" ++ service ++ "_vips")
                               (JStr (join " " members)) g))
         end.
Proof.
  intros Hv Hd Hdl Hg Hkeys members.
  destruct (update_hacluster_vip_spec e service rd t vips rs ps dl g
              Hv Hd Hdl Hg) as (rd' & Heq & Hd' & Hm & _).
  exists rd', (t ++ flat_map (vip_reads e) (split vips))%list,
    (resources_after e service rs (split vips)),
    (params_after e service ps (split vips)).
  assert (Hk : keys (resources_after e service rs (split vips))
               = keys (params_after e service ps (split vips))).
  { unfold resources_after, params_after. now apply keys_fold_set. }
  split; [exact Heq|]. split; [exact Hd'|]. split; [exact Hk|]. split.
  - assert (Hin : Forall (fun m => In m (keys (resources_after e service rs
                                                  (split vips)))) members).
    { unfold members. apply Forall_map. apply Forall_forall.
      intros vip Hvip. apply filter_In in Hvip. destruct Hvip as [Hi Hr].
      apply In_keys_resources_after. right. exists vip.
      repeat split; auto. }
    rewrite <- Hk. eapply Forall_impl; [|exact Hin]. tauto.
  - change (filter (recorded e) (split vips))
      with (filter (fun vip => negb (is_none (vip_iface e vip))) (split vips))
      in Hm.
    unfold members.
    destruct (filter (fun vip => negb (is_none (vip_iface e vip)))
                     (split vips)); apply Hm.
Qed.

Lemma X3_witness :
  exists rd' t' rs' ps',
    update_hacluster_vip (Examples.eth0_env "10.0.0.5 fe80::1") "nova"
                         (initial_data "nova" true) [] = (Ok rd', t')
    /\ has_dicts rd' rs' ps'
    /\ keys rs' = keys ps'.
Proof.
  destruct (X3_vip_dicts_aligned (Examples.eth0_env "10.0.0.5 fe80::1") "nova"
              "10.0.0.5 fe80::1" (initial_data "nova" true)
              [("res_nova_haproxy", JStr "lsb:haproxy")]
              [("res_nova_haproxy",
                JStr ("op monitor interval=" ++ quoted "5s"))]
              [] [] [] eq_refl (conj eq_refl eq_refl) eq_refl eq_refl eq_refl)
    as (rd' & t' & rs' & ps' & H1 & H2 & H3 & _).
  exists rd', t', rs', ps'. auto.
Defined.

(** X4.  What the VIP builder leaves under the name of a VIP.  For a VIP of
    the configured string with a known interface, whose resource name no
    other such VIP shares, [resources] holds the agent
    [ocf:heartbeat:IPv6addr] when the VIP is IPv6 and
    [ocf:heartbeat:IPaddr2] otherwise, and [resource_params] holds the
    parameter string of that VIP. *)
Theorem X4_vip_lookup
        (e : env) (service vips : string) (rd : rdata) (rs ps : dict jval)
        (dl : list jval) (g : dict jval) (t : list event) (vip : string) :
  dict_get "vip" (get_hacluster_config e) = Some vips ->
  has_dicts rd rs ps ->
  old_delete rd = Some dl ->
  old_groups rd = Some g ->
  In vip (split vips) ->
  is_none (vip_iface e vip) = false ->
  (forall vip',
      In vip' (split vips) -> is_none (vip_iface e vip') = false ->
      take 7 (sha1_hex vip') = take 7 (sha1_hex vip) -> vip' = vip) ->
  let name := "res_" ++ service ++ "_" ++ take 7 (sha1_hex vip) ++ "_vip" in
  exists rd' t' rs' ps',
    update_hacluster_vip e service rd t = (Ok rd', t')
    /\ has_dicts rd' rs' ps'
    /\ dict_get name rs'
       = Some (JStr (if is_ipv6 e vip then "ocf:heartbeat:IPv6addr"
                     else "ocf:heartbeat:IPaddr2"))
    /\ dict_get name ps' = Some (JStr (params_string e vip)).
Proof.
  intros Hv Hd Hdl Hg Hin Hi Huniq name.
  destruct (update_hacluster_vip_spec e service rd t vips rs ps dl g
              Hv Hd Hdl Hg) as (rd' & Heq & Hd' & _).
  exists rd', (t ++ flat_map (vip_reads e) (split vips))%list,
    (resources_after e service rs (split vips)),
    (params_after e service ps (split vips)).
  split; [exact Heq|]. split; [exact Hd'|].
  assert (Hkept : In vip (filter (recorded e) (split vips))).
  { apply filter_In. split; [exact Hin|]. unfold recorded. now rewrite Hi. }
  assert (Hsame : forall y,
             In y (filter (recorded e) (split vips)) ->
             current_name service y = current_name service vip -> y = vip).
  { intros y Hy Hn. apply filter_In in Hy. destruct Hy as [Hy1 Hy2].
    apply Huniq; [exact Hy1 | |].
    - unfold recorded in Hy2. now apply negb_true_iff in Hy2.
    - unfold current_name in Hn. apply (append_inj_l "res_") in Hn.
      apply append_inj_l in Hn. apply (append_inj_l "_") in Hn.
      now apply append_inj_r in Hn. }
  split.
  - unfold resources_after.
    apply (dict_get_fold_in (current_name service)
             (fun v => JStr (agent e v)) vip _ rs Hkept).
    intros y Hy Hn. now rewrite (Hsame y Hy Hn).
  - unfold params_after.
    apply (dict_get_fold_in (current_name service)
             (fun v => JStr (params_string e v)) vip _ ps Hkept).
    intros y Hy Hn. now rewrite (Hsame y Hy Hn).
Qed.

Lemma X4_witness :
  exists rd' t' rs' ps',
    update_hacluster_vip (Examples.eth0_env "10.0.0.5 fe80::1") "nova"
                         (initial_data "nova" false) [] = (Ok rd', t')
    /\ has_dicts rd' rs' ps'
    /\ dict_get "res_nova_870461f_vip" rs'
       = Some (JStr "ocf:heartbeat:IPv6addr")
    /\ dict_get "res_nova_870461f_vip" ps'
       = Some (JStr (params_string (Examples.eth0_env "10.0.0.5 fe80::1")
                                   "fe80::1")).
Proof.
  apply (X4_vip_lookup (Examples.eth0_env "10.0.0.5 fe80::1") "nova"
           "10.0.0.5 fe80::1" (initial_data "nova" false) [] [] [] [] []
           "fe80::1" eq_refl (conj eq_refl eq_refl) eq_refl eq_refl
           (or_intror (or_introl eq_refl)) eq_refl).
  intros vip' [<-|[<-|[]]] _ H; [vm_compute in H; discriminate H | reflexivity].
Defined.

(** X5.  When no VIP of the configured string has an interface — the
    string being empty or blank included — the VIP builder hands back the
    relation data it was given, whatever they hold, raises nothing, and
    only reads the configuration. *)
Theorem X5_vip_nothing_recorded
        (e : env) (service vips : string) (rd : rdata) (t : list event) :
  dict_get "vip" (get_hacluster_config e) = Some vips ->
  forallb (fun vip => is_none (vip_iface e vip)) (split vips) = true ->
  exists reads,
    update_hacluster_vip e service rd t = (Ok rd, (t ++ reads)%list)
    /\ Forall is_config_read reads.
Proof.
  intros Hv Hall. exists (flat_map (vip_reads e) (split vips)). split.
  - unfold update_hacluster_vip. rewrite Hv. unfold bind.
    now rewrite (vip_loop_all_dropped e service (split vips) _ t Hall).
  - induction (split vips) as [|vip l IH]; simpl; [constructor|].
    apply Forall_app. split; [apply Forall_vip_reads|]. apply IH.
    simpl in Hall. now apply andb_true_iff in Hall.
Qed.

Lemma X5_witness :
  exists reads,
    update_hacluster_vip (Examples.fallback_env "  " PNone PNone) "nova"
                         [("groups", JStr "not a dict")] []
    = (Ok [("groups", JStr "not a dict")], ([] ++ reads)%list)
    /\ Forall is_config_read reads.
Proof.
  exact (X5_vip_nothing_recorded (Examples.fallback_env "  " PNone PNone)
           "nova" "  " [("groups", JStr "not a dict")] [] eq_refl eq_refl).
Defined.

(** X6.  The handlers around [delete_resources] and [groups] catch a
    missing key and nothing else.  With at least one VIP recorded, a
    [delete_resources] that is not a list makes the VIP builder raise
    [AttributeError], and a [groups] that is not a dict makes it raise
    [TypeError]. *)
Theorem X6_vip_ill_typed_entries
        (e : env) (service vips : string) (rd : rdata) (rs ps : dict jval)
        (t : list event) :
  dict_get "vip" (get_hacluster_config e) = Some vips ->
  has_dicts rd rs ps ->
  existsb (fun vip => negb (is_none (vip_iface e vip))) (split vips) = true ->
  (forall v,
      dict_get "delete_resources" rd = Some v -> is_list v = false ->
      fst (update_hacluster_vip e service rd t) = Raise AttributeError)
  /\ (forall dl v,
         old_delete rd = Some dl ->
         dict_get "groups" rd = Some v -> is_dict v = false ->
         fst (update_hacluster_vip e service rd t) = Raise TypeError).
Proof.
  intros Hv Hd Hex.
  pose proof (existsb_filter_nonempty _ _ Hex) as Hne.
  change (filter (fun vip => negb (is_none (vip_iface e vip))) (split vips))
    with (filter (recorded e) (split vips)) in Hne.
  destruct (vip_loop_spec e service (split vips) (VipState rd [] []) t rs ps Hd)
    as (rd1 & Heq & _ & Hk & _).
  simpl in Heq, Hk.
  pose proof (length_legacy_names e service (split vips) []) as Hlen.
  destruct (filter (recorded e) (split vips)) as [|v0 kept]; [congruence|].
  destruct (legacy_names e service [] (split vips)) as [|n names] eqn:Hn;
    [discriminate Hlen|].
  split.
  - intros v Hdel Hl. unfold update_hacluster_vip. rewrite Hv.
    unfold bind at 1. rewrite Heq. unfold vip_finish. simpl vs_delete.
    simpl vs_data. unfold bind, lift, extend_delete.
    rewrite Hk by discriminate. rewrite Hdel.
    destruct v; try reflexivity. discriminate Hl.
  - intros dl v Hdl Hgr Hdict. unfold update_hacluster_vip. rewrite Hv.
    unfold bind at 1. rewrite Heq. unfold vip_finish. simpl vs_delete.
    simpl vs_data. simpl vs_group. unfold bind, lift.
    assert (E1 : old_delete rd1 = Some dl).
    { unfold old_delete. rewrite Hk by discriminate. exact Hdl. }
    rewrite (extend_delete_eq rd1 dl _ E1). simpl Nat.leb. cbv iota.
    unfold set_group, set_item.
    rewrite dict_get_set_other by discriminate.
    rewrite Hk by discriminate. rewrite Hgr.
    destruct v; try reflexivity. discriminate Hdict.
Qed.

Lemma X6_witness :
  fst (update_hacluster_vip Examples.nova_env "nova"
         (dict_set "groups" (JList [JStr "res_a"]) (initial_data "nova" false))
         [])
  = Raise TypeError.
Proof.
  destruct (X6_vip_ill_typed_entries Examples.nova_env "nova" "10.0.0.5"
              (dict_set "groups" (JList [JStr "res_a"])
                        (initial_data "nova" false))
              [] [] [] eq_refl (conj eq_refl eq_refl) eq_refl) as [_ H].
  exact (H [] (JList [JStr "res_a"]) eq_refl eq_refl eq_refl).
Defined.

(** X7.  Missing keys.  Without a [vip] entry in the cluster configuration
    the VIP builder raises [KeyError] before doing anything.  With one, and
    at least one VIP recorded, relation data without [resources] make it
    raise [KeyError] for [resources], and relation data with a [resources]
    dict but without [resource_params] make it raise [KeyError] for
    [resource_params]. *)
Theorem X7_vip_missing_keys
        (e : env) (service : string) (rd : rdata) (t : list event) :
  (dict_get "vip" (get_hacluster_config e) = None ->
   update_hacluster_vip e service rd t = (Raise (KeyError "vip"), t))
  /\ (forall vips,
         dict_get "vip" (get_hacluster_config e) = Some vips ->
         existsb (fun vip => negb (is_none (vip_iface e vip))) (split vips)
         = true ->
         (dict_get "resources" rd = None ->
          fst (update_hacluster_vip e service rd t)
          = Raise (KeyError "resources"))
         /\ (forall rs,
                dict_get "resources" rd = Some (JDict rs) ->
                dict_get "resource_params" rd = None ->
                fst (update_hacluster_vip e service rd t)
                = Raise (KeyError "resource_params"))).
Proof.
  split.
  - intros Hv. unfold update_hacluster_vip. now rewrite Hv.
  - intros vips Hv Hex.
    assert (Hfin : forall x,
               fst (for_each (split vips) (vip_step e service)
                             (VipState rd [] []) t) = Raise x ->
               fst (update_hacluster_vip e service rd t) = Raise x).
    { intros x H. unfold update_hacluster_vip. rewrite Hv. unfold bind.
      destruct (for_each (split vips) (vip_step e service)
                         (VipState rd [] []) t) as [[st|err] t1];
        simpl in H |- *; [discriminate | now injection H as ->]. }
    split.
    + intros Hr. apply Hfin.
      apply (vip_loop_raises e service
               (fun d => dict_get "resources" d = None)); [| exact Hex | exact Hr].
      intros st vip u Hrec HQ. rewrite (vip_step_missing e service st vip u Hrec).
      now rewrite HQ.
    + intros rs Hr Hp. apply Hfin.
      apply (vip_loop_raises e service
               (fun d => (exists rs, dict_get "resources" d = Some (JDict rs))
                         /\ dict_get "resource_params" d = None));
        [| exact Hex | split; [now exists rs | exact Hp]].
      intros st vip u Hrec [[rs0 H1] H2].
      rewrite (vip_step_missing e service st vip u Hrec). now rewrite H1, H2.
Qed.

Lemma X7_witness :
  fst (update_hacluster_vip Examples.nova_env "nova" [] [])
  = Raise (KeyError "resources").
Proof.
  destruct (X7_vip_missing_keys Examples.nova_env "nova" [] []) as [_ H].
  destruct (H "10.0.0.5" eq_refl eq_refl) as [H1 _].
  exact (H1 eq_refl).
Defined.

(** ** The DNS-HA builder as a whole: lookups, groups, exceptions *)

Lemma In_keys_fold_set {X V} (f : X -> string) (g : X -> V) (k : string)
      (l : list X) :
  forall d : dict V,
    In k (keys (fold_left (fun d x => dict_set (f x) (g x) d) l d))
    <-> In k (keys d) \/ exists x, In x l /\ k = f x.
Proof.
  induction l as [|x l IH]; intros d; simpl.
  - split; [auto | intros [H|(x & [] & _)]; exact H].
  - rewrite IH, In_keys_dict_set. split.
    + intros [[H|H]|(y & Hy & Hk)]; eauto.
    + intros [H|(y & [<-|Hy] & Hk)]; eauto.
Qed.

Lemma NoDup_map_eq {A B} (f : A -> B) (l : list A) (x y : A) :
  NoDup (map f l) -> In x l -> In y l -> f x = f y -> x = y.
Proof.
  induction l as [|a l IH]; simpl; intros ND Hx Hy E; [destruct Hx|].
  inversion ND as [|? ? Hn ND']; subst.
  destruct Hx as [->|Hx], Hy as [->|Hy]; auto.
  - exfalso. apply Hn. rewrite E. now apply in_map.
  - exfalso. apply Hn. rewrite <- E. now apply in_map.
Qed.

Lemma existsb_usable (e : env) :
  existsb (usable e) dns_settings = true ->
  filter (usable e) dns_settings <> [].
Proof. apply existsb_filter_nonempty. Qed.

(** X8.  What the DNS-HA builder leaves in [resources] and
    [resource_params].  On a supported release with at least one hostname
    set, it returns; every setting that is set has its key
    ['res_' + service + '_' + endpoint_type + '_hostname'] mapped to
    [crm_ocf] in [resources] and to
    [params fqdn="{hostname}" ip_address="{resolve_address(endpoint_type,
    override=False)}"] in [resource_params]; no other key is added; and two
    dicts with the same keys come out with the same keys. *)
Theorem X8_dns_lookup
        (e : env) (service crm_ocf : string) (rd : rdata) (rs ps : dict jval)
        (t : list event) :
  release_ok e ->
  has_dicts rd rs ps ->
  existsb (fun s => negb (is_none (charm_config e s))) dns_settings = true ->
  exists rd' t' rs' ps',
    update_hacluster_dns_ha e service rd crm_ocf t = (Ok rd', t')
    /\ has_dicts rd' rs' ps'
    /\ (forall s,
           In s dns_settings -> is_none (charm_config e s) = false ->
           dict_get ("res_" ++ service ++ "_" ++ endpoint_of s ++ "_hostname")
                    rs' = Some (JStr crm_ocf)
           /\ dict_get ("res_" ++ service ++ "_" ++ endpoint_of s
                        ++ "_hostname") ps'
              = Some (JStr ("params fqdn="
                            ++ quoted (py_str (charm_config e s))
                            ++ " ip_address="
                            ++ quoted (resolve_address e (endpoint_of s)
                                                       false))))
    /\ (forall k,
           In k (keys rs')
           <-> In k (keys rs)
               \/ exists s,
                   In s dns_settings /\ is_none (charm_config e s) = false
                   /\ k = "res_" ++ service ++ "_" ++ endpoint_of s
                          ++ "_hostname")
    /\ (keys rs = keys ps -> keys rs' = keys ps').
Proof.
  intros Hrel Hd Hex.
  destruct (update_hacluster_dns_ha_spec e service crm_ocf rd t rs ps Hrel Hd
              (existsb_usable e Hex)) as (rd' & tr & Heq & Hd' & _).
  exists rd', (t ++ tr)%list,
    (dns_resources_after e service crm_ocf rs dns_settings),
    (dns_params_after e service ps dns_settings).
  split; [exact Heq|]. split; [exact Hd'|].
  assert (Hsame : forall s y,
             In s (filter (usable e) dns_settings) ->
             In y (filter (usable e) dns_settings) ->
             hostname_key service y = hostname_key service s -> y = s).
  { intros s y Hs Hy E. apply filter_In in Hs, Hy.
    apply (NoDup_map_eq (hostname_key service) dns_settings y s
             (NoDup_dns_keys service)); tauto. }
  split; [|split].
  - intros s Hs Hi.
    assert (Hin : In s (filter (usable e) dns_settings)).
    { apply filter_In. split; [exact Hs|]. unfold usable. now rewrite Hi. }
    split.
    + unfold dns_resources_after.
      apply (dict_get_fold_in (hostname_key service)
               (fun _ => JStr crm_ocf) s _ rs Hin). reflexivity.
    + unfold dns_params_after.
      apply (dict_get_fold_in (hostname_key service)
               (fun s => JStr (hostname_params e s)) s _ ps Hin).
      intros y Hy E. now rewrite (Hsame s y Hin Hy E).
  - intros k. unfold dns_resources_after. rewrite In_keys_fold_set.
    split; (intros [H|(s & H1 & H2)]; [now left|right; exists s]).
    + apply filter_In in H1. destruct H1 as [H1 H3]. unfold usable in H3.
      apply negb_true_iff in H3. auto.
    + destruct H2 as [H2 H3]. split; [|exact H3]. apply filter_In.
      split; [exact H1|]. unfold usable. now rewrite H2.
  - intros Hk. unfold dns_resources_after, dns_params_after.
    now apply keys_fold_set.
Qed.

Lemma X8_witness :
  exists rd' t' rs' ps',
    update_hacluster_dns_ha
      (Examples.dns_env "16.04" [("os-internal-hostname", "nova.internal")])
      "nova" (initial_data "nova" false) "ocf:maas:dns" [] = (Ok rd', t')
    /\ has_dicts rd' rs' ps'
    /\ dict_get "res_nova_int_hostname" ps'
       = Some (JStr ("params fqdn=" ++ quoted "nova.internal"
                     ++ " ip_address=" ++ quoted "10.0.1.2")).
Proof.
  destruct (X8_dns_lookup
              (Examples.dns_env "16.04"
                 [("os-internal-hostname", "nova.internal")])
              "nova" "ocf:maas:dns" (initial_data "nova" false) [] [] []
              (ex_intro _ "16.04" (conj eq_refl eq_refl))
              (conj eq_refl eq_refl) eq_refl)
    as (rd' & t' & rs' & ps' & H1 & H2 & H3 & _).
  exists rd', t', rs', ps'. split; [exact H1|]. split; [exact H2|].
  exact (proj2 (H3 "os-internal-hostname" (or_intror (or_introl eq_refl))
                   eq_refl)).
Defined.

(** X9.  The DNS-HA builder puts a new dict under [groups] instead of
    adding to the one there: on a supported release with at least one
    hostname set, whatever the relation data held under [groups], they come
    back with a dict of exactly one entry, the hostname group; every key
    other than [resources], [resource_params] and [groups] is left as it
    was. *)
Theorem X9_dns_groups_replaced
        (e : env) (service crm_ocf : string) (rd : rdata) (rs ps : dict jval)
        (t : list event) :
  release_ok e ->
  has_dicts rd rs ps ->
  existsb (fun s => negb (is_none (charm_config e s))) dns_settings = true ->
  exists rd' t' members,
    update_hacluster_dns_ha e service rd crm_ocf t = (Ok rd', t')
    /\ dict_get "groups" rd'
       = Some (JDict [("grp_" ++ service ++ "_hostnames", JStr members)])
    /\ (forall k,
           k <> "resources" -> k <> "resource_params" -> k <> "groups" ->
           dict_get k rd' = dict_get k rd).
Proof.
  intros Hrel Hd Hex.
  destruct (update_hacluster_dns_ha_spec e service crm_ocf rd t rs ps Hrel Hd
              (existsb_usable e Hex)) as (rd' & tr & Heq & _ & Hg & Hk & _).
  do 3 eexists. split; [exact Heq|]. split; [exact Hg | exact Hk].
Qed.

Lemma X9_witness :
  exists rd' t' members,
    update_hacluster_dns_ha
      (Examples.dns_env "16.04" [("os-internal-hostname", "nova.internal")])
      "nova"
      (dict_set "groups" (JDict [("grp_other", JStr "res_a res_b")])
                (initial_data "nova" false))
      "ocf:maas:dns" [] = (Ok rd', t')
    /\ dict_get "groups" rd'
       = Some (JDict [("grp_nova_hostnames", JStr members)]).
Proof.
  destruct (X9_dns_groups_replaced
              (Examples.dns_env "16.04"
                 [("os-internal-hostname", "nova.internal")])
              "nova" "ocf:maas:dns"
              (dict_set "groups" (JDict [("grp_other", JStr "res_a res_b")])
                        (initial_data "nova" false))
              [] [] []
              (ex_intro _ "16.04" (conj eq_refl eq_refl))
              (conj eq_refl eq_refl) eq_refl)
    as (rd' & t' & members & H1 & H2 & _).
  exists rd', t', members. split; [exact H1 | exact H2].
Defined.

Lemma set_item_class (rd : rdata) (outer key : string) (v : jval) :
  match set_item rd outer key v with
  | Ok _ => True
  | Raise x => x = KeyError outer \/ x = TypeError
  end.
Proof.
  unfold set_item. destruct (dict_get outer rd) as [[| |]|]; auto.
Qed.

Lemma dns_step_effects (e : env) (service crm_ocf : string) (rd : rdata)
      (grp : list string) (s g : string) (t : list event) :
  In s dns_settings ->
  re_search s = Some g ->
  ~ In (hostname_key service s) grp ->
  exists res evs,
    dns_step e service crm_ocf (rd, grp) s t = (res, (t ++ evs)%list)
    /\ Forall dns_effect evs
    /\ match res with
       | Ok (_, grp') =>
           grp' = (grp ++ if usable e s then [hostname_key service s]
                          else [])%list
       | Raise x => dns_may_raise x
       end.
Proof.
  intros Hs Hg Hin.
  assert (Hm : mem (hostname_key service s) grp = false).
  { destruct (mem _ grp) eqn:E; [|reflexivity]. apply mem_In in E. tauto. }
  unfold hostname_key, endpoint_of in Hm |- *. rewrite Hg in Hm |- *.
  unfold usable, dns_step, config, log, bind, emit, ret, lift.
  destruct (is_none (charm_config e s)).
  { do 2 eexists. rewrite <- app_assoc. split; [reflexivity|].
    split; [|simpl; now rewrite app_nil_r].
    constructor; [exact Hs|]. constructor; [|constructor].
    split; [reflexivity|]. left. now exists s. }
  rewrite Hg, Hm.
  match goal with
  | |- context [set_item rd "resources" ?k ?v] =>
      pose proof (set_item_class rd "resources" k v) as H1;
      destruct (set_item rd "resources" k v) as [rd1|x1]
  end.
  - match goal with
    | |- context [set_item rd1 "resource_params" ?k ?v] =>
        pose proof (set_item_class rd1 "resource_params" k v) as H2;
        destruct (set_item rd1 "resource_params" k v) as [rd2|x2]
    end.
    + do 2 eexists. split; [reflexivity|]. split; [|reflexivity].
      constructor; [exact Hs | constructor].
    + do 2 eexists. split; [reflexivity|]. split.
      * constructor; [exact Hs | constructor].
      * destruct H2 as [->| ->]; simpl; auto.
  - do 2 eexists. split; [reflexivity|]. split.
    + constructor; [exact Hs | constructor].
    + destruct H1 as [->| ->]; simpl; auto.
Qed.

Lemma dns_loop_effects (e : env) (service crm_ocf : string)
      (settings : list string) :
  forall (rd : rdata) (grp : list string) (t : list event),
    incl settings dns_settings ->
    Forall (fun s => re_search s <> None) settings ->
    NoDup (map (hostname_key service) settings) ->
    (forall s, In s settings -> ~ In (hostname_key service s) grp) ->
    exists res evs,
      for_each settings (dns_step e service crm_ocf) (rd, grp) t
      = (res, (t ++ evs)%list)
      /\ Forall dns_effect evs
      /\ match res with
         | Ok (_, grp') =>
             grp' = (grp ++ map (hostname_key service)
                                (filter (usable e) settings))%list
         | Raise x => dns_may_raise x
         end.
Proof.
  induction settings as [|s settings IH]; intros rd grp t Hi Hm Hn Hg.
  - exists (Ok (rd, grp)), []. simpl. unfold ret. rewrite !app_nil_r. auto.
  - inversion Hm as [|? ? Hs Hm']; subst.
    inversion Hn as [|? ? Hni Hn']; subst.
    destruct (re_search s) as [g0|] eqn:Hre; [|congruence].
    destruct (dns_step_effects e service crm_ocf rd grp s g0 t
                (Hi s (or_introl eq_refl)) Hre (Hg s (or_introl eq_refl)))
      as (res & evs & Heq & Hev & Hres).
    rewrite for_each_cons, Heq. destruct res as [[rd1 grp1]|x].
    + destruct (IH rd1 grp1 (t ++ evs)%list) as (res' & evs' & Heq' & Hev' & Hres').
      * intros s' Hs'. apply Hi. now right.
      * exact Hm'.
      * exact Hn'.
      * intros s' Hs' Hin. subst grp1. apply in_app_or in Hin.
        destruct Hin as [Hin|Hin]; [apply (Hg s' (or_intror Hs') Hin)|].
        destruct (usable e s); [|destruct Hin].
        destruct Hin as [E|[]]. apply Hni. rewrite E. now apply in_map.
      * exists res', (evs ++ evs')%list. rewrite Heq', app_assoc.
        split; [reflexivity|]. split; [now apply Forall_app|].
        destruct res' as [[rd2 grp2]|x]; [|exact Hres'].
        subst grp1 grp2. simpl filter. rewrite <- app_assoc.
        now destruct (usable e s).
    + exists (Raise x), evs. auto.
Qed.

(** X10.  The outcomes of the DNS-HA builder.  Whatever the environment
    and the relation data, the builder either returns or raises one of:
    [DNSHAException] for an unsupported release or for an empty hostname
    group, [KeyError] for a missing [resources] or [resource_params], or
    [TypeError].  Its effects are reads of the four hostname settings, the
    log of a setting that is unset, the log of the hostname group, and the
    status [blocked] with one of the two messages of [DNSHAException].
    The branches for a setting whose name does not match the pattern and
    for a hostname key met twice are never taken: no status carries the
    "Unexpected DNS hostname setting" message and nothing is logged as
    "already exists in hostname group - skipping".  When the builder
    returns, every setting that is set has its key in the hostname group,
    once, in the order of the settings. *)
Theorem X10_dns_exceptions
        (e : env) (service crm_ocf : string) (rd : rdata) (t : list event) :
  exists outcome evs,
    update_hacluster_dns_ha e service rd crm_ocf t
    = (outcome, (t ++ evs)%list)
    /\ Forall dns_effect evs
    /\ (forall key hostname,
           ~ In (Log ("DNS HA: Resource " ++ key ++ ": " ++ hostname
                      ++ " already exists in hostname group - skipping")
                     DEBUG) evs)
    /\ (forall setting,
           ~ In (StatusSet "blocked"
                   ("Unexpected DNS hostname setting: " ++ setting
                    ++ ". Cannot determine endpoint_type name")) evs)
    /\ match outcome with
       | Ok rd' =>
           let members :=
             map (fun s => "res_" ++ service ++ "_" ++ endpoint_of s
                           ++ "_hostname")
                 (filter (fun s => negb (is_none (charm_config e s)))
                         dns_settings) in
           members <> [] /\ NoDup members
           /\ dict_get "groups" rd'
              = Some (JDict [("grp_" ++ service ++ "_hostnames",
                              JStr (join " " members))])
       | Raise x => dns_may_raise x
       end.
Proof.
  assert (Hno : forall evs : list event,
             Forall dns_effect evs ->
             (forall key hostname,
                 ~ In (Log ("DNS HA: Resource " ++ key ++ ": " ++ hostname
                            ++ " already exists in hostname group - skipping")
                           DEBUG) evs)
             /\ (forall setting,
                    ~ In (StatusSet "blocked"
                            ("Unexpected DNS hostname setting: " ++ setting
                             ++ ". Cannot determine endpoint_type name"))
                         evs)).
  { intros evs Hev. rewrite Forall_forall in Hev. split.
    - intros key hostname Hin. apply Hev in Hin.
      destruct Hin as [_ [(s & _ & E)|(m & E)]]; discriminate E.
    - intros setting Hin. apply Hev in Hin.
      destruct Hin as [_ [E|E]]; discriminate E. }
  assert (Hmain : exists outcome evs,
             update_hacluster_dns_ha e service rd crm_ocf t
             = (outcome, (t ++ evs)%list)
             /\ Forall dns_effect evs
             /\ match outcome with
                | Ok rd' =>
                    let members :=
                      map (hostname_key service)
                          (filter (usable e) dns_settings) in
                    members <> [] /\ NoDup members
                    /\ dict_get "groups" rd'
                       = Some (JDict [(DNSHA_GROUP_NAME service,
                                       JStr (join " " members))])
                | Raise x => dns_may_raise x
                end).
  { unfold update_hacluster_dns_ha. unfold bind at 1.
    unfold assert_charm_supports_dns_ha.
    destruct (dict_get "DISTRIB_RELEASE" (lsb_release e)) as [release|].
    2:{ exists (Raise TypeError), []. unfold raise. rewrite app_nil_r.
        repeat split. constructor. }
    destruct (release <? "16.04")%string.
    { do 2 eexists. unfold bind, status_set, emit, raise.
      split; [reflexivity|]. split; [|simpl; now left].
      constructor; [|constructor]. split; [reflexivity | now left]. }
    unfold ret. unfold bind at 1.
    destruct (dns_loop_effects e service crm_ocf dns_settings rd [] t)
      as (res & evs & Heq & Hev & Hres).
    { apply incl_refl. }
    { repeat constructor; discriminate. }
    { apply NoDup_dns_keys. }
    { intros s _ []. }
    rewrite Heq. destruct res as [[rd1 grp1]|x].
    2:{ exists (Raise x), evs. auto. }
    change (grp1 = map (hostname_key service)
                       (filter (usable e) dns_settings)) in Hres.
    subst grp1. unfold dns_finish.
    destruct (map (hostname_key service) (filter (usable e) dns_settings))
      as [|m ms] eqn:Hms.
    - simpl. unfold bind, status_set, emit, raise.
      do 2 eexists. rewrite <- app_assoc. split; [reflexivity|].
      split; [|now right]. apply Forall_app. split; [exact Hev|].
      constructor; [|constructor]. split; [reflexivity | now right].
    - change (1 <=? List.length (m :: ms))%nat with true. cbv iota.
      unfold bind, log, emit, ret.
      do 2 eexists. rewrite <- app_assoc. split; [reflexivity|].
      split; [|split; [discriminate|split]].
      + apply Forall_app. split; [exact Hev|].
        constructor; [|constructor]. split; [reflexivity|].
        right. exists (join " " (m :: ms)). reflexivity.
      + rewrite <- Hms.
        pose proof (NoDup_dns_keys service) as ND.
        clear - ND. induction dns_settings as [|s l IH]; simpl; [constructor|].
        inversion ND as [|? ? Hn ND']; subst.
        destruct (usable e s); simpl; [|now apply IH].
        constructor; [|now apply IH].
        intros Hin. apply Hn. apply in_map_iff in Hin.
        destruct Hin as (y & <- & Hy). apply filter_In in Hy.
        apply in_map. tauto.
      + apply dict_get_set_same. }
  destruct Hmain as (outcome & evs & Heq & Hev & Hres).
  exists outcome, evs. destruct (Hno evs Hev) as [H1 H2].
  repeat split; auto.
Qed.

(** ** The haproxy defaults *)

Lemma vip_suffix_not_haproxy (x : string) : x ++ "_vip" <> "haproxy".
Proof.
  intros H.
  assert (L : String.length x = 3).
  { apply (f_equal String.length) in H. rewrite append_length in H.
    simpl in H. lia. }
  destruct x as [|a [|b [|c [|d x]]]]; simpl in L; try discriminate L.
  simpl in H. discriminate H.
Qed.

Lemma current_name_not_haproxy (service vip : string) :
  current_name service vip <> "res_" ++ service ++ "_haproxy".
Proof.
  unfold current_name. intros H. apply (append_inj_l "res_") in H.
  apply append_inj_l in H. apply (append_inj_l "_") in H.
  now apply vip_suffix_not_haproxy in H.
Qed.

Lemma assemble_vip_no_extras (e : env) (service : string)
      (haproxy_enabled : bool) (t : list event) :
  truthy (charm_config e "dns-ha") = false ->
  assemble e service haproxy_enabled None t
  = update_hacluster_vip e service (initial_data service haproxy_enabled)
                         (t ++ [ConfigRead "dns-ha"])%list.
Proof.
  intros H. unfold assemble, config, bind, lift, emit, ret. now rewrite H.
Qed.

(** X11.  The haproxy defaults in VIP mode, without extra settings.  With
    [haproxy_enabled] the assembler returns, [resources] holds
    ['res_' + service + '_haproxy'] mapped to [lsb:haproxy] whatever VIPs
    are configured, and the payload holds under [json_init_services] and
    [json_clones] exactly the init-service entry and the clone-set entry of
    that resource.  Without [haproxy_enabled] the assembler returns too,
    the payload has neither key, and [resources] has no entry for the
    haproxy resource. *)
Theorem X11_haproxy_defaults
        (e : env) (service vips : string) (t : list event) :
  truthy (charm_config e "dns-ha") = false ->
  dict_get "vip" (get_hacluster_config e) = Some vips ->
  let res := "res_" ++ service ++ "_haproxy" in
  (exists rd rs' payload t',
      assemble e service true None t = (Ok rd, t')
      /\ generate_ha_relation_data e service true None t = (Ok payload, t')
      /\ dict_get "resources" rd = Some (JDict rs')
      /\ dict_get res rs' = Some (JStr "lsb:haproxy")
      /\ dict_get "json_init_services" payload
         = Some ("{" ++ (quote res ++ ":" ++ quote "haproxy") ++ "}")
      /\ dict_get "json_clones" payload
         = Some ("{" ++ (quote ("cl_" ++ service ++ "_haproxy") ++ ":"
                         ++ quote res) ++ "}"))
  /\ (exists rd rs' payload t',
         assemble e service false None t = (Ok rd, t')
         /\ generate_ha_relation_data e service false None t = (Ok payload, t')
         /\ dict_get "resources" rd = Some (JDict rs')
         /\ dict_get res rs' = None
         /\ dict_get "json_init_services" payload = None
         /\ dict_get "json_clones" payload = None).
Proof.
  intros Hdns Hv res.
  assert (Hgen : forall hp rd t',
             assemble e service hp None t = (Ok rd, t') ->
             generate_ha_relation_data e service hp None t
             = (Ok (encode rd), t')).
  { intros hp rd t' H. unfold generate_ha_relation_data, bind.
    now rewrite H. }
  assert (Hother : forall rs0,
             dict_get res (resources_after e service rs0 (split vips))
             = dict_get res rs0).
  { intros rs0. unfold resources_after. apply dict_get_fold_other.
    intros y _. apply current_name_not_haproxy. }
  split.
  - destruct (update_hacluster_vip_spec e service (initial_data service true)
                (t ++ [ConfigRead "dns-ha"])%list vips
                [(res, JStr "lsb:haproxy")]
                [(res, JStr ("op monitor interval=" ++ quoted "5s"))]
                [] [] Hv (conj eq_refl eq_refl) eq_refl eq_refl)
      as (rd' & Heq & [Hr _] & _ & Hk & Hnd).
    rewrite <- (assemble_vip_no_extras e service true t Hdns) in Heq.
    specialize (Hnd (NoDup_initial_data service true)).
    exists rd', (resources_after e service [(res, JStr "lsb:haproxy")]
                                 (split vips)),
      (encode rd'), (t ++ [ConfigRead "dns-ha"]
                       ++ flat_map (vip_reads e) (split vips))%list.
    rewrite <- app_assoc in Heq.
    split; [exact Heq|]. split; [now apply Hgen|]. split; [exact Hr|].
    split; [|split].
    + rewrite Hother. simpl. now rewrite String.eqb_refl.
    + change "json_init_services" with ("json_" ++ "init_services").
      rewrite (dict_get_encode rd' "init_services" Hnd).
      now rewrite Hk by discriminate.
    + change "json_clones" with ("json_" ++ "clones").
      rewrite (dict_get_encode rd' "clones" Hnd).
      now rewrite Hk by discriminate.
  - destruct (update_hacluster_vip_spec e service (initial_data service false)
                (t ++ [ConfigRead "dns-ha"])%list vips [] [] [] []
                Hv (conj eq_refl eq_refl) eq_refl eq_refl)
      as (rd' & Heq & [Hr _] & _ & Hk & Hnd).
    rewrite <- (assemble_vip_no_extras e service false t Hdns) in Heq.
    specialize (Hnd (NoDup_initial_data service false)).
    exists rd', (resources_after e service [] (split vips)),
      (encode rd'), (t ++ [ConfigRead "dns-ha"]
                       ++ flat_map (vip_reads e) (split vips))%list.
    rewrite <- app_assoc in Heq.
    split; [exact Heq|]. split; [now apply Hgen|]. split; [exact Hr|].
    split; [|split].
    + now rewrite Hother.
    + change "json_init_services" with ("json_" ++ "init_services").
      rewrite (dict_get_encode rd' "init_services" Hnd).
      now rewrite Hk by discriminate.
    + change "json_clones" with ("json_" ++ "clones").
      rewrite (dict_get_encode rd' "clones" Hnd).
      now rewrite Hk by discriminate.
Qed.

Lemma X11_witness :
  exists payload t',
    generate_ha_relation_data Examples.nova_env "nova" true None []
    = (Ok payload, t')
    /\ dict_get "json_clones" payload
       = Some ("{" ++ quoted "cl_nova_haproxy" ++ ":"
                   ++ quoted "res_nova_haproxy" ++ "}").
Proof.
  destruct (X11_haproxy_defaults Examples.nova_env "nova" "10.0.0.5" []
              eq_refl eq_refl)
    as [(rd & rs' & payload & t' & _ & H2 & _ & _ & _ & H6) _].
  exists payload, t'. split; [exact H2 | exact H6].
Defined.

(** ** One builder per call *)








(** ** update_dns_ha_resource_params *)

Section DnsAfter.
Variable e : env.
Variable service : string.

Lemma usable_keys_same (s y : string) :
  In s (filter (usable e) dns_settings) ->
  In y (filter (usable e) dns_settings) ->
  hostname_key service y = hostname_key service s -> y = s.
Proof.
  intros Hs Hy E. apply filter_In in Hs, Hy.
  apply (NoDup_map_eq (hostname_key service) dns_settings y s
           (NoDup_dns_keys service)); tauto.
Qed.

Lemma dns_resources_lookup (crm_ocf : string) (rs : dict jval) (s : string) :
  In s dns_settings -> usable e s = true ->
  dict_get (hostname_key service s)
           (dns_resources_after e service crm_ocf rs dns_settings)
  = Some (JStr crm_ocf).
Proof.
  intros Hs Hu. unfold dns_resources_after.
  apply (dict_get_fold_in (hostname_key service) (fun _ => JStr crm_ocf) s).
  - apply filter_In. now split.
  - reflexivity.
Qed.

Lemma dns_params_lookup (ps : dict jval) (s : string) :
  In s dns_settings -> usable e s = true ->
  dict_get (hostname_key service s)
           (dns_params_after e service ps dns_settings)
  = Some (JStr (hostname_params e s)).
Proof.
  intros Hs Hu. unfold dns_params_after.
  assert (Hin : In s (filter (usable e) dns_settings))
    by (apply filter_In; now split).
  apply (dict_get_fold_in (hostname_key service)
           (fun s => JStr (hostname_params e s)) s _ ps Hin).
  intros y Hy E. now rewrite (usable_keys_same s y Hin Hy E).
Qed.

Lemma dns_after_other (crm_ocf : string) (rs ps : dict jval) (k : string) :
  (forall s, In s dns_settings -> usable e s = true ->
             k <> hostname_key service s) ->
  dict_get k (dns_resources_after e service crm_ocf rs dns_settings)
  = dict_get k rs
  /\ dict_get k (dns_params_after e service ps dns_settings) = dict_get k ps.
Proof.
  intros H. unfold dns_resources_after, dns_params_after.
  split; apply dict_get_fold_other; intros y Hy E;
    apply filter_In in Hy; destruct Hy as [H1 H2];
    apply (H y H1 H2); now rewrite E.
Qed.

Lemma NoDup_dns_after (crm_ocf : string) :
  NoDup (keys (dns_resources_after e service crm_ocf [] dns_settings))
  /\ NoDup (keys (dns_params_after e service [] dns_settings)).
Proof.
  unfold dns_resources_after, dns_params_after.
  assert (H : forall (V : Type) (g : string -> V) (l : list string)
                     (d : dict V),
             NoDup (keys d) ->
             NoDup (keys (fold_left
                            (fun d s => dict_set (hostname_key service s)
                                                 (g s) d) l d))).
  { intros V g l. induction l as [|x l IH]; intros d ND; simpl; [exact ND|].
    apply IH. now apply NoDup_dict_set. }
  split; apply H; constructor.
Qed.
End DnsAfter.

(** The function returns when the release is supported and a hostname is
    set. *)
Lemma update_dns_ha_resource_params_returns
      (e : env) (charm_name crm_ocf : string) (rs ps : dict jval)
      (relation_id : option string) (t : list event) :
  release_ok e ->
  existsb (usable e) dns_settings = true ->
  exists v t',
    update_dns_ha_resource_params e charm_name (JDict rs) (JDict ps)
                                  relation_id crm_ocf t = (Ok v, t').
Proof.
  intros Hrel Hex.
  destruct (update_hacluster_dns_ha_spec e charm_name crm_ocf
              [("resources", JDict []); ("resource_params", JDict [])]
              t [] [] Hrel (conj eq_refl eq_refl) (existsb_usable e Hex))
    as (rd' & tr & Heq & [Hr Hp] & Hg & _).
  do 2 eexists.
  unfold update_dns_ha_resource_params. unfold bind at 1. rewrite Heq.
  unfold bind, lift, ret, update_with. rewrite Hr, Hp, Hg. reflexivity.
Qed.

(** X13.  [update_dns_ha_resource_params] on a supported release with at
    least one hostname set.  Given dicts for [resources] and
    [resource_params], it returns; the entries of every set hostname are
    written into the two dicts (over what was there under the same name),
    every other entry of the caller stays, and [relation_set] is called
    once, with the given relation id and with [groups] holding only the
    hostname group of the charm. *)
Theorem X13_update_dns_ha_resource_params
        (e : env) (charm_name crm_ocf : string) (rs ps : dict jval)
        (relation_id : option string) (t : list event) :
  release_ok e ->
  existsb (fun s => negb (is_none (charm_config e s))) dns_settings = true ->
  exists rs' ps' members t',
    update_dns_ha_resource_params e charm_name (JDict rs) (JDict ps)
                                  relation_id crm_ocf t
    = (Ok (JDict rs', JDict ps',
           RelationSet relation_id
             (JDict [("grp_" ++ charm_name ++ "_hostnames", JStr members)])),
       t')
    /\ (forall s,
           In s dns_settings -> is_none (charm_config e s) = false ->
           dict_get ("res_" ++ charm_name ++ "_" ++ endpoint_of s
                     ++ "_hostname") rs' = Some (JStr crm_ocf)
           /\ dict_get ("res_" ++ charm_name ++ "_" ++ endpoint_of s
                        ++ "_hostname") ps'
              = Some (JStr (hostname_params e s)))
    /\ (forall k,
           (forall s, In s dns_settings -> is_none (charm_config e s) = false ->
                      k <> "res_" ++ charm_name ++ "_" ++ endpoint_of s
                           ++ "_hostname") ->
           dict_get k rs' = dict_get k rs /\ dict_get k ps' = dict_get k ps).
Proof.
  intros Hrel Hex.
  destruct (update_hacluster_dns_ha_spec e charm_name crm_ocf
              [("resources", JDict []); ("resource_params", JDict [])]
              t [] [] Hrel (conj eq_refl eq_refl) (existsb_usable e Hex))
    as (rd' & tr & Heq & [Hr Hp] & Hg & _).
  destruct (NoDup_dns_after e charm_name crm_ocf) as [N1 N2].
  exists (dict_update rs (dns_resources_after e charm_name crm_ocf []
                                              dns_settings)),
    (dict_update ps (dns_params_after e charm_name [] dns_settings)).
  do 2 eexists. split; [|split].
  - unfold update_dns_ha_resource_params. unfold bind at 1. rewrite Heq.
    unfold bind, lift, ret, update_with. rewrite Hr, Hp, Hg. reflexivity.
  - intros s Hs Hi.
    assert (Hu : usable e s = true) by (unfold usable; now rewrite Hi).
    rewrite !dict_get_update by assumption.
    fold (hostname_key charm_name s).
    now rewrite (dns_resources_lookup e charm_name crm_ocf [] s Hs Hu),
      (dns_params_lookup e charm_name [] s Hs Hu).
  - intros k Hk.
    destruct (dns_after_other e charm_name crm_ocf [] [] k) as [H1 H2].
    { intros s Hs Hu. apply Hk; [exact Hs|]. unfold usable in Hu.
      now apply negb_true_iff in Hu. }
    rewrite !dict_get_update by assumption. now rewrite H1, H2.
Qed.

Lemma X13_witness :
  exists rs' ps' members t',
    update_dns_ha_resource_params
      (Examples.dns_env "16.04" [("os-public-hostname", "nova.example.com")])
      "nova" (JDict [("res_nova_haproxy", JStr "lsb:haproxy")]) (JDict [])
      (Some "ha:1") "ocf:maas:dns" []
    = (Ok (JDict rs', JDict ps',
           RelationSet (Some "ha:1")
             (JDict [("grp_nova_hostnames", JStr members)])), t')
    /\ dict_get "res_nova_public_hostname" rs' = Some (JStr "ocf:maas:dns")
    /\ dict_get "res_nova_haproxy" rs' = Some (JStr "lsb:haproxy").
Proof.
  destruct (X13_update_dns_ha_resource_params
              (Examples.dns_env "16.04"
                 [("os-public-hostname", "nova.example.com")])
              "nova" "ocf:maas:dns"
              [("res_nova_haproxy", JStr "lsb:haproxy")] [] (Some "ha:1") []
              (ex_intro _ "16.04" (conj eq_refl eq_refl)) eq_refl)
    as (rs' & ps' & members & t' & H1 & H2 & H3).
  exists rs', ps', members, t'. split; [exact H1|]. split.
  - exact (proj1 (H2 "os-public-hostname"
                     (or_intror (or_intror (or_introl eq_refl))) eq_refl)).
  - refine (eq_trans (proj1 (H3 "res_nova_haproxy" _)) eq_refl).
    intros s [<-|[<-|[<-|[<-|[]]]]] _; discriminate.
Defined.

Lemma update_dns_ha_resource_params_raises
      (e : env) (charm_name crm_ocf : string) (resources resource_params : jval)
      (relation_id : option string) (t t' : list event) (x : exn) :
  update_hacluster_dns_ha e charm_name
    [("resources", JDict []); ("resource_params", JDict [])] crm_ocf t
  = (Raise x, t') ->
  update_dns_ha_resource_params e charm_name resources resource_params
                                relation_id crm_ocf t
  = (Raise x, t').
Proof.
  intros H. unfold update_dns_ha_resource_params. unfold bind at 1.
  now rewrite H.
Qed.

(** X14.  How [update_dns_ha_resource_params] ends when it is given dicts.
    With no release it raises [TypeError]; on a release below 16.04 it
    raises [DNSHAException] for the release; on a later one with no
    hostname set it raises [DNSHAException] for the empty group; otherwise
    it returns.  It builds on dictionaries of its own, so a [KeyError] is
    never raised. *)
Theorem X14_update_dns_ha_resource_params_outcome
        (e : env) (charm_name crm_ocf : string) (rs ps : dict jval)
        (relation_id : option string) (t : list event) :
  let outcome :=
    fst (update_dns_ha_resource_params e charm_name (JDict rs) (JDict ps)
                                       relation_id crm_ocf t) in
  match dict_get "DISTRIB_RELEASE" (lsb_release e) with
  | None => outcome = Raise TypeError
  | Some release =>
      if (release <? "16.04")%string then
        outcome
        = Raise (DNSHAException
                   "DNS HA is only supported on 16.04 and greater versions of Ubuntu.")
      else if existsb (fun s => negb (is_none (charm_config e s))) dns_settings
      then exists v, outcome = Ok v
      else outcome
           = Raise (DNSHAException "DNS HA: Hostname group has no members.")
  end.
Proof.
  intros outcome. unfold outcome.
  destruct (dict_get "DISTRIB_RELEASE" (lsb_release e)) as [release|] eqn:Hr.
  - destruct (release <? "16.04")%string eqn:Hlt.
    + erewrite update_dns_ha_resource_params_raises; [reflexivity|].
      unfold update_hacluster_dns_ha, assert_charm_supports_dns_ha.
      unfold bind at 1. rewrite Hr, Hlt. reflexivity.
    + assert (Hrel : release_ok e) by (exists release; now split).
      destruct (existsb (fun s => negb (is_none (charm_config e s)))
                        dns_settings) eqn:Hex.
      * destruct (update_dns_ha_resource_params_returns e charm_name crm_ocf rs ps relation_id t Hrel Hex)
          as (v & t' & Hv).
        exists v. now rewrite Hv.
      * assert (Hf : filter (usable e) dns_settings = []).
        { change (existsb (usable e) dns_settings = false) in Hex.
          induction dns_settings as [|s l IH]; [reflexivity|].
          simpl in Hex |- *. apply orb_false_iff in Hex.
          destruct Hex as [H1 H2]. rewrite H1. now apply IH. }
        destruct (update_hacluster_dns_ha_blocked e charm_name crm_ocf
                    [("resources", JDict []); ("resource_params", JDict [])]
                    t Hrel Hf) as (tr & Heq).
        erewrite update_dns_ha_resource_params_raises; [reflexivity|].
        exact Heq.
  - erewrite update_dns_ha_resource_params_raises; [reflexivity|].
    unfold update_hacluster_dns_ha, assert_charm_supports_dns_ha.
    unfold bind at 1. rewrite Hr. reflexivity.
Qed.

(** ** VIP mode with extra settings *)

Lemma initial_data_dicts (service : string) (haproxy_enabled : bool)
      (k : string) (cur : jval) :
  dict_get k (initial_data service haproxy_enabled) = Some cur ->
  is_dict cur = true.
Proof.
  destruct haproxy_enabled; simpl;
    repeat (match goal with
            | |- context [if ?b then _ else _] => destruct b
            end; [intros H; now injection H as <-|]);
    discriminate.
Qed.

Lemma mergeable_of_dicts (rd : rdata) (items : list (string * jval)) :
  (forall k cur, dict_get k rd = Some cur -> is_dict cur = true) ->
  forallb (fun kv => is_dict (snd kv)) items = true ->
  forallb (mergeable rd) items = true.
Proof.
  intros Hrd H. rewrite forallb_forall in H |- *. intros [k v] Hin.
  specialize (H _ Hin). simpl in H. unfold mergeable. simpl.
  destruct (dict_get k rd) as [cur|] eqn:E; [|reflexivity].
  destruct (nonempty cur); [|reflexivity].
  now rewrite (Hrd k cur E), H.
Qed.

Lemma merged_value_dict (cur : option jval) (v : jval) :
  is_dict v = true ->
  (forall c, cur = Some c -> is_dict c = true) ->
  exists d, merged_value cur v = JDict d.
Proof.
  intros Hv Hc. destruct v as [| |d2]; try discriminate.
  unfold merged_value. destruct cur as [c|]; [|now exists d2].
  specialize (Hc c eq_refl). destruct c as [| |d]; try discriminate.
  destruct (nonempty (JDict d)); eauto.
Qed.

Lemma dict_get_forallb {V} (p : V -> bool) (items : list (string * V))
      (k : string) (v : V) :
  forallb (fun kv => p (snd kv)) items = true ->
  dict_get k items = Some v -> p v = true.
Proof.
  induction items as [|[k' v'] items IH]; simpl; [discriminate|].
  rewrite andb_true_iff. intros [H1 H2].
  destruct (k =? k'); [intros H; now injection H as <- | now apply IH].
Qed.

(** The relation data after the extra settings, when every setting is a
    dict and none is [delete_resources]. *)
Lemma merged_data_shape (service : string) (haproxy_enabled : bool)
      (items : list (string * jval)) :
  distinct (keys items) = true ->
  forallb (fun kv => is_dict (snd kv)) items = true ->
  dict_get "delete_resources" items = None ->
  exists rd1 rs ps,
    merge_extras (initial_data service haproxy_enabled) items = Ok rd1
    /\ has_dicts rd1 rs ps
    /\ old_delete rd1 = Some []
    /\ dict_get "groups" rd1 = dict_get "groups" items
    /\ NoDup (keys rd1).
Proof.
  intros Hd Hdicts Hdel.
  set (rd0 := initial_data service haproxy_enabled).
  destruct (merge_extras_lookup items rd0 Hd) as (rd1 & Heq & Hget).
  { apply mergeable_of_dicts; [apply initial_data_dicts | exact Hdicts]. }
  assert (Hdict : forall k,
             (exists d0, dict_get k rd0 = Some (JDict d0)) ->
             exists d, dict_get k rd1 = Some (JDict d)).
  { intros k [d0 H0]. rewrite Hget.
    destruct (dict_get k items) as [v|] eqn:E; [|now exists d0].
    destruct (merged_value_dict (dict_get k rd0) v) as [d Hm].
    - apply (dict_get_forallb is_dict items k v Hdicts E).
    - intros c Hc. apply (initial_data_dicts service haproxy_enabled k).
      exact Hc.
    - exists d. now rewrite Hm. }
  destruct (Hdict "resources") as [rs Hrs].
  { unfold rd0. destruct haproxy_enabled; eexists; reflexivity. }
  destruct (Hdict "resource_params") as [ps Hps].
  { unfold rd0. destruct haproxy_enabled; eexists; reflexivity. }
  exists rd1, rs, ps. split; [exact Heq|]. split; [now split|].
  split; [|split].
  - unfold old_delete. rewrite Hget, Hdel. unfold rd0.
    now destruct haproxy_enabled.
  - rewrite Hget. destruct (dict_get "groups" items) as [v|]; unfold rd0.
    + now destruct haproxy_enabled.
    + now destruct haproxy_enabled.
  - apply (merge_extras_NoDup _ _ _ Heq), NoDup_initial_data.
Qed.

(** X15.  VIP mode with extra settings.  When [dns-ha] is false, the
    cluster configuration has a [vip] entry, and the extra settings have
    distinct keys, hold a dict under each, and do not name
    [delete_resources], the assembler raises nothing; and the groups the
    extra settings bring are still in [groups] beside the VIP group. *)
Theorem X15_vip_mode_with_extras
        (e : env) (service vips : string) (haproxy_enabled : bool)
        (extra_settings : option (dict jval)) (t : list event) :
  truthy (charm_config e "dns-ha") = false ->
  dict_get "vip" (get_hacluster_config e) = Some vips ->
  distinct (keys (extra_items extra_settings)) = true ->
  forallb (fun kv => is_dict (snd kv)) (extra_items extra_settings) = true ->
  dict_get "delete_resources" (extra_items extra_settings) = None ->
  exists rd t',
    assemble e service haproxy_enabled extra_settings t = (Ok rd, t')
    /\ generate_ha_relation_data e service haproxy_enabled extra_settings t
       = (Ok (encode rd), t')
    /\ forall g0,
        dict_get "groups" (extra_items extra_settings) = Some (JDict g0) ->
        exists g',
          dict_get "groups" rd = Some (JDict g')
          /\ forall k,
              k <> "grp_" ++ service ++ "_vips" ->
              dict_get k g' = dict_get k g0.
Proof.
  intros Hdns Hv Hd Hdicts Hdel.
  destruct (merged_data_shape service haproxy_enabled
              (extra_items extra_settings) Hd Hdicts Hdel)
    as (rd1 & rs & ps & Hm & Hhd & Hod & Hgr & Hnd).
  assert (Hmerge : match extra_settings with
                   | Some items =>
                       merge_extras (initial_data service haproxy_enabled)
                                    items
                   | None => Ok (initial_data service haproxy_enabled)
                   end = Ok rd1).
  { destruct extra_settings as [items|]; [exact Hm|].
    simpl in Hm. exact Hm. }
  assert (Hog : exists g, old_groups rd1 = Some g
                          /\ forall g0,
                              dict_get "groups" (extra_items extra_settings)
                              = Some (JDict g0) -> g = g0).
  { unfold old_groups. rewrite Hgr.
    destruct (dict_get "groups" (extra_items extra_settings)) as [v|] eqn:E.
    - pose proof (dict_get_forallb is_dict _ _ _ Hdicts E) as Hv'.
      destruct v as [| |g]; try discriminate. exists g. split; [reflexivity|].
      intros g0 H. now injection H.
    - exists []. split; [reflexivity | discriminate]. }
  destruct Hog as (g & Hog & Hg0).
  destruct (update_hacluster_vip_spec e service rd1
              (t ++ [ConfigRead "dns-ha"])%list vips rs ps [] g
              Hv Hhd Hod Hog) as (rd' & Heq & _ & Hmatch & _).
  assert (Has : assemble e service haproxy_enabled extra_settings t
                = (Ok rd', ((t ++ [ConfigRead "dns-ha"])
                              ++ flat_map (vip_reads e) (split vips))%list)).
  { unfold assemble. unfold bind at 1, lift. rewrite Hmerge.
    unfold config, bind, emit, ret. now rewrite Hdns. }
  do 2 eexists. split; [exact Has|]. split.
  - unfold generate_ha_relation_data, bind. now rewrite Has.
  - intros g0 Hg. specialize (Hg0 g0 Hg). subst g0.
    destruct (filter (recorded e) (split vips)) as [|v0 kept].
    + exists g. split; [|reflexivity].
      destruct Hmatch as [_ ->]. now rewrite Hgr.
    + destruct Hmatch as [_ ->]. eexists. split; [reflexivity|].
      intros k Hk. now apply dict_get_set_other.
Qed.

Lemma X15_witness :
  exists rd t',
    assemble Examples.nova_env "nova" true (Some ha_console_settings) []
    = (Ok rd, t')
    /\ generate_ha_relation_data Examples.nova_env "nova" true
                                 (Some ha_console_settings) []
       = (Ok (encode rd), t').
Proof.
  destruct (X15_vip_mode_with_extras Examples.nova_env "nova" "10.0.0.5" true
              (Some ha_console_settings) [] eq_refl eq_refl eq_refl eq_refl
              eq_refl) as (rd & t' & H1 & H2 & _).
  exists rd, t'. split; [exact H1 | exact H2].
Defined.

(** ** DNS-HA mode with extra settings *)

Lemma merged_has_dicts (service : string) (haproxy_enabled : bool)
      (items : list (string * jval)) :
  distinct (keys items) = true ->
  forallb (fun kv => is_dict (snd kv)) items = true ->
  exists rd1 rs ps,
    merge_extras (initial_data service haproxy_enabled) items = Ok rd1
    /\ has_dicts rd1 rs ps
    /\ NoDup (keys rd1).
Proof.
  intros Hd Hdicts.
  set (rd0 := initial_data service haproxy_enabled).
  destruct (merge_extras_lookup items rd0 Hd) as (rd1 & Heq & Hget).
  { apply mergeable_of_dicts; [apply initial_data_dicts | exact Hdicts]. }
  assert (Hdict : forall k,
             (exists d0, dict_get k rd0 = Some (JDict d0)) ->
             exists d, dict_get k rd1 = Some (JDict d)).
  { intros k [d0 H0]. rewrite Hget.
    destruct (dict_get k items) as [v|] eqn:E; [|now exists d0].
    destruct (merged_value_dict (dict_get k rd0) v) as [d Hm].
    - apply (dict_get_forallb is_dict items k v Hdicts E).
    - intros c Hc. apply (initial_data_dicts service haproxy_enabled k).
      exact Hc.
    - exists d. now rewrite Hm. }
  destruct (Hdict "resources") as [rs Hrs].
  { unfold rd0. destruct haproxy_enabled; eexists; reflexivity. }
  destruct (Hdict "resource_params") as [ps Hps].
  { unfold rd0. destruct haproxy_enabled; eexists; reflexivity. }
  exists rd1, rs, ps. split; [exact Heq|]. split; [now split|].
  apply (merge_extras_NoDup _ _ _ Heq), NoDup_initial_data.
Qed.

(** X16.  DNS-HA mode with extra settings.  When [dns-ha] is true, the
    release is supported, a hostname is set, and the extra settings have
    distinct keys and hold a dict under each, the assembler returns, and
    [groups] holds the hostname group alone: groups brought by the extra
    settings are not in the payload, whose [json_groups] is the encoding of
    that one entry. *)
Theorem X16_dns_mode_with_extras
        (e : env) (service : string) (haproxy_enabled : bool)
        (extra_settings : option (dict jval)) (t : list event) :
  truthy (charm_config e "dns-ha") = true ->
  release_ok e ->
  existsb (fun s => negb (is_none (charm_config e s))) dns_settings = true ->
  distinct (keys (extra_items extra_settings)) = true ->
  forallb (fun kv => is_dict (snd kv)) (extra_items extra_settings) = true ->
  exists rd t' members,
    assemble e service haproxy_enabled extra_settings t = (Ok rd, t')
    /\ generate_ha_relation_data e service haproxy_enabled extra_settings t
       = (Ok (encode rd), t')
    /\ dict_get "groups" rd
       = Some (JDict [("grp_" ++ service ++ "_hostnames", JStr members)])
    /\ dict_get "json_groups" (encode rd)
       = Some ("{" ++ (quote ("grp_" ++ service ++ "_hostnames") ++ ":"
                       ++ quote members) ++ "}").
Proof.
  intros Hdns Hrel Hex Hd Hdicts.
  destruct (merged_has_dicts service haproxy_enabled
              (extra_items extra_settings) Hd Hdicts)
    as (rd1 & rs & ps & Hm & Hhd & Hnd).
  assert (Hmerge : match extra_settings with
                   | Some items =>
                       merge_extras (initial_data service haproxy_enabled)
                                    items
                   | None => Ok (initial_data service haproxy_enabled)
                   end = Ok rd1).
  { destruct extra_settings as [items|]; exact Hm. }
  destruct (update_hacluster_dns_ha_spec e service "ocf:maas:dns" rd1
              (t ++ [ConfigRead "dns-ha"])%list rs ps Hrel Hhd
              (existsb_usable e Hex))
    as (rd' & tr & Heq & _ & Hg & _ & Hnd').
  specialize (Hnd' Hnd).
  assert (Has : assemble e service haproxy_enabled extra_settings t
                = (Ok rd', ((t ++ [ConfigRead "dns-ha"]) ++ tr)%list)).
  { unfold assemble. unfold bind at 1, lift. rewrite Hmerge.
    unfold config, bind, emit, ret. now rewrite Hdns. }
  do 3 eexists. split; [exact Has|]. split; [|split].
  - unfold generate_ha_relation_data, bind. now rewrite Has.
  - exact Hg.
  - change "json_groups" with ("json_" ++ "groups").
    rewrite (dict_get_encode rd' "groups" Hnd'), Hg. reflexivity.
Qed.

Lemma X16_witness :
  exists rd t' members,
    assemble
      (Examples.dns_env "16.04" [("os-public-hostname", "nova.example.com")])
      "nova" false
      (Some [("groups", JDict [("grp_other", JStr "res_a res_b")])]) []
    = (Ok rd, t')
    /\ dict_get "groups" rd
       = Some (JDict [("grp_nova_hostnames", JStr members)]).
Proof.
  destruct (X16_dns_mode_with_extras
              (Examples.dns_env "16.04"
                 [("os-public-hostname", "nova.example.com")])
              "nova" false
              (Some [("groups", JDict [("grp_other", JStr "res_a res_b")])])
              [] eq_refl (ex_intro _ "16.04" (conj eq_refl eq_refl))
              eq_refl eq_refl eq_refl)
    as (rd & t' & members & H1 & _ & H3 & _).
  exists rd, t', members. split; [exact H1 | exact H3].
Defined.

(** ** What the builders do to the outside world *)

Lemma vip_step_trace (e : env) (service : string) (st : vip_state)
      (vip : string) (t : list event) :
  snd (vip_step e service st vip t) = (t ++ vip_reads e vip)%list.
Proof.
  unfold vip_step.
  destruct (is_ipv6 e vip); unfold bind at 1; rewrite get_vip_settings_eq;
    destruct (negb (is_none (vip_iface e vip))); try reflexivity;
    unfold bind, lift, ret;
    (destruct (set_item (vs_data st) _ _ _) as [rd1|]; [|reflexivity]);
    (destruct (set_item rd1 _ _ _) as [rd2|]; reflexivity).
Qed.

Lemma vip_loop_trace (e : env) (service : string) (l : list string) :
  forall (st : vip_state) (t : list event),
    exists n,
      snd (for_each l (vip_step e service) st t)
      = (t ++ flat_map (vip_reads e) (firstn n l))%list.
Proof.
  induction l as [|vip l IH]; intros st t.
  - exists 0. simpl. now rewrite app_nil_r.
  - rewrite for_each_cons.
    pose proof (vip_step_trace e service st vip t) as Hs.
    destruct (vip_step e service st vip t) as [[st1|x] t1]; simpl in Hs;
      subst t1.
    + destruct (IH st1 (t ++ vip_reads e vip)%list) as (n & Hn).
      exists (S n). rewrite Hn. simpl. now rewrite <- app_assoc.
    + exists 1. simpl. now rewrite app_nil_r.
Qed.

(** X17.  The effects of the VIP builder.  Whatever the relation data and
    however it ends, the VIP builder adds nothing to the effects but
    configuration reads (it never reports a status and never logs); and
    when discovery finds an interface and a netmask for every address, it
    has no effect at all. *)
Theorem X17_vip_effects
        (e : env) (service : string) (rd : rdata) (t : list event) :
  exists reads,
    snd (update_hacluster_vip e service rd t) = (t ++ reads)%list
    /\ Forall is_config_read reads
    /\ ((forall a, get_iface_for_address e a <> None) ->
        (forall a, get_netmask_for_address e a <> None) ->
        reads = []).
Proof.
  assert (Hfm : forall l,
             Forall is_config_read (flat_map (vip_reads e) l)
             /\ ((forall a, get_iface_for_address e a <> None) ->
                 (forall a, get_netmask_for_address e a <> None) ->
                 flat_map (vip_reads e) l = [])).
  { induction l as [|vip l [IH1 IH2]]; simpl; [split; [constructor|auto]|].
    split.
    - apply Forall_app. split; [apply Forall_vip_reads | exact IH1].
    - intros Hi Hn. rewrite (IH2 Hi Hn). unfold vip_reads.
      specialize (Hi vip). specialize (Hn vip).
      destruct (get_iface_for_address e vip),
        (get_netmask_for_address e vip); try congruence. reflexivity. }
  unfold update_hacluster_vip.
  destruct (dict_get "vip" (get_hacluster_config e)) as [vips|].
  - unfold bind at 1.
    destruct (vip_loop_trace e service (split vips) (VipState rd [] []) t)
      as (n & Hn).
    destruct (for_each (split vips) (vip_step e service) (VipState rd [] []) t)
      as [[st|x] t1]; simpl in Hn; subst t1.
    + exists (flat_map (vip_reads e) (firstn n (split vips))).
      split; [|apply Hfm].
      unfold vip_finish, bind, lift, ret.
      destruct (vs_delete st) as [|d0 dl].
      * destruct (1 <=? List.length (vs_group st))%nat; [|reflexivity].
        now destruct (set_group _ _ _).
      * destruct (extend_delete _ _) as [rd1|]; [|reflexivity].
        destruct (1 <=? List.length (vs_group st))%nat; [|reflexivity].
        now destruct (set_group _ _ _).
    + exists (flat_map (vip_reads e) (firstn n (split vips))).
      split; [reflexivity | apply Hfm].
  - exists []. unfold raise. simpl. rewrite app_nil_r.
    split; [reflexivity|]. split; [constructor | reflexivity].
Qed.

Lemma X17_witness :
  snd (update_hacluster_vip (Examples.eth0_env "10.0.0.5 fe80::1") "nova"
                            (initial_data "nova" true) [])
  = [].
Proof.
  destruct (X17_vip_effects (Examples.eth0_env "10.0.0.5 fe80::1") "nova"
              (initial_data "nova" true) []) as (reads & H1 & _ & H3).
  rewrite H1. apply H3; intros a H; discriminate H.
Defined.

Lemma dns_step_quiet (e : env) (service crm_ocf : string) (rd : rdata)
      (grp : list string) (s g : string) (t : list event) :
  re_search s = Some g ->
  ~ In (hostname_key service s) grp ->
  exists tr,
    snd (dns_step e service crm_ocf (rd, grp) s t) = (t ++ tr)%list
    /\ Forall quiet tr
    /\ match fst (dns_step e service crm_ocf (rd, grp) s t) with
       | Ok (_, grp') =>
           grp' = grp \/ grp' = (grp ++ [hostname_key service s])%list
       | Raise (DNSHAException _) => False
       | Raise _ => True
       end.
Proof.
  intros Hg Hin.
  assert (Hm : mem (hostname_key service s) grp = false).
  { destruct (mem _ grp) eqn:E; [|reflexivity]. apply mem_In in E. tauto. }
  unfold hostname_key, endpoint_of in Hm |- *. rewrite Hg in Hm |- *.
  unfold dns_step, config, log, bind, emit, ret, lift.
  destruct (is_none (charm_config e s)).
  - eexists. rewrite <- app_assoc. split; [reflexivity|].
    split; [repeat constructor | now left].
  - rewrite Hg, Hm. exists [ConfigRead s].
    match goal with
    | |- context [set_item rd "resources" ?k ?v] =>
        pose proof (set_item_class rd "resources" k v) as H1;
        destruct (set_item rd "resources" k v) as [rd1|x1]
    end.
    + match goal with
      | |- context [set_item rd1 "resource_params" ?k ?v] =>
          pose proof (set_item_class rd1 "resource_params" k v) as H2;
          destruct (set_item rd1 "resource_params" k v) as [rd2|x2]
      end.
      * split; [reflexivity|]. split; [repeat constructor | now right].
      * split; [reflexivity|]. split; [repeat constructor|].
        simpl. now destruct H2 as [->| ->].
    + split; [reflexivity|]. split; [repeat constructor|].
      simpl. now destruct H1 as [->| ->].
Qed.

Lemma dns_loop_quiet (e : env) (service crm_ocf : string)
      (settings : list string) :
  forall (rd : rdata) (grp : list string) (t : list event),
    Forall (fun s => re_search s <> None) settings ->
    NoDup (map (hostname_key service) settings) ->
    (forall s, In s settings -> ~ In (hostname_key service s) grp) ->
    exists tr,
      snd (for_each settings (dns_step e service crm_ocf) (rd, grp) t)
      = (t ++ tr)%list
      /\ Forall quiet tr
      /\ match fst (for_each settings (dns_step e service crm_ocf)
                             (rd, grp) t) with
         | Raise (DNSHAException _) => False
         | _ => True
         end.
Proof.
  induction settings as [|s settings IH]; intros rd grp t Hm Hn Hg.
  - exists []. simpl. rewrite app_nil_r. repeat split. constructor.
  - inversion Hm as [|? ? Hs Hm']; subst.
    inversion Hn as [|? ? Hni Hn']; subst.
    destruct (re_search s) as [g0|] eqn:Hre; [|congruence].
    destruct (dns_step_quiet e service crm_ocf rd grp s g0 t Hre
                (Hg s (or_introl eq_refl))) as (tr0 & Ht0 & Hq0 & Hc).
    rewrite for_each_cons.
    destruct (dns_step e service crm_ocf (rd, grp) s t)
      as [[[rd1 grp1]|x] t1]; simpl in Ht0, Hc; subst t1.
    + destruct (IH rd1 grp1 (t ++ tr0)%list Hm' Hn')
        as (tr & Ht & Hq & Hk).
      { intros s' Hs' Hin. destruct Hc as [->| ->].
        - apply (Hg s' (or_intror Hs') Hin).
        - apply in_app_or in Hin. destruct Hin as [Hin|[E|[]]].
          + apply (Hg s' (or_intror Hs') Hin).
          + apply Hni. rewrite E. now apply in_map. }
      exists (tr0 ++ tr)%list. rewrite Ht, <- app_assoc.
      split; [reflexivity|]. split; [|exact Hk].
      apply Forall_app. now split.
    + exists tr0. simpl. split; [reflexivity|]. split; [exact Hq0|].
      now destruct x.
Qed.

(** X18.  Status reports of the DNS-HA builder.  Whatever the environment
    and the relation data, the builder reports a status exactly when it
    raises [DNSHAException]: then the last effect is the status [blocked]
    with the message of the exception, and it is the only status report;
    when the builder returns, or raises anything else, it has reported no
    status. *)
Theorem X18_dns_status_reports
        (e : env) (service crm_ocf : string) (rd : rdata) (t : list event) :
  exists tr,
    snd (update_hacluster_dns_ha e service rd crm_ocf t) = (t ++ tr)%list
    /\ match fst (update_hacluster_dns_ha e service rd crm_ocf t) with
       | Raise (DNSHAException msg) =>
           exists tr0,
             tr = (tr0 ++ [StatusSet "blocked" msg])%list /\ Forall quiet tr0
       | _ => Forall quiet tr
       end.
Proof.
  unfold update_hacluster_dns_ha. unfold bind at 1 2.
  unfold assert_charm_supports_dns_ha.
  destruct (dict_get "DISTRIB_RELEASE" (lsb_release e)) as [release|].
  - destruct (release <? "16.04")%string.
    + eexists. split; [reflexivity|]. exists []. split; [reflexivity|].
      constructor.
    + unfold ret. unfold bind at 1 2.
      destruct (dns_loop_quiet e service crm_ocf dns_settings rd [] t)
        as (tr & Ht & Hq & Hk).
      { repeat constructor; discriminate. }
      { apply NoDup_dns_keys. }
      { intros s _ []. }
      destruct (for_each dns_settings (dns_step e service crm_ocf) (rd, []) t)
        as [[[rd1 grp1]|x] t1]; simpl in Ht, Hk; subst t1.
      * unfold dns_finish. destruct (1 <=? List.length grp1)%nat.
        -- unfold bind, log, emit, ret. eexists. rewrite <- app_assoc.
           split; [reflexivity|]. simpl. apply Forall_app.
           split; [exact Hq | repeat constructor].
        -- unfold bind, status_set, emit, raise. eexists.
           rewrite <- app_assoc. split; [reflexivity|]. simpl.
           exists tr. split; [reflexivity | exact Hq].
      * exists tr. split; [reflexivity|]. simpl.
        destruct x; try exact Hq. destruct Hk.
  - exists []. unfold raise. simpl. rewrite app_nil_r.
    split; [reflexivity | constructor].
Qed.

(** ** Legacy names on distinct interfaces *)

Lemma legacy_base_inj (service a b : string) :
  "res_" ++ service ++ "_" ++ a ++ "_vip"
  = "res_" ++ service ++ "_" ++ b ++ "_vip" -> a = b.
Proof.
  intros H. apply (append_inj_l "res_") in H. apply append_inj_l in H.
  apply (append_inj_l "_") in H. now apply append_inj_r in H.
Qed.

Lemma legacy_names_plain (e : env) (service : string) (l : list string) :
  forall seen,
    NoDup (map (fun vip => py_str (vip_iface e vip)) (filter (recorded e) l)) ->
    (forall vip, In vip (filter (recorded e) l) ->
                 ~ In ("res_" ++ service ++ "_" ++ py_str (vip_iface e vip)
                       ++ "_vip") seen) ->
    legacy_names e service seen l
    = map (fun vip => "res_" ++ service ++ "_" ++ py_str (vip_iface e vip)
                      ++ "_vip") (filter (recorded e) l).
Proof.
  induction l as [|vip l IH]; intros seen ND Hs; [reflexivity|].
  simpl in ND, Hs |- *. destruct (recorded e vip) eqn:Hrec; [|now apply IH].
  simpl in ND, Hs. inversion ND as [|? ? Hn ND']; subst.
  assert (Hm : mem ("res_" ++ service ++ "_" ++ py_str (vip_iface e vip)
                    ++ "_vip") seen = false).
  { destruct (mem _ seen) eqn:E; [|reflexivity]. apply mem_In in E.
    exfalso. apply (Hs vip (or_introl eq_refl) E). }
  unfold legacy_name at 1 2. rewrite Hm. simpl map. f_equal.
  apply IH; [exact ND'|].
  intros v Hv Hin. apply in_app_or in Hin. destruct Hin as [Hin|[E|[]]].
  - apply (Hs v (or_intror Hv) Hin).
  - apply legacy_base_inj in E. apply Hn. rewrite E.
    apply (in_map (fun vip => py_str (vip_iface e vip))). exact Hv.
Qed.

(** X19.  Legacy names when every VIP has an interface of its own.  If the
    VIPs for which an interface is known are all on different interfaces,
    no parameter-key suffix is used: the VIP builder returns, the names it
    appends to [delete_resources] are
    ['res_' + service + '_' + iface + '_vip'] for those VIPs in their
    order, and they are pairwise different. *)
Theorem X19_legacy_names_distinct_interfaces
        (e : env) (service vips : string) (rd : rdata) (rs ps : dict jval)
        (dl : list jval) (g : dict jval) (t : list event) :
  dict_get "vip" (get_hacluster_config e) = Some vips ->
  has_dicts rd rs ps ->
  old_delete rd = Some dl ->
  old_groups rd = Some g ->
  let kept :=
    filter (fun vip => negb (is_none (vip_iface e vip))) (split vips) in
  distinct (map (fun vip => py_str (vip_iface e vip)) kept) = true ->
  let names :=
    map (fun vip => "res_" ++ service ++ "_" ++ py_str (vip_iface e vip)
                    ++ "_vip") kept in
  exists rd' t',
    update_hacluster_vip e service rd t = (Ok rd', t')
    /\ NoDup names
    /\ dict_get "delete_resources" rd'
       = match names with
         | [] => dict_get "delete_resources" rd
         | _ => Some (JList (dl ++ map JStr names))
         end.
Proof.
  intros Hv Hd Hdl Hg kept Hdist names.
  apply distinct_NoDup in Hdist.
  destruct (update_hacluster_vip_spec e service rd t vips rs ps dl g
              Hv Hd Hdl Hg) as (rd' & Heq & _ & Hm & _).
  assert (Hnames : legacy_names e service [] (split vips) = names).
  { apply legacy_names_plain; [exact Hdist | intros vip _ []]. }
  exists rd', (t ++ flat_map (vip_reads e) (split vips))%list.
  split; [exact Heq|]. split.
  - unfold names.
    rewrite <- (map_map (fun vip => py_str (vip_iface e vip))
                        (fun i => "res_" ++ service ++ "_" ++ i ++ "_vip")).
    apply NoDup_map_inj; [|exact Hdist].
    intros a b. apply legacy_base_inj.
  - rewrite Hnames in Hm.
    change (filter (recorded e) (split vips)) with kept in Hm.
    unfold names. destruct kept; apply Hm.
Qed.

Lemma X19_witness :
  exists rd' t',
    update_hacluster_vip two_interface_env "nova" (initial_data "nova" false)
                         [] = (Ok rd', t')
    /\ NoDup ["res_nova_eth0_vip"; "res_nova_eth1_vip"]
    /\ dict_get "delete_resources" rd'
       = Some (JList [JStr "res_nova_eth0_vip"; JStr "res_nova_eth1_vip"]).
Proof.
  exact (X19_legacy_names_distinct_interfaces
           two_interface_env "nova" "10.0.0.5 10.9.9.9 10.0.1.5"
           (initial_data "nova" false) [] [] [] [] []
           eq_refl (conj eq_refl eq_refl) eq_refl eq_refl eq_refl).
Defined.

(** ** Endpoint types *)

(** The settings that hold a hostname, by the name between [os-] and
    [-hostname]. *)
Lemma usable_settings (e : env) :
  filter (usable e) dns_settings
  = map (fun g => "os-" ++ g ++ "-hostname")
        (filter (fun g => negb (is_none (charm_config e
                                           ("os-" ++ g ++ "-hostname"))))
                ["admin"; "internal"; "public"; "access"]).
Proof.
  unfold dns_settings, usable. simpl.
  destruct (is_none (charm_config e "os-admin-hostname"));
    destruct (is_none (charm_config e "os-internal-hostname"));
    destruct (is_none (charm_config e "os-public-hostname"));
    destruct (is_none (charm_config e "os-access-hostname")); reflexivity.
Qed.

Lemma endpoint_of_name (g : string) :
  In g ["admin"; "internal"; "public"; "access"] ->
  In ("os-" ++ g ++ "-hostname") dns_settings
  /\ endpoint_of ("os-" ++ g ++ "-hostname")
     = if g =? "internal" then "int" else g.
Proof.
  unfold dns_settings.
  intros [<-|[<-|[<-|[<-|[]]]]]; (split; [simpl; tauto | reflexivity]).
Qed.

(** C8.  On a supported release, for every one of the settings
    [os-admin-hostname], [os-internal-hostname], [os-public-hostname] and
    [os-access-hostname] that is set, the DNS-HA builder takes the name
    between [os-] and [-hostname] as the endpoint type, with [int] in place
    of [internal], and records the resource
    ['res_' + service + '_' + endpoint_type + '_hostname']: that key holds
    [crm_ocf] in [resources] and, in [resource_params], the hostname with
    the address [resolve_address] gives for the endpoint type.  The keys it
    adds are those of the settings that are set and no other, and they are
    the members of the hostname group in the order admin, int, public,
    access.  No key it adds is ['res_' + service + '_internal_hostname'];
    with [os-internal-hostname] alone the one key added, and the one member
    of the group, is ['res_' + service + '_int_hostname']. *)
Theorem C8_endpoint_type
        (e : env) (service crm_ocf : string) (rd : rdata) (rs ps : dict jval)
        (t : list event) :
  release_ok e ->
  has_dicts rd rs ps ->
  let setting g := "os-" ++ g ++ "-hostname" in
  let endpoint_type g := if g =? "internal" then "int" else g in
  let key g := "res_" ++ service ++ "_" ++ endpoint_type g ++ "_hostname" in
  let params g :=
    JStr ("params fqdn=" ++ quoted (py_str (charm_config e (setting g)))
          ++ " ip_address="
          ++ quoted (resolve_address e (endpoint_type g) false)) in
  let configured :=
    filter (fun g => negb (is_none (charm_config e (setting g))))
           ["admin"; "internal"; "public"; "access"] in
  configured <> [] ->
  exists rd' rs' ps' t',
    update_hacluster_dns_ha e service rd crm_ocf t = (Ok rd', t')
    /\ dict_get "resources" rd' = Some (JDict rs')
    /\ dict_get "resource_params" rd' = Some (JDict ps')
    /\ (forall g,
           In g configured ->
           dict_get (key g) rs' = Some (JStr crm_ocf)
           /\ dict_get (key g) ps' = Some (params g))
    /\ (forall k,
           In k (keys rs') <-> In k (keys rs) \/ In k (map key configured))
    /\ (forall k,
           In k (keys ps') <-> In k (keys ps) \/ In k (map key configured))
    /\ dict_get "groups" rd'
       = Some (JDict [("grp_" ++ service ++ "_hostnames",
                       JStr (join " " (map key configured)))])
    /\ map key ["admin"; "internal"; "public"; "access"]
       = ["res_" ++ service ++ "_admin_hostname";
          "res_" ++ service ++ "_int_hostname";
          "res_" ++ service ++ "_public_hostname";
          "res_" ++ service ++ "_access_hostname"]
    /\ ~ In ("res_" ++ service ++ "_internal_hostname") (map key configured)
    /\ (configured = ["internal"] ->
        rs' = dict_set ("res_" ++ service ++ "_int_hostname") (JStr crm_ocf) rs
        /\ ps' = dict_set ("res_" ++ service ++ "_int_hostname")
                          (params "internal") ps
        /\ dict_get "groups" rd'
           = Some (JDict [("grp_" ++ service ++ "_hostnames",
                           JStr ("res_" ++ service ++ "_int_hostname"))])).
Proof.
  intros Hrel Hd setting endpoint_type key params configured Hne.
  assert (Hf : filter (usable e) dns_settings = map setting configured)
    by apply usable_settings.
  assert (Hkey : forall g, In g configured ->
                           In (setting g) dns_settings
                           /\ usable e (setting g) = true
                           /\ hostname_key service (setting g) = key g
                           /\ JStr (hostname_params e (setting g)) = params g).
  { intros g Hg. apply filter_In in Hg. destruct Hg as [Hg Hu].
    destruct (endpoint_of_name g Hg) as [Hin He].
    split; [exact Hin|]. split; [exact Hu|].
    unfold hostname_key, hostname_params, key, params, endpoint_type, setting.
    now rewrite He. }
  assert (Hkeys : map (hostname_key service) (map setting configured)
                  = map key configured).
  { rewrite map_map. apply map_ext_in. intros g Hg. apply (Hkey g Hg). }
  destruct (update_hacluster_dns_ha_spec e service crm_ocf rd t rs ps
              Hrel Hd) as (rd' & tr & Heq & [Hr Hp] & Hg & _).
  { rewrite Hf. destruct configured; [congruence | discriminate]. }
  rewrite Hf, Hkeys in Hg.
  exists rd', (dns_resources_after e service crm_ocf rs dns_settings),
    (dns_params_after e service ps dns_settings), (t ++ tr)%list.
  split; [exact Heq|]. split; [exact Hr|]. split; [exact Hp|].
  split; [|split; [|split; [|split; [exact Hg|split; [reflexivity|split]]]]].
  - intros g Hin. destruct (Hkey g Hin) as (H1 & H2 & H3 & H4).
    rewrite <- H3, <- H4. split.
    + now apply dns_resources_lookup.
    + now apply dns_params_lookup.
  - intros k. unfold dns_resources_after. rewrite In_keys_fold_set, Hf.
    rewrite <- Hkeys, in_map_iff.
    split; (intros [H|(s & H1 & H2)]; [now left | right; exists s]); auto.
  - intros k. unfold dns_params_after. rewrite In_keys_fold_set, Hf.
    rewrite <- Hkeys, in_map_iff.
    split; (intros [H|(s & H1 & H2)]; [now left | right; exists s]); auto.
  - intros Hin. apply in_map_iff in Hin. destruct Hin as (g & E & Hin).
    apply filter_In in Hin. destruct Hin as [Hin _]. unfold key in E.
    apply (hostname_key_inj service (endpoint_type g) "internal") in E.
    unfold endpoint_type in E.
    destruct Hin as [<-|[<-|[<-|[<-|[]]]]]; discriminate E.
  - intros Hc. unfold dns_resources_after, dns_params_after.
    rewrite Hc in Hg, Hf. rewrite Hf. simpl. auto.
Qed.

Lemma C8_witness :
  exists rd' rs' ps' t',
    update_hacluster_dns_ha
      (Examples.dns_env "16.04" [("os-public-hostname", "nova.example.com");
                                 ("os-internal-hostname", "nova.internal");
                                 ("os-admin-hostname", "nova.admin")])
      "nova" (initial_data "nova" false) "ocf:maas:dns" [] = (Ok rd', t')
    /\ dict_get "resources" rd' = Some (JDict rs')
    /\ dict_get "resource_params" rd' = Some (JDict ps')
    /\ dict_get "res_nova_int_hostname" rs' = Some (JStr "ocf:maas:dns")
    /\ dict_get "res_nova_int_hostname" ps'
       = Some (JStr ("params fqdn=" ++ quoted "nova.internal"
                     ++ " ip_address=" ++ quoted "10.0.1.2"))
    /\ dict_get "res_nova_public_hostname" ps'
       = Some (JStr ("params fqdn=" ++ quoted "nova.example.com"
                     ++ " ip_address=" ++ quoted "10.0.0.2"))
    /\ (forall k,
           In k (keys rs')
           <-> In k ["res_nova_admin_hostname"; "res_nova_int_hostname";
                     "res_nova_public_hostname"])
    /\ dict_get "groups" rd'
       = Some (JDict [("grp_nova_hostnames",
                       JStr ("res_nova_admin_hostname res_nova_int_hostname "
                             ++ "res_nova_public_hostname"))]).
Proof.
  destruct (C8_endpoint_type
              (Examples.dns_env "16.04"
                 [("os-public-hostname", "nova.example.com");
                  ("os-internal-hostname", "nova.internal");
                  ("os-admin-hostname", "nova.admin")])
              "nova" "ocf:maas:dns" (initial_data "nova" false) [] [] []
              (ex_intro _ "16.04" (conj eq_refl eq_refl))
              (conj eq_refl eq_refl)
              ltac:(discriminate))
    as (rd' & rs' & ps' & t' & H1 & H2 & H3 & H4 & H5 & _ & H7 & _).
  exists rd', rs', ps', t'.
  split; [exact H1|]. split; [exact H2|]. split; [exact H3|].
  split; [exact (proj1 (H4 "internal" (or_intror (or_introl eq_refl))))|].
  split; [exact (proj2 (H4 "internal" (or_intror (or_introl eq_refl))))|].
  split; [exact (proj2 (H4 "public"
                           (or_intror (or_intror (or_introl eq_refl)))))|].
  split; [|exact H7].
  intros k. destruct (H5 k) as [Ha Hb]. split.
  - intros Hk. destruct (Ha Hk) as [[]|Hin]. exact Hin.
  - intros Hk. apply Hb. right. exact Hk.
Defined.
